(** * SNN toolbox: the Caffe model extractor and the pyNN spiking-network builder

    A shallow embedding of
    - [snntoolbox/model_libs/caffe_input_lib.py] (layer labels, layer-type
      names, weight extraction with batch-normalization absorption), and
    - [snntoolbox/simulation/target_simulators/pyNN_target_sim.py] (the [SNN]
      class: building populations and connection lists, biases, the replay
      script, saving and loading).

    Python integers are [Z], [float64] values are primitive binary64 floats,
    dictionaries are finite maps, exceptions are an explicit outcome, and the
    methods of [SNN] are computations in a state monad over the object and the
    file system.  Definitions come first, theorems follow. *)

From Stdlib Require Import ZArith String Ascii List DecimalString DecimalZ Floats Lia.
From stdpp Require Import gmap strings list.

Open Scope Z_scope.

(** ** Python values and exceptions *)

Module Py.

(** The exceptions that the code and its libraries raise.
    [ConfigParserError] is [configparser.Error] with its subclasses, and
    [OSError] an error of the operating system whose subclass is left open. *)
Inductive exn :=
| IndexError
| KeyError
| ValueError
| TypeError
| AttributeError
| ZeroDivisionError
| AssertionError
| NotImplementedError
| RuntimeWarning
| UnpicklingError
| FileNotFoundError
| ImportError
| ConfigParserError
| OSError.

Inductive outcome (A : Type) :=
| Ok (a : A)
| Raise (e : exn).
Arguments Ok {A} a.
Arguments Raise {A} e.

Definition obind {A B} (m : outcome A) (k : A → outcome B) : outcome B :=
  match m with
  | Ok a => k a
  | Raise e => Raise e
  end.

(** [l[i]] for a non-negative index. *)
Definition getitem {A} (l : list A) (i : nat) : outcome A :=
  match l !! i with
  | Some a => Ok a
  | None => Raise IndexError
  end.

(** [d[k]] on a dictionary. *)
Definition getkey {A} (d : gmap string A) (k : string) : outcome A :=
  match d !! k with
  | Some a => Ok a
  | None => Raise KeyError
  end.

(** [a // b] and [a % b]: floor division, as [Z.div] and [Z.modulo] are,
    except that a zero divisor raises. *)
Definition floordiv (a b : Z) : outcome Z :=
  if decide (b = 0) then Raise ZeroDivisionError else Ok (a / b).

Definition mod_ (a b : Z) : outcome Z :=
  if decide (b = 0) then Raise ZeroDivisionError else Ok (a `mod` b).

(** [str(n)] and ['{}'.format(n)] of an integer. *)
Definition str (n : Z) : string := NilZero.string_of_int (Z.to_int n).

(** The characters [int()] skips at both ends of an ASCII string: tab, line
    feed, vertical tab, form feed, carriage return and the blank. *)
Definition is_space (c : ascii) : bool :=
  let n := nat_of_ascii c in
  ((9 <=? n)%nat && (n <=? 13)%nat) || (n =? 32)%nat.

Fixpoint lstrip (s : string) : string :=
  match s with
  | String c r => if is_space c then lstrip r else s
  | EmptyString => EmptyString
  end.

Fixpoint rstrip (s : string) : string :=
  match s with
  | String c r =>
      match rstrip r with
      | EmptyString => if is_space c then EmptyString else String c EmptyString
      | r' => String c r'
      end
  | EmptyString => EmptyString
  end.

(** [int(s)] on an ASCII string without underscores: surrounding whitespace is
    dropped, one sign is allowed, at least one decimal digit must follow. *)
Definition int (s : string) : outcome Z :=
  let t := rstrip (lstrip s) in
  let parsed :=
    match t with
    | String "+"%char r => option_map Decimal.Pos (NilZero.uint_of_string r)
    | _ => NilZero.int_of_string t
    end in
  match parsed with
  | Some d => Ok (Z.of_int d)
  | None => Raise ValueError
  end.

(** [s.split(sep)] for a one-character separator. *)
Fixpoint split (sep : ascii) (s : string) : list string :=
  match s with
  | EmptyString => [EmptyString]
  | String c r =>
      if Ascii.eqb c sep then EmptyString :: split sep r
      else match split sep r with
           | h :: t => String c h :: t
           | [] => [String c EmptyString]
           end
  end.

(** [sep in s] for a one-character [sep]. *)
Fixpoint contains (sep : ascii) (s : string) : bool :=
  match s with
  | EmptyString => false
  | String c r => Ascii.eqb c sep || contains sep r
  end.

(** [s.partition(sep)[-1]]: what follows the first occurrence of [sep], the
    empty string when there is none. *)
Fixpoint partition_last (sep s : string) : string :=
  if String.prefix sep s then String.substring (String.length sep) (String.length s - String.length sep) s
  else match s with
       | EmptyString => EmptyString
       | String _ r => partition_last sep r
       end.

(** [s.replace(a, b)] for one-character [a] and [b]. *)
Fixpoint replace (a b : ascii) (s : string) : string :=
  match s with
  | EmptyString => EmptyString
  | String c r => String (if Ascii.eqb c a then b else c) (replace a b r)
  end.

(** [os.path.join(a, b)] on POSIX paths. *)
Definition path_join (a b : string) : string :=
  match b with
  | String "/"%char _ => b
  | _ =>
      match rev (list_ascii_of_string a) with
      | [] => b
      | "/"%char :: _ => a +:+ b
      | _ => a +:+ "/" +:+ b
      end
  end.

(** [[f(a) for a in l]]: a comprehension whose body may raise. *)
Fixpoint mapM {A B} (f : A → outcome B) (l : list A) : outcome (list B) :=
  match l with
  | [] => Ok []
  | a :: r => obind (f a) (λ b, obind (mapM f r) (λ bs, Ok (b :: bs)))
  end.

(** [np.prod(xs, dtype=np.int)]: a product in 64-bit two's complement, for
    dimensions that fit in 64 bits themselves. *)
Definition wrap64 (z : Z) : Z := (z + 2 ^ 63) `mod` 2 ^ 64 - 2 ^ 63.

Definition np_prod (xs : list Z) : Z :=
  fold_left (λ acc x, wrap64 (acc * x)) xs 1.

(** A [float64] is falsy exactly when it compares equal to zero. *)
Definition truthy (x : float) : bool := negb (PrimFloat.eqb x 0%float).

(** [np.any(xs)]. *)
Definition np_any (xs : list float) : bool := existsb truthy xs.

End Py.

Import Py.

#[global] Instance outcome_ret : MRet outcome := λ A a, Ok a.
#[global] Instance outcome_bind : MBind outcome := λ A B k m, obind m k.

(** ** caffe_input_lib.py: the model extractor *)

Module Caffe.

Section Extract.

(** Arrays of parameters are opaque to the extractor. *)
Context {ndarray : Type}.

(** [absorb_bn] is imported from [snntoolbox.model_libs.common] and
    [bn_layers] from [snntoolbox.config]; neither module is among the sources,
    so both are parameters of the extractor. *)
Variable absorb_bn :
  ndarray → ndarray → ndarray → ndarray → ndarray → ndarray → float → ndarray * ndarray.
Variable bn_layers : list string.

(** An entry of [model_protobuf.layer]; [pool_method_0] stands for
    [layer.pooling_param.PoolMethod.DESCRIPTOR.values[0].name]. *)
Record proto_layer := {
  type : string;
  name : string;
  pool_method_0 : string
}.

(** An entry of [model.layers]. *)
Record net_layer := {
  net_type : string;
  blobs : list ndarray;
  epsilon : float
}.

(** The [caffe.Net] handle: [model.blobs] (shapes only), [model.params] and
    [model.layers]. *)
Record net := {
  net_blobs : gmap string (list Z);
  net_params : gmap string (list ndarray);
  net_layers : list net_layer
}.

(** The dictionary [attributes] built for one layer, up to the ['weights']
    entry. *)
Record attributes := {
  layer_num : nat;
  layer_type : string;
  output_shape : list Z;
  label : string;
  activation : option string;
  weights : option (ndarray * ndarray)
}.

Definition string_in (s : string) (l : list string) : bool :=
  bool_decide (s ∈ l).

(** Lines 117-133.  The first chain assigns the 'standard' name; the second
    chain is a fresh [if], whose [else] branch assigns [name] again.  [None]
    is [continue]. *)
Definition standard_name (layer : proto_layer) : option string :=
  let name := type layer in
  let layer_type :=
    if String.eqb name "InnerProduct" then Some "Dense"
    else if String.eqb name "Convolution" then Some "Convolution2D"
    else if String.eqb name "Pooling" then
      let pooling := pool_method_0 layer in
      if String.eqb pooling "MAX" then Some "MaxPooling2D"
      else Some "AveragePooling2D"
    else None in
  if string_in name ["ReLU"; "Softmax"] then Some "Activation"
  else if String.eqb name "Data" then None
  else let layer_type := Some name in layer_type.

(** Lines 146-151. *)
Definition shape_string (output_shape : list Z) : outcome string :=
  if (length output_shape =? 2)%nat then
    d1 ← getitem output_shape 1;
    Ok ("_" +:+ str d1)
  else
    d1 ← getitem output_shape 1;
    d2 ← getitem output_shape 2;
    d3 ← getitem output_shape 3;
    Ok ("_" +:+ str d1 +:+ "x" +:+ str d2 +:+ "x" +:+ str d3).

(** Line 152. *)
Definition num_str (layer_num : nat) : string :=
  if (9 <? layer_num)%nat then str (Z.of_nat layer_num)
  else "0" +:+ str (Z.of_nat layer_num).

(** Lines 146-153: the label appended to [labels]. *)
Definition make_label (layer_num : nat) (layer_type : string)
    (output_shape : list Z) : outcome string :=
  s ← shape_string output_shape;
  Ok (num_str layer_num +:+ layer_type +:+ s).

(** Lines 165-175: the ['weights'] and ['activation'] entries. *)
Definition extract_weights (model : net) (layer_key layer_type : string)
    (next_layer : option net_layer)
    : outcome (option string * option (ndarray * ndarray)) :=
  let next_layer_type := net_type <$> next_layer in
  if string_in layer_type ["Dense"; "Convolution2D"] then
    ps ← getkey (net_params model) layer_key;
    w ← getitem ps 0;
    b ← getitem ps 1;
    wb ← match next_layer with
         | Some nl =>
             if String.eqb (net_type nl) "BatchNormalization" then
               b0 ← getitem (blobs nl) 0;
               b1 ← getitem (blobs nl) 1;
               let weights := [b0; b1] in
               gamma ← getitem weights 0;
               beta ← getitem weights 1;
               mean ← getitem weights 2;
               std ← getitem weights 3;
               Ok (absorb_bn w b gamma beta mean std (epsilon nl))
             else Ok (w, b)
         | None => Ok (w, b)
         end;
    let a :=
      match next_layer_type with
      | Some t =>
          if string_in t ["ReLU"; "Softmax"] then
            Some (if String.eqb t "Softmax" then "softmax" else "relu")
          else None
      | None => None
      end in
    Ok (a, Some wb)
  else Ok (None, None).

(** One iteration of the loop of [extract], lines 114-175; [layers] is the
    list built so far.  [Ok None] is an iteration left by [continue]. *)
Definition extract_layer (model : net) (layers : list attributes)
    (layer_num : nat) (layer : proto_layer) : outcome (option attributes) :=
  match standard_name layer with
  | None => Ok None
  | Some layer_type =>
      let layer_key := name layer in
      output_shape ←
        match net_blobs model !! layer_key with
        | None =>
            match last layers with
            | Some prev => Ok (output_shape prev)
            | None => Raise IndexError
            end
        | Some shape => Ok shape
        end;
      label ← make_label layer_num layer_type output_shape;
      let next_layer :=
        if (layer_num + 1 <? length (net_layers model))%nat
        then net_layers model !! (layer_num + 1)%nat else None in
      let next_layer_type := net_type <$> next_layer in
      if bool_decide (next_layer_type = Some "BatchNormalization")
         && negb (string_in layer_type bn_layers)
      then Raise NotImplementedError
      else
        aw ← extract_weights model layer_key layer_type next_layer;
        Ok (Some {| layer_num := layer_num; layer_type := layer_type;
                    output_shape := output_shape; label := label;
                    activation := aw.1; weights := aw.2 |})
  end.

(** The loop of [extract] over [enumerate(model_protobuf.layer)], returning
    [layers], [labels] and [layer_idx_map].  The entries that lines 177-210
    add for convolution, pooling and activation layers (kernel sizes, border
    mode, activation functions) are left out. *)
Fixpoint extract_loop (model : net) (todo : list (nat * proto_layer))
    (layers : list attributes) (labels : list string) (layer_idx_map : list nat)
    : outcome (list attributes * list string * list nat) :=
  match todo with
  | [] => Ok (layers, labels, layer_idx_map)
  | (layer_num, layer) :: rest =>
      r ← extract_layer model layers layer_num layer;
      match r with
      | None => extract_loop model rest layers labels layer_idx_map
      | Some attributes =>
          extract_loop model rest (layers ++ [attributes])
            (labels ++ [label attributes]) (layer_idx_map ++ [layer_num])
      end
  end.

Definition extract (model : net) (model_protobuf : list proto_layer)
    : outcome (list attributes * list string * list nat) :=
  extract_loop model (imap (λ i l, (i, l)) model_protobuf) [] [] [].

End Extract.

End Caffe.

(** ** pyNN_target_sim.py: the spiking-network builder *)

Module PyNN.

(** *** The simulator's objects *)

(** A parameter of a population: one value for all cells, or one per cell. *)
Inductive pval :=
| Scalar (x : float)
| Vector (xs : list float).

(** A cell type of the simulator; [describe()] yields [ct_name]. *)
Record CellType := {
  ct_name : string;
  default_parameters : gmap string float
}.

(** A [pyNN.Population]. *)
Record Population := {
  size : Z;
  celltype : CellType;
  parameters : gmap string pval;
  structure : option string;
  label : string;
  initial_v : option pval
}.

(** One row of a connection list: source, target, weight, delay. *)
Definition conn : Type := Z * Z * float * float.

(** A [pyNN.Projection] with the rows its connector established; its default
    label joins the two population labels with an arrow. *)
Record Projection := {
  proj_label : string;
  pre : Population;
  post : Population;
  rows : list conn
}.

(** The simulator module [self.sim]: the cell types it offers by name. *)
Record Sim := {
  cell_types : gmap string CellType
}.

(** [sim.Population(size, celltype, cellparams, structure=..., label=...)]. *)
Definition sim_Population (n : Z) (ct : CellType) (cellparams : gmap string float)
    (structure : option string) (label : string) : Population :=
  {| size := n; celltype := ct;
     parameters := (Scalar <$> cellparams) ∪ (Scalar <$> default_parameters ct);
     structure := structure; label := label; initial_v := None |}.

(** [sim.Projection(pre, post, sim.FromListConnector(rows, ...))]. *)
Definition sim_Projection (pre post : Population) (rows : list conn) : Projection :=
  {| proj_label := label pre +:+ "→" +:+ label post;
     pre := pre; post := post; rows := rows |}.

(** [population.set(name=value)].  pyNN refuses a vector whose length is not
    the size of the population; the check is not part of the sources and the
    model stores the value as it is given.  Statements on a build that sets
    biases say where the vector has to fit ([biases_fit]). *)
Definition pop_set (k : string) (v : pval) (p : Population) : Population :=
  {| size := size p; celltype := celltype p;
     parameters := <[k := v]> (parameters p);
     structure := structure p; label := label p; initial_v := initial_v p |}.

(** [population.set] with every entry of [cellparams] as a keyword. *)
Definition pop_set_all (cellparams : gmap string float) (p : Population) : Population :=
  {| size := size p; celltype := celltype p;
     parameters := (Scalar <$> cellparams) ∪ parameters p;
     structure := structure p; label := label p; initial_v := initial_v p |}.

(** [population.get(name)]: the value as it was set.  pyNN hands back a single
    number when all cells share one value; statements on the bias files are
    therefore made for vectors with entries that differ ([differing]). *)
Definition pop_get (k : string) (p : Population) : outcome pval :=
  getkey (parameters p) k.

(** [population.initialize(v=value)]. *)
Definition pop_initialize (v : pval) (p : Population) : Population :=
  {| size := size p; celltype := celltype p; parameters := parameters p;
     structure := structure p; label := label p; initial_v := Some v |}.

(** [getattr(sim, name)] for a cell type. *)
Definition sim_getattr (sim : Sim) (name : string) : outcome CellType :=
  match cell_types sim !! name with
  | Some ct => Ok ct
  | None => Raise AttributeError
  end.

(** *** The parsed layers handed to the builder *)

(** A two-dimensional [numpy] array of [float64]. *)
Record ndarray2 := {
  shape0 : nat;
  shape1 : nat;
  at2 : nat → nat → float
}.

(** An element of a padding tuple: an integer or a tuple of integers. *)
Inductive pad_elem :=
| PadInt (n : Z)
| PadTuple (ns : list Z).

(** [layer.padding]: a tuple for a ZeroPadding layer, a border-mode string
    for a convolution or pooling layer. *)
Inductive padding_t :=
| Pads (elems : list pad_elem)
| Mode (mode : string).

(** A layer of the parsed (Keras) model, with the attributes the builder
    reads; [layer.get_weights()] is the pair [(weights, biases)]. *)
Record Layer := {
  class_name : string;
  name : string;
  output_shape : list Z;
  padding : padding_t;
  activation : string;
  weights : ndarray2;
  biases : list float
}.

(** *** Files *)

(** The text blocks of the replay script, one constructor per [lines] list
    written by a method, with the values formatted into it. *)
Inductive script_block :=
| ScriptHeader (path_wd : string) (config_path : string) (input_dims : list Z)
| ScriptAddLayer (name : string) (dims : list Z)
| ScriptDense
| ScriptConvolution
| ScriptPooling
| ScriptCompile.

(** The values stored in the assembly descriptor. *)
Inductive field :=
| FInt (n : Z)
| FStr (s : string)
| FNone
| FParam (v : pval).

Inductive entry :=
| EDict (d : gmap string field)
| EList (l : list string)
| EInt (n : Z).

(** The settings that the replay script reads from the '.config' file of the
    run: [paths/path_wd], the cell parameters named by
    [restrictions/cellparams_pyNN], [simulation/simulator], [simulation/dt] and
    [input/poisson_input]. *)
Record ScriptConfig := {
  sc_path_wd : string;
  sc_cellparams : gmap string float;
  sc_simulator : string;
  sc_dt : float;
  sc_poisson_input : bool
}.

(** What a file holds: a sequence of written pieces.  [Settings] is the
    '.config' file of a run and [Bytecode] a file left by an import; neither
    is written by the methods of [SNN]. *)
Inductive chunk :=
| Script (b : script_block)
| Pickled (s : gmap string entry)
| ConnectionRows (rows : list conn)
| FloatRows (xs : list float)
| Settings (c : ScriptConfig)
| Bytecode.

(** File accesses: the assertions and reads of the methods of [SNN], and the
    files read while a replay script runs. *)
Inductive event :=
| AssertIsFile (filepath : string)
| ReadFile (filepath : string).

(** *** The object and its surroundings *)

(** The settings read through [self.config]. *)
Record Config := {
  overwrite : bool;
  simulate : bool;
  delay : float;
  keras_backend : string;
  path_wd : string;
  filename_snn : string;
  log_dir_of_current_run : string
}.

(** An imported replay script: what its [get_model()] does on a given file
    system.  It returns a Python value, [None] or the pair [(sim, layers)],
    leaves a file system, and has read files on the way. *)
Record PyModule := {
  get_model :
    gmap string (list chunk) →
    outcome (option (Sim * list Population)) * gmap string (list chunk) * list event
}.

(** Collaborators that are not among the sources: the user's answer to the
    prompt of [confirm_overwrite], [build_convolution] and [build_pooling] of
    [snntoolbox.simulation.utils], [importlib.import_module] (given [sys.path]
    and the file system; it hands back the file system it leaves, an import
    may write the bytecode of the module next to it), and [os.path]. *)
Record Env := {
  answer : string → bool;
  utils_build_convolution : Layer → float → bool → outcome (list conn * list float);
  utils_build_pooling : Layer → float → outcome (list conn);
  import_module :
    list string → gmap string (list chunk) → string →
    outcome PyModule * gmap string (list chunk);
  dirname : string → string;
  basename : string → string;
  splitext : string → string * string;
  abspath : string → string
}.

(** The attributes of the [SNN] object (those of [AbstractSNN] included), the
    file system, [sys.path], and the log of file accesses. *)
Record State := {
  env : Env;
  config : Config;
  sim : Sim;
  layers : list Population;
  connections : list Projection;
  cellparams : gmap string float;
  change_padding : bool;
  flatten_shapes : list (string * list Z);
  data_format : string;
  poisson_input : bool;
  dt : float;
  output_script_path : string;
  fs : gmap string (list chunk);
  sys_path : list string;
  trace : list event
}.

Definition set_sim (v : Sim) (s : State) : State :=
  {| env := env s; config := config s; sim := v; layers := layers s;
     connections := connections s; cellparams := cellparams s;
     change_padding := change_padding s; flatten_shapes := flatten_shapes s;
     data_format := data_format s; poisson_input := poisson_input s; dt := dt s;
     output_script_path := output_script_path s; fs := fs s;
     sys_path := sys_path s; trace := trace s |}.

Definition set_layers (v : list Population) (s : State) : State :=
  {| env := env s; config := config s; sim := sim s; layers := v;
     connections := connections s; cellparams := cellparams s;
     change_padding := change_padding s; flatten_shapes := flatten_shapes s;
     data_format := data_format s; poisson_input := poisson_input s; dt := dt s;
     output_script_path := output_script_path s; fs := fs s;
     sys_path := sys_path s; trace := trace s |}.

Definition set_connections (v : list Projection) (s : State) : State :=
  {| env := env s; config := config s; sim := sim s; layers := layers s;
     connections := v; cellparams := cellparams s;
     change_padding := change_padding s; flatten_shapes := flatten_shapes s;
     data_format := data_format s; poisson_input := poisson_input s; dt := dt s;
     output_script_path := output_script_path s; fs := fs s;
     sys_path := sys_path s; trace := trace s |}.

Definition set_change_padding (v : bool) (s : State) : State :=
  {| env := env s; config := config s; sim := sim s; layers := layers s;
     connections := connections s; cellparams := cellparams s;
     change_padding := v; flatten_shapes := flatten_shapes s;
     data_format := data_format s; poisson_input := poisson_input s; dt := dt s;
     output_script_path := output_script_path s; fs := fs s;
     sys_path := sys_path s; trace := trace s |}.

Definition set_flatten_shapes (v : list (string * list Z)) (s : State) : State :=
  {| env := env s; config := config s; sim := sim s; layers := layers s;
     connections := connections s; cellparams := cellparams s;
     change_padding := change_padding s; flatten_shapes := v;
     data_format := data_format s; poisson_input := poisson_input s; dt := dt s;
     output_script_path := output_script_path s; fs := fs s;
     sys_path := sys_path s; trace := trace s |}.

Definition set_fs (v : gmap string (list chunk)) (s : State) : State :=
  {| env := env s; config := config s; sim := sim s; layers := layers s;
     connections := connections s; cellparams := cellparams s;
     change_padding := change_padding s; flatten_shapes := flatten_shapes s;
     data_format := data_format s; poisson_input := poisson_input s; dt := dt s;
     output_script_path := output_script_path s; fs := v;
     sys_path := sys_path s; trace := trace s |}.

Definition set_sys_path (v : list string) (s : State) : State :=
  {| env := env s; config := config s; sim := sim s; layers := layers s;
     connections := connections s; cellparams := cellparams s;
     change_padding := change_padding s; flatten_shapes := flatten_shapes s;
     data_format := data_format s; poisson_input := poisson_input s; dt := dt s;
     output_script_path := output_script_path s; fs := fs s;
     sys_path := v; trace := trace s |}.

Definition set_trace (v : list event) (s : State) : State :=
  {| env := env s; config := config s; sim := sim s; layers := layers s;
     connections := connections s; cellparams := cellparams s;
     change_padding := change_padding s; flatten_shapes := flatten_shapes s;
     data_format := data_format s; poisson_input := poisson_input s; dt := dt s;
     output_script_path := output_script_path s; fs := fs s;
     sys_path := sys_path s; trace := v |}.

(** *** The monad of methods: a state and a possible exception.  The state at
    the point of a [raise] is kept. *)

Definition M (A : Type) : Type := State → outcome A * State.

Definition ret {A} (a : A) : M A := λ s, (Ok a, s).

Definition bind {A B} (m : M A) (k : A → M B) : M B :=
  λ s, match m s with
       | (Ok a, s') => k a s'
       | (Raise e, s') => (Raise e, s')
       end.

Definition raise {A} (e : exn) : M A := λ s, (Raise e, s).

Definition lift {A} (o : outcome A) : M A := λ s, (o, s).

Definition gets {A} (f : State → A) : M A := λ s, (Ok (f s), s).

Definition modify (f : State → State) : M unit := λ s, (Ok tt, f s).

#[global] Instance M_ret : MRet M := @ret.
#[global] Instance M_bind : MBind M := λ A B k m, bind m k.

(** A [for] loop over a list. *)
Fixpoint for_ {A} (l : list A) (body : A → M unit) : M unit :=
  match l with
  | [] => ret tt
  | a :: r => bind (body a) (λ _, for_ r body)
  end.

(** [open(path, 'w').writelines(...)] and [open(path, 'a').writelines(...)]. *)
Definition write_file (path : string) (content : list chunk) : M unit :=
  modify (λ s, set_fs (<[path := content]> (fs s)) s).

Definition append_file (path : string) (content : list chunk) : M unit :=
  modify (λ s, set_fs (<[path := default [] (fs s !! path) ++ content]> (fs s)) s).

(** [os.path.exists] and [os.path.isfile]; the file system holds files only. *)
Definition path_exists (path : string) : M bool :=
  gets (λ s, bool_decide (is_Some (fs s !! path))).

Definition log (e : event) : M unit :=
  modify (λ s, set_trace (trace s ++ [e]) s).

(** Modelled from the spec: [confirm_overwrite] of [snntoolbox.utils.utils],
    which is not among the sources.  The overwrite policy is checked before an
    existing file is clobbered, by prompting: a path that holds no file may be
    written, an existing file only when the user agrees. *)
Definition confirm_overwrite (filepath : string) : M bool :=
  λ s, (Ok (if bool_decide (is_Some (fs s !! filepath))
            then answer (env s) filepath else true), s).

(** [l[-1]] and [l[-2]]. *)
Definition last_item {A} (l : list A) : outcome A :=
  match last l with
  | Some a => Ok a
  | None => Raise IndexError
  end.

Definition item_before_last {A} (l : list A) : outcome A :=
  if (2 <=? length l)%nat then getitem l (length l - 2) else Raise IndexError.

(** In-place update of [l[-1]]. *)
Definition alter_last {A} (f : A → A) (l : list A) : list A :=
  alter f (pred (length l)) l.

(** [sub in s] for strings. *)
Fixpoint str_in (sub s : string) : bool :=
  String.prefix sub s ||
  match s with
  | String _ r => str_in sub r
  | EmptyString => false
  end.

(** [os.rename(src, dst)]. *)
Definition rename (src dst : string) : M unit :=
  λ s, match fs s !! src with
       | Some c => (Ok tt, set_fs (<[dst := c]> (delete src (fs s))) s)
       | None => (Raise FileNotFoundError, s)
       end.

(** *** Module-level functions *)

(** [get_shape_from_label], line 698. *)
Definition get_shape_from_label (label : string) : outcome (list Z) :=
  part ← getitem (split "_" label) 1;
  mapM int (split "x" part).

(** [import_module(name)]: the module, and the file system as the import
    leaves it. *)
Definition do_import (name : string) : M PyModule :=
  λ s, let r := import_module (env s) (sys_path s) (fs s) name in
       (r.1, set_fs r.2 s).

(** [pynn_script.get_model()]: the script runs on the file system; what it
    reads is logged, and it has no access to the [SNN] object. *)
Definition call_get_model (pynn_script : PyModule)
    : M (option (Sim * list Population)) :=
  λ s, let r := get_model pynn_script (fs s) in
       (r.1.1, set_trace (trace s ++ r.2) (set_fs r.1.2 s)).

(** Lines 710-721: the import, around which a file name with dots is
    changed and restored. *)
Definition import_script (path filename ext : string) : M PyModule :=
  if contains "." filename then
    let filename_new := replace "." "`" filename in
    rename (path_join path (filename +:+ ext)) (path_join path (filename_new +:+ ext));;
    pynn_script ← do_import filename_new;
    rename (path_join path (filename_new +:+ ext)) (path_join path (filename +:+ ext));;
    ret pynn_script
  else do_import filename.

(** [get_snn_from_script], lines 701-723: the value of [get_model()]. *)
Definition get_snn_from_script (filepath : string)
    : M (option (Sim * list Population)) :=
  e ← gets env;
  let path := dirname e filepath in
  modify (λ s, set_sys_path (sys_path s ++ [abspath e path]) s);;
  let fe := splitext e (basename e filepath) in
  pynn_script ← import_script path fe.1 fe.2;
  call_get_model pynn_script.

(** *** The methods of [SNN] *)

(** Modelled from the spec: [AbstractSNN.__init__] is not among the sources;
    a new object has no pending FlattenShapeRecord, and its [sim],
    [data_format], [_dt] and [_poisson_input] are given.  The other attributes
    are set as [SNN.__init__] does, lines 52-70. *)
Definition init (e : Env) (c : Config) (sim : Sim) (cell : gmap string float)
    (data_format : string) (poisson_input : bool) (dt : float)
    (fs : gmap string (list chunk)) : State :=
  {| env := e; config := c; sim := sim; layers := []; connections := [];
     cellparams := delete "i_offset" cell;
     change_padding := false; flatten_shapes := [];
     data_format := data_format; poisson_input := poisson_input; dt := dt;
     output_script_path := path_join (path_wd c) (filename_snn c +:+ ".py");
     fs := fs; sys_path := []; trace := [] |}.

(** [add_input_layer], lines 76-151. *)
Definition add_input_layer (input_shape : list Z) : M unit :=
  s ← gets id;
  celltype ← lift (if poisson_input s
                   then sim_getattr (sim s) "SpikeSourcePoisson"
                   else sim_getattr (sim s) "SpikeSourceArray");
  modify (λ s, set_layers
    (layers s ++ [sim_Population (np_prod (tail input_shape)) celltype ∅ None
                    "InputLayer"]) s);;
  write_file (output_script_path s)
    [Script (ScriptHeader (path_wd (config s))
               (path_join (log_dir_of_current_run (config s)) ".config")
               (tail input_shape))].

(** [set(padding).issubset((1, (1, 1)))]. *)
Definition is_single_pad (e : pad_elem) : bool :=
  match e with
  | PadInt n => bool_decide (n = 1)
  | PadTuple ns => bool_decide (ns = [1; 1])
  end.

Definition padding_issubset (p : padding_t) : bool :=
  match p with
  | Pads elems => forallb is_single_pad elems
  | Mode mode => bool_decide (mode = "")
  end.

(** [add_layer], lines 153-189. *)
Definition add_layer (layer : Layer) : M unit :=
  if str_in "ZeroPadding" (class_name layer) then
    if padding_issubset (padding layer) then modify (set_change_padding true)
    else raise NotImplementedError
  else if str_in "Flatten" (class_name layer) then
    ls ← gets layers;
    prev ← lift (last_item ls);
    shape ← lift (get_shape_from_label (label prev));
    modify (λ s, set_flatten_shapes (flatten_shapes s ++ [(name layer, shape)]) s)
  else
    s ← gets id;
    celltype ← lift (sim_getattr (sim s) "IF_curr_exp");
    modify (λ s, set_layers
      (layers s ++ [sim_Population (np_prod (tail (output_shape layer))) celltype
                      (cellparams s) None (name layer)]) s);;
    ls ← gets layers;
    p ← lift (last_item ls);
    v_rest ← lift (pop_get "v_rest" p);
    modify (set_layers (alter_last (pop_initialize v_rest) ls));;
    append_file (output_script_path s)
      [Script (ScriptAddLayer (name layer) (tail (output_shape layer)))].

(** [set_biases], lines 423-435. *)
Definition set_biases (biases : list float) : M unit :=
  if negb (np_any biases) then ret tt
  else
    s ← gets id;
    _ ← lift (last_item (layers s));
    modify (set_layers
      (alter_last
         (pop_set "i_offset" (Vector ((λ b, (b * dt s / 100)%float) <$> biases)))
         (layers s))).

(** The appending of a projection between the last two layers, when the
    network is to be simulated. *)
Definition attach_projection (rows : list conn) : M unit :=
  s ← gets id;
  if simulate (config s) then
    pre ← lift (item_before_last (layers s));
    post ← lift (last_item (layers s));
    modify (set_connections (connections s ++ [sim_Projection pre post rows]))
  else ret tt.

(** The unpacking of a pending shape according to the data format: the
    result is [(f_in, y_in, x_in)]. *)
Definition unpack_shape (data_format : string) (shape : list Z) : outcome (Z * Z * Z) :=
  match shape with
  | [a; b; c] =>
      if String.eqb data_format "channels_last" then Ok (c, a, b)
      else Ok (a, b, c)
  | _ => Raise ValueError
  end.

(** Lines 223-229: the source index for input neuron [i]. *)
Definition new_i (f_in y_in x_in : Z) (i : Z) : outcome Z :=
  f ← mod_ i f_in;
  y ← floordiv i (f_in * x_in);
  q ← floordiv i f_in;
  x ← mod_ q x_in;
  Ok (f * x_in * y_in + x_in * y + x).

(** The inner loop over the output neurons [j]. *)
Definition row_connections (weights : ndarray2) (delay : float) (src : Z) (i : nat)
    : list conn :=
  (λ j, (src, Z.of_nat j, at2 weights i j, delay)) <$> seq 0 (shape1 weights).

(** Lines 219-231. *)
Definition swapped_connections (f_in y_in x_in : Z) (weights : ndarray2)
    (delay : float) : outcome (list conn) :=
  rows ← mapM (λ i, src ← new_i f_in y_in x_in (Z.of_nat i);
                     Ok (row_connections weights delay src i))
              (seq 0 (shape0 weights));
  Ok (mjoin (rows : list (list conn))).

(** Lines 235-237. *)
Definition plain_connections (weights : ndarray2) (delay : float) : list conn :=
  mjoin ((λ i, row_connections weights delay (Z.of_nat i) i) <$> seq 0 (shape0 weights)).

(** Lines 211-237: the list [connections], with the pending shapes left. *)
Definition dense_connections (layer : Layer) : M (list conn) :=
  s ← gets id;
  let delay := delay (config s) in
  if (length (flatten_shapes s) =? 1)%nat then
    match last (flatten_shapes s) with
    | Some (flatten_name, shape) =>
        modify (set_flatten_shapes (removelast (flatten_shapes s)));;
        dims ← lift (unpack_shape (data_format s) shape);
        let '(f_in, y_in, x_in) := dims in
        lift (swapped_connections f_in y_in x_in (weights layer) delay)
    | None => raise IndexError
    end
  else if (1 <? length (flatten_shapes s))%nat then raise RuntimeWarning
  else ret (plain_connections (weights layer) delay).

(** [build_dense], lines 191-258.  The warning about softmax changes
    nothing. *)
Definition build_dense (layer : Layer) : M unit :=
  set_biases (biases layer);;
  connections ← dense_connections layer;
  attach_projection connections;;
  p ← gets output_script_path;
  append_file p [Script ScriptDense].

Definition with_padding (v : padding_t) (l : Layer) : Layer :=
  {| class_name := class_name l; name := name l; output_shape := output_shape l;
     padding := v; activation := activation l; weights := weights l;
     biases := biases l |}.

(** Lines 266-273: a pending ZeroPadding is handed to the convolution layer.
    The layer object is changed in place; the changed layer is returned. *)
Definition consume_padding (layer : Layer) : M Layer :=
  s ← gets id;
  if change_padding s then
    match padding layer with
    | Mode mode =>
        if String.eqb mode "valid" then
          modify (set_change_padding false);;
          ret (with_padding (Mode "ZeroPadding") layer)
        else raise NotImplementedError
    | Pads _ => raise NotImplementedError
    end
  else ret layer.

(** [build_convolution], lines 260-301. *)
Definition build_convolution (layer : Layer) : M Layer :=
  layer ← consume_padding layer;
  s ← gets id;
  let delay := delay (config s) in
  let transpose_kernel := String.eqb (keras_backend (config s)) "tensorflow" in
  cb ← lift (utils_build_convolution (env s) layer delay transpose_kernel);
  set_biases cb.2;;
  attach_projection cb.1;;
  append_file (output_script_path s) [Script ScriptConvolution];;
  ret layer.

(** [build_pooling], lines 303-321. *)
Definition build_pooling (layer : Layer) : M unit :=
  s ← gets id;
  connections ← lift (utils_build_pooling (env s) layer (delay (config s)));
  attach_projection connections;;
  append_file (output_script_path s) [Script ScriptPooling].

(** [compile], lines 323-334. *)
Definition compile : M unit :=
  p ← gets output_script_path;
  append_file p [Script ScriptCompile].

(** [overwrite or confirm_overwrite(filepath)]. *)
Definition may_write (filepath : string) : M bool :=
  c ← gets config;
  if overwrite c then ret true else confirm_overwrite filepath.

(** Lines 530-538: the dictionary [data] of one population.  A population
    has the attributes [size], [structure] and [label], and its cell type has
    [describe]. *)
Definition population_data (population : Population) : outcome (gmap string field) :=
  let data : gmap string field := ∅ in
  let data := <["size" := FInt (size population)]> data in
  let data := <["structure" := match structure population with
                               | Some d => FStr d
                               | None => FNone
                               end]> data in
  let data := <["label" := FStr (label population)]> data in
  let data := <["celltype" := FStr (ct_name (celltype population))]> data in
  if bool_decide (label population ≠ "InputLayer") then
    v ← pop_get "i_offset" population;
    Ok (<["i_offset" := FParam v]> data)
  else Ok data.

(** Lines 525-538: the loop over [self.layers], filling [s] and [labels]. *)
Fixpoint assembly_loop (populations : list Population) (s : gmap string entry)
    (labels : list string) : outcome (gmap string entry * list string) :=
  match populations with
  | [] => Ok (s, labels)
  | population :: rest =>
      data ← population_data population;
      assembly_loop rest (<[label population := EDict data]> s)
        (labels ++ [label population])
  end.

(** [save_assembly], lines 496-542. *)
Definition save_assembly (path filename : string) : M unit :=
  let filepath := path_join path filename in
  ok ← may_write filepath;
  if negb ok then ret tt
  else
    ls ← gets layers;
    let variables := ["size"; "structure"; "label"] in
    sl ← lift (assembly_loop ls ∅ []);
    let s := <["labels" := EList sl.2]> sl.1 in
    let s := <["variables" := EList variables]> s in
    let s := <["size" := EInt (Z.of_nat (length ls))]> s in
    write_file filepath [Pickled s].

(** [save_connections], lines 544-574. *)
Definition save_connections (path : string) : M unit :=
  cs ← gets connections;
  for_ cs (λ projection,
    let filepath := path_join path (partition_last "→" (proj_label projection)) in
    (ok ← may_write filepath;
     if (ok : bool) then write_file filepath [ConnectionRows (rows projection)]
     else ret tt) : M unit).

(** [save_biases], lines 576-600. *)
Definition save_biases (path : string) : M unit :=
  ls ← gets layers;
  for_ ls (λ layer,
    let filepath := path_join path (label layer +:+ "_biases") in
    (ok ← may_write filepath;
     if (ok : bool) then
       if str_in "Input" (label layer) then ret tt
       else match pop_get "i_offset" layer with
            | Raise KeyError => ret tt
            | Raise e => raise e
            | Ok (Scalar _) => ret tt
            | Ok (Vector biases) => write_file filepath [FloatRows biases]
            end
     else ret tt) : M unit).

(** [save], lines 378-384. *)
Definition save (path filename : string) : M unit :=
  save_assembly path filename;;
  save_connections path;;
  save_biases path.

Definition as_dict (e : entry) : outcome (gmap string field) :=
  match e with
  | EDict d => Ok d
  | _ => Raise TypeError
  end.

Definition as_list (e : entry) : outcome (list string) :=
  match e with
  | EList l => Ok l
  | _ => Raise TypeError
  end.

Definition as_str (f : field) : outcome string :=
  match f with
  | FStr s => Ok s
  | _ => Raise TypeError
  end.

Definition as_int (f : field) : outcome Z :=
  match f with
  | FInt n => Ok n
  | _ => Raise TypeError
  end.

Definition as_structure (f : field) : outcome (option string) :=
  match f with
  | FStr s => Ok (Some s)
  | FNone => Ok None
  | _ => Raise TypeError
  end.

Definition as_param (f : field) : outcome pval :=
  match f with
  | FParam v => Ok v
  | _ => Raise TypeError
  end.

Definition with_structure (v : option string) (p : Population) : Population :=
  {| size := size p; celltype := celltype p; parameters := parameters p;
     structure := v; label := label p; initial_v := initial_v p |}.

(** Lines 647-649: [variable] is set from the file when the population has
    no value for it.  [size] and [label] always have one; a name that is no
    attribute of the population is only looked up. *)
Definition restore_variable (d : gmap string field) (population : Population)
    (variable : string) : outcome Population :=
  if String.eqb variable "size" then Ok population
  else if String.eqb variable "label" then Ok population
  else if String.eqb variable "structure" then
    match structure population with
    | Some _ => Ok population
    | None =>
        f ← getkey d "structure";
        v ← as_structure f;
        Ok (with_structure v population)
    end
  else
    _ ← getkey d variable;
    Ok population.

Fixpoint restore_variables (d : gmap string field) (population : Population)
    (variables : list string) : outcome Population :=
  match variables with
  | [] => Ok population
  | variable :: rest =>
      population ← restore_variable d population variable;
      restore_variables d population rest
  end.

(** Lines 641-651: one population of the assembly. *)
Definition load_population (sim : Sim) (s : gmap string entry) (label : string)
    : outcome Population :=
  e ← getkey s label;
  d ← as_dict e;
  cf ← getkey d "celltype";
  cname ← as_str cf;
  celltype ← sim_getattr sim cname;
  sf ← getkey d "size";
  n ← as_int sf;
  tf ← getkey d "structure";
  structure ← as_structure tf;
  let population :=
    sim_Population n celltype (default_parameters celltype) structure label in
  ve ← getkey s "variables";
  variables ← as_list ve;
  population ← restore_variables d population variables;
  if bool_decide (label ≠ "InputLayer") then
    f ← getkey d "i_offset";
    v ← as_param f;
    Ok (pop_set "i_offset" v population)
  else Ok population.

(** [cPickle.load(open(filepath, 'rb'))]. *)
Definition unpickle (content : list chunk) : outcome (gmap string entry) :=
  match content with
  | Pickled s :: _ => Ok s
  | _ => Raise UnpicklingError
  end.

(** [load_assembly], lines 602-654. *)
Definition load_assembly (path filename : string) : M (list Population) :=
  let filepath := path_join path filename in
  log (AssertIsFile filepath);;
  isfile ← path_exists filepath;
  if negb isfile then raise AssertionError
  else
    log (ReadFile filepath);;
    st ← gets id;
    s ← lift (unpickle (default [] (fs st !! filepath)));
    le ← lift (getkey s "labels");
    labels ← lift (as_list le);
    lift (mapM (load_population (sim st) s) labels).

(** Lines 394-400: one iteration of the loop of [load]. *)
Definition load_connection (path : string) (i : nat) : M unit :=
  ls ← gets layers;
  post ← lift (getitem ls (i + 1));
  let filepath := path_join path (label post) in
  log (AssertIsFile filepath);;
  isfile ← path_exists filepath;
  if negb isfile then raise AssertionError
  else
    _ ← lift (getitem ls i);
    log (ReadFile filepath);;
    cp ← gets cellparams;
    let post := pop_set_all cp post in
    v_rest ← lift (pop_get "v_rest" post);
    modify (λ s, set_layers (<[(i + 1)%nat := pop_initialize v_rest post]> (layers s)) s).

(** [load], lines 386-400. *)
Definition load (path filename : string) : M unit :=
  script ← gets output_script_path;
  present ← path_exists script;
  if (present : bool) then
    r ← get_snn_from_script script;
    match r with
    | Some (sim, layers) => modify (set_sim sim);; modify (set_layers layers)
    | None => raise TypeError
    end
  else
    ls ← load_assembly path filename;
    modify (set_layers ls);;
    n ← gets (λ s, length (layers s));
    for_ (seq 0 (n - 1)) (load_connection path).

(** *** The replay script, run

    What [get_model()] of the generated script does, read off the lines that
    [add_input_layer], [add_layer], [build_dense], [build_convolution],
    [build_pooling] and [compile] write to the script. *)






(** A step of the script: its outcome and the files it has read. *)
Definition R (A : Type) : Type := (outcome A * list event)%type.














End PyNN.

(** ** Vocabulary of the specification *)

(** Every character of [s] satisfies [P]. *)
Fixpoint all_chars (P : ascii → bool) (s : string) : bool :=
  match s with
  | EmptyString => true
  | String c r => P c && all_chars P r
  end.

Definition is_digit (c : ascii) : bool :=
  let n := nat_of_ascii c in (48 <=? n)%nat && (n <=? 57)%nat.

Definition is_digit_or_minus (c : ascii) : bool :=
  is_digit c || Ascii.eqb c "-".

(** The decimal digit [d] as a character, for [d < 10]. *)
Definition digit_char (d : nat) : ascii := ascii_of_nat (48 + d).

(** The two-digit, zero-padded form of an index below 100. *)
Definition two_digits (n : nat) : string :=
  String (digit_char (n / 10)) (String (digit_char (n mod 10)) EmptyString).

(** The strings of [l] joined by [sep]. *)
Fixpoint join (sep : string) (l : list string) : string :=
  match l with
  | [] => EmptyString
  | [a] => a
  | a :: r => a +:+ sep +:+ join sep r
  end.

(** The names of the layer kinds that the extractor and the builder
    mention. *)
Definition canonical_kinds : list string :=
  ["Dense"; "Convolution2D"; "MaxPooling2D"; "AveragePooling2D"; "Activation";
   "Flatten"; "ZeroPadding"].

(** *** Dense connection lists *)

(** The entry of a connection list for weight-matrix position [(i, j)]: the
    loops emit the entries row by row. *)
Definition entry_at (conns : list PyNN.conn) (w : PyNN.ndarray2) (i j : nat)
    : option PyNN.conn :=
  conns !! (i * PyNN.shape1 w + j)%nat.

(** The decomposition of a linear index [i] into channel [f], row [y] and
    column [x] of a feature map with [C] channels, height [H] and width [W]:
    channels vary fastest in a channels-last layout, columns in a
    channels-first layout. *)
Definition decomposed (channels_last : bool) (C H W i f y x : Z) : Prop :=
  0 ≤ f < C ∧ 0 ≤ y < H ∧ 0 ≤ x < W ∧
  i = if channels_last then (y * W + x) * C + f else (f * H + y) * W + x.

(** The canonical internal index. *)
Definition canonical_index (H W f y x : Z) : Z := f * W * H + y * W + x.

(** The pending shape read as the data format says: the result is
    [(C, H, W)]. *)
Definition shape_as (channels_last : bool) (shape : list Z) : option (Z * Z * Z) :=
  match shape with
  | [a; b; c] => Some (if channels_last then (c, a, b) else (a, b, c))
  | _ => None
  end.

(** The remapping of source indices by [build_dense] with one pending
    FlattenShapeRecord: every entry [(i, j)] is emitted with weight
    [weights[i, j]] and the configured delay, and its source index is the
    canonical index of the decomposition of [i] under the configured
    layout. *)
Definition flatten_remapped (layer : PyNN.Layer) (st : PyNN.State) : Prop :=
  let w := PyNN.weights layer in
  let channels_last := String.eqb (PyNN.data_format st) "channels_last" in
  ∃ flatten_name shape C H W conns,
    PyNN.flatten_shapes st = [(flatten_name, shape)]
    ∧ shape_as channels_last shape = Some (C, H, W)
    ∧ (PyNN.dense_connections layer st).1 = Ok conns
    ∧ ∀ i j, (i < PyNN.shape0 w)%nat → (j < PyNN.shape1 w)%nat →
        ∃ src, entry_at conns w i j
               = Some (src, Z.of_nat j, PyNN.at2 w i j, PyNN.delay (PyNN.config st))
          ∧ ∀ f y x, decomposed channels_last C H W (Z.of_nat i) f y x →
                     src = canonical_index H W f y x.

(** *** ZeroPadding *)



(** *** The overwrite policy *)

(** The policy forbids overwriting the file at [p]: overwriting is not
    configured and the user declines. *)
Definition overwrite_forbidden (st : PyNN.State) (p : string) : Prop :=
  PyNN.overwrite (PyNN.config st) = false ∧ PyNN.answer (PyNN.env st) p = false.

(** Method [m], run in state [st], leaves alone every existing file that the
    policy forbids to overwrite. *)
Definition respects_overwrite (m : PyNN.M unit) (st : PyNN.State) : Prop :=
  ∀ p content, PyNN.fs st !! p = Some content → overwrite_forbidden st p →
               PyNN.fs (m st).2 !! p = Some content.

(** The write of the file at [p] is permitted: overwriting is configured,
    or no file exists there, or the user agrees. *)
Definition write_permitted (st : PyNN.State) (p : string) : Prop :=
  PyNN.overwrite (PyNN.config st) = true
  ∨ PyNN.fs st !! p = None
  ∨ PyNN.answer (PyNN.env st) p = true.

(** File [p] holds [content] and may not be overwritten. *)
Definition protected (p : string) (content : list PyNN.chunk) (st : PyNN.State) : Prop :=
  PyNN.fs st !! p = Some content ∧ overwrite_forbidden st p.

(** *** The assembly descriptor *)

(** The keys of the descriptor that are not population labels. *)
Definition reserved_keys : list string := ["labels"; "variables"; "size"].

(** The bias of a population. *)
Definition i_offset (p : PyNN.Population) : option PyNN.pval :=
  PyNN.parameters p !! "i_offset".

(** Saving the assembly of [st] and loading it again gives populations with
    the same labels in the same order, the same sizes and, except for the
    input layer, the same biases. *)
Definition assembly_roundtrip (path filename : string) (st : PyNN.State) : Prop :=
  ∃ st1 loaded st2,
    PyNN.save_assembly path filename st = (Ok (), st1)
    ∧ PyNN.load_assembly path filename st1 = (Ok loaded, st2)
    ∧ PyNN.label <$> loaded = PyNN.label <$> PyNN.layers st
    ∧ PyNN.size <$> loaded = PyNN.size <$> PyNN.layers st
    ∧ ∀ k p q, PyNN.layers st !! k = Some p → loaded !! k = Some q →
               PyNN.label p ≠ "InputLayer" → i_offset q = i_offset p.

(** *** Pending FlattenShapeRecords *)

Definition at_most_one_pending (st : PyNN.State) : Prop :=
  (length (PyNN.flatten_shapes st) ≤ 1)%nat.

(** A build: method calls in sequence, each on the state its predecessor
    left. *)
Fixpoint run_calls (calls : list (PyNN.M unit)) (st : PyNN.State)
    : outcome unit * PyNN.State :=
  match calls with
  | [] => (Ok (), st)
  | m :: rest =>
      match m st with
      | (Ok _, st') => run_calls rest st'
      | (Raise e, st') => (Raise e, st')
      end
  end.

(** *** Biases that pyNN takes and hands back *)

(** The bias vector of [layer], when it is set at all, has one entry for
    each cell of the last population. *)
Definition biases_fit (layer : PyNN.Layer) (st : PyNN.State) : Prop :=
  ∀ p, last (PyNN.layers st) = Some p →
       np_any (PyNN.biases layer) = true →
       Z.of_nat (length (PyNN.biases layer)) = PyNN.size p.

(** Some entry differs from the first one: for such a vector
    [population.get] gives the vector back. *)
Definition differing (xs : list float) : Prop :=
  match xs with
  | [] => False
  | x :: rest => Exists (λ y, PrimFloat.eqb y x = false) rest
  end.

(** *** Loading from the replay script *)





(** ** Example networks *)

Definition ex_config : PyNN.Config :=
  {| PyNN.overwrite := false; PyNN.simulate := true; PyNN.delay := 1%float;
     PyNN.keras_backend := "tensorflow"; PyNN.path_wd := "/wd";
     PyNN.filename_snn := "snn"; PyNN.log_dir_of_current_run := "/log" |}.

Definition ex_if_curr_exp : PyNN.CellType :=
  {| PyNN.ct_name := "IF_curr_exp";
     PyNN.default_parameters :=
       {[ "v_rest" := (-65)%float; "i_offset" := 0%float ]} |}.

Definition ex_spike_source : PyNN.CellType :=
  {| PyNN.ct_name := "SpikeSourcePoisson";
     PyNN.default_parameters := {[ "rate" := 1%float ]} |}.

Definition ex_sim : PyNN.Sim :=
  {| PyNN.cell_types :=
       {[ "IF_curr_exp" := ex_if_curr_exp;
          "SpikeSourcePoisson" := ex_spike_source ]} |}.

(** The surroundings of the examples: the user declines every prompt, the
    helpers give no connections, and no module can be imported. *)
Definition ex_env : PyNN.Env :=
  {| PyNN.answer := λ _, false;
     PyNN.utils_build_convolution := λ _ _ _, Ok ([], []);
     PyNN.utils_build_pooling := λ _ _, Ok [];
     PyNN.import_module := λ _ files _, (Raise ImportError, files);
     PyNN.dirname := λ _, "/wd";
     PyNN.basename := λ _, "snn.py";
     PyNN.splitext := λ _, ("snn", ".py");
     PyNN.abspath := id |}.



(** A new object in a working directory that holds the given files. *)
Definition ex_new (data_format : string) (files : gmap string (list PyNN.chunk))
    : PyNN.State :=
  PyNN.init ex_env ex_config ex_sim ∅ data_format true 0.125%float files.

(** A 4 x 2 weight matrix with [weights[i, j] = 10 i + j]. *)
Definition ex_weights : PyNN.ndarray2 :=
  {| PyNN.shape0 := 4; PyNN.shape1 := 2;
     PyNN.at2 := λ i j, PrimFloat.of_uint63 (Uint63.of_nat (10 * i + j)) |}.

Definition ex_layer (class_name name : string) (output_shape : list Z)
    (padding : PyNN.padding_t) (biases : list float) : PyNN.Layer :=
  {| PyNN.class_name := class_name; PyNN.name := name;
     PyNN.output_shape := output_shape; PyNN.padding := padding;
     PyNN.activation := "relu"; PyNN.weights := ex_weights;
     PyNN.biases := biases |}.

Definition ex_conv : PyNN.Layer :=
  ex_layer "Conv2D" "00Conv2D_2x1x2" [1; 2; 1; 2] (PyNN.Mode "valid") [].

Definition ex_flatten : PyNN.Layer :=
  ex_layer "Flatten" "01Flatten_4" [1; 4] (PyNN.Mode "") [].

Definition ex_flatten2 : PyNN.Layer :=
  ex_layer "Flatten" "02Flatten_4" [1; 4] (PyNN.Mode "") [].

Definition ex_dense : PyNN.Layer :=
  ex_layer "Dense" "02Dense_2" [1; 2] (PyNN.Mode "")
    [0.5%float; 0%float].


(** The network after the input layer, a convolution layer and a Flatten
    layer were added. *)
Definition ex_flattened (data_format : string) : PyNN.State :=
  (run_calls [PyNN.add_input_layer [1; 2; 1; 2]; PyNN.add_layer ex_conv;
              PyNN.add_layer ex_flatten; PyNN.add_layer ex_dense]
     (ex_new data_format ∅)).2.

(** A build with two Flatten layers in a row. *)
Definition ex_two_flattens : outcome unit * PyNN.State :=
  run_calls [PyNN.add_input_layer [1; 2; 1; 2]; PyNN.add_layer ex_conv;
             PyNN.add_layer ex_flatten; PyNN.add_layer ex_flatten2]
    (ex_new "channels_last" ∅).

(** The network after the input layer, a convolution layer and a dense
    layer were added, with no Flatten layer between them. *)
Definition ex_unflattened : PyNN.State :=
  (run_calls [PyNN.add_input_layer [1; 2; 1; 2]; PyNN.add_layer ex_conv;
              PyNN.add_layer ex_dense]
     (ex_new "channels_last" ∅)).2.

(** A working directory in which an older replay script exists. *)
Definition ex_old_script : gmap string (list PyNN.chunk) :=
  {[ "/wd/snn.py" := [PyNN.Script PyNN.ScriptCompile] ]}.

(** The descriptor of a network whose input layer has nine cells, saved
    under "/wd/assembly". *)
Definition ex_old_assembly : gmap string (list PyNN.chunk) :=
  PyNN.fs (PyNN.save_assembly "/wd" "assembly"
             (PyNN.add_input_layer [1; 1; 3; 3] (ex_new "channels_last" ∅)).2).2.

(** A network whose input layer has four cells, in the directory that holds
    the older descriptor. *)
Definition ex_declined : PyNN.State :=
  (PyNN.add_input_layer [1; 2; 1; 2] (ex_new "channels_last" ex_old_assembly)).2.

(** Networks whose labels collide: two layers named alike, and a layer named
    like a key of the descriptor. *)
Definition ex_duplicate_labels : PyNN.State :=
  (run_calls [PyNN.add_input_layer [1; 2; 1; 2];
              PyNN.add_layer (ex_layer "Dense" "a" [1; 2] (PyNN.Mode "") []);
              PyNN.add_layer (ex_layer "Dense" "a" [1; 3] (PyNN.Mode "") [])]
     (ex_new "channels_last" ∅)).2.

Definition ex_reserved_label : PyNN.State :=
  (run_calls [PyNN.add_input_layer [1; 2; 1; 2];
              PyNN.add_layer (ex_layer "Dense" "size" [1; 2] (PyNN.Mode "") [])]
     (ex_new "channels_last" ∅)).2.

(** A Caffe network: a fully connected layer followed by a
    batch-normalization layer that holds four parameter arrays. *)
Definition ex_net {ndarray} (W b gamma beta mean var : ndarray) (eps : float)
    (fc_type : string) : Caffe.net :=
  {| Caffe.net_blobs := {[ "fc1" := [1; 10] ]};
     Caffe.net_params := {[ "fc1" := [W; b] ]};
     Caffe.net_layers :=
       [ {| Caffe.net_type := fc_type; Caffe.blobs := [W; b];
            Caffe.epsilon := 0%float |};
         {| Caffe.net_type := "BatchNormalization";
            Caffe.blobs := [gamma; beta; mean; var]; Caffe.epsilon := eps |} ] |}.

Definition ex_protobuf (fc_type : string) : list Caffe.proto_layer :=
  [ {| Caffe.type := fc_type; Caffe.name := "fc1"; Caffe.pool_method_0 := "MAX" |};
    {| Caffe.type := "BatchNormalization"; Caffe.name := "bn1";
       Caffe.pool_method_0 := "MAX" |} ].

(** ** Further functions of the two files *)

Module SNN.

(** [SNN.reset], lines 365-372, for the value of the setting
    ['reset_between_nth_sample']: the result tells whether [self.sim.reset()]
    is called. *)
Definition reset (reset_between_nth_sample sample_idx : Z) : outcome bool :=
  let mod' := reset_between_nth_sample in
  let mod' := if bool_decide (mod' ≠ 0) then mod' else sample_idx + 1 in
  r ← mod_ sample_idx mod';
  Ok (bool_decide (r = 0)).

(** [any(s)] for a set of strings: some element is not the empty string. *)
Definition any_str (s : gset string) : bool :=
  existsb (λ k, negb (String.eqb k "")) (elements s).

(** [SNN.get_vars_to_record], lines 437-457. *)
Definition get_vars_to_record (plot_keys log_keys : gset string) : list string :=
  let vars_to_record := [] in
  let vars_to_record :=
    if any_str ({[ "spiketrains"; "spikerates"; "correlation"; "spikecounts";
                   "hist_spikerates_activations" ]} ∩ plot_keys)
       || bool_decide ("spiketrains_n_b_l_t" ∈ log_keys)
    then vars_to_record ++ ["spikes"] else vars_to_record in
  let vars_to_record :=
    if bool_decide ("mem_n_b_l_t" ∈ log_keys) || bool_decide ("v_mem" ∈ plot_keys)
    then vars_to_record ++ ["v"] else vars_to_record in
  vars_to_record.

(** [SNN.init_cells], lines 407-421, on a network of [n] layers: the calls
    [self.layers[i].record(variables)] it makes, in order, each with the
    variables the list holds at the time of the call. *)
Definition init_cells (plot_keys log_keys : gset string) (n : nat)
    : outcome (list (nat * list string)) :=
  let vars_to_record := get_vars_to_record plot_keys log_keys in
  input ← (if bool_decide ("spikes" ∈ vars_to_record) then
             if (n =? 0)%nat then Raise IndexError else Ok [(0%nat, ["spikes"])]
           else Ok []);
  let others := (λ i, (i, vars_to_record)) <$> seq 1 (n - 1) in
  output ← (if bool_decide ("spikes" ∉ vars_to_record) then
              let vars_to_record := vars_to_record ++ ["spikes"] in
              if (n =? 0)%nat then Raise IndexError
              else Ok [((n - 1)%nat, vars_to_record)]
            else Ok []);
  Ok (input ++ others ++ output).

End SNN.

Module CaffeParams.

Section Params.

Context {ndarray : Type}.

(** [model.params[i][k] = v]. *)
Definition setitem (params : gmap string (list ndarray)) (i : string) (k : nat)
    (v : ndarray) : outcome (gmap string (list ndarray)) :=
  l ← getkey params i;
  if (k <? length l)%nat then Ok (<[i := <[k := v]> l]> params)
  else Raise IndexError.

(** [set_layer_params], lines 284-287, on [model.params]: the outcome and
    the parameters as the call leaves them. *)
Definition set_layer_params (model_params : gmap string (list ndarray))
    (params : list ndarray) (i : string)
    : outcome unit * gmap string (list ndarray) :=
  match getitem params 0 with
  | Raise e => (Raise e, model_params)
  | Ok p0 =>
      match setitem model_params i 0 p0 with
      | Raise e => (Raise e, model_params)
      | Ok params1 =>
          match getitem params 1 with
          | Raise e => (Raise e, params1)
          | Ok p1 =>
              match setitem params1 i 1 p1 with
              | Raise e => (Raise e, params1)
              | Ok params2 => (Ok (), params2)
              end
          end
      end
  end.

End Params.

End CaffeParams.

(** The file to which [save_biases] writes the biases of a population. *)
Definition bias_path (path : string) (p : PyNN.Population) : string :=
  path_join path (PyNN.label p +:+ "_biases").

(** The file to which [save_connections] writes a projection. *)
Definition connection_path (path : string) (pr : PyNN.Projection) : string :=
  path_join path (partition_last "→" (PyNN.proj_label pr)).


(** The populations of [st'] are those of [st], except that the bias of the
    last one may have been set. *)
Definition populations_kept (st st' : PyNN.State) : Prop :=
  PyNN.layers st' = PyNN.layers st
  ∨ ∃ v, PyNN.layers st'
         = PyNN.alter_last (PyNN.pop_set "i_offset" (PyNN.Vector v)) (PyNN.layers st).

(** The projections of [st'] are those of [st], followed by at most one new
    projection, and by none when the network is not simulated. *)
Definition connections_grown (st st' : PyNN.State) : Prop :=
  ∃ new, PyNN.connections st' = PyNN.connections st ++ new
         ∧ (length new ≤ 1)%nat
         ∧ (PyNN.simulate (PyNN.config st) = false → new = []).

(** [st'] differs from [st] in the file system only, and every file of [st]
    is still there (with its old contents or new ones). *)
Definition files_written (st st' : PyNN.State) : Prop :=
  ∃ f, st' = PyNN.set_fs f st ∧ dom (PyNN.fs st) ⊆ dom f.

(** Every population that is not the input layer has a bias. *)
Definition biases_present (ls : list PyNN.Population) : Prop :=
  ∀ p, p ∈ ls → PyNN.label p ≠ "InputLayer" → is_Some (i_offset p).

(** A Caffe network: a data layer, a fully connected layer and a ReLU that
    works in place and has no blob under its own name. *)
Definition ex_relu_net {ndarray} (W b : ndarray) : Caffe.net :=
  {| Caffe.net_blobs := {[ "ip1" := [1; 10] ]};
     Caffe.net_params := {[ "ip1" := [W; b] ]};
     Caffe.net_layers :=
       [ {| Caffe.net_type := "Data"; Caffe.blobs := []; Caffe.epsilon := 0%float |};
         {| Caffe.net_type := "InnerProduct"; Caffe.blobs := [W; b];
            Caffe.epsilon := 0%float |};
         {| Caffe.net_type := "ReLU"; Caffe.blobs := []; Caffe.epsilon := 0%float |} ] |}.

Definition ex_inner_product : Caffe.proto_layer :=
  {| Caffe.type := "InnerProduct"; Caffe.name := "ip1"; Caffe.pool_method_0 := "MAX" |}.

Definition ex_relu : Caffe.proto_layer :=
  {| Caffe.type := "ReLU"; Caffe.name := "relu1"; Caffe.pool_method_0 := "MAX" |}.

Definition ex_relu_protobuf : list Caffe.proto_layer :=
  [ {| Caffe.type := "Data"; Caffe.name := "data"; Caffe.pool_method_0 := "MAX" |};
    ex_inner_product; ex_relu ].

(** A stand-in for [absorb_bn] that hands the weights back. *)
Definition ex_absorb_bn {ndarray} (w b _ _ _ _ : ndarray) (_ : float)
    : ndarray * ndarray := (w, b).

(** The layers that [extract] returns for the example network. *)
Definition ex_extracted : list (@Caffe.attributes unit) :=
  [ {| Caffe.layer_num := 1; Caffe.layer_type := "InnerProduct";
       Caffe.output_shape := [1; 10]; Caffe.label := "01InnerProduct_10";
       Caffe.activation := None; Caffe.weights := None |};
    {| Caffe.layer_num := 2; Caffe.layer_type := "Activation";
       Caffe.output_shape := [1; 10]; Caffe.label := "02Activation_10";
       Caffe.activation := None; Caffe.weights := None |} ].

(** The example network with overwriting configured. *)
Definition ex_overwrite_config : PyNN.Config :=
  {| PyNN.overwrite := true; PyNN.simulate := true; PyNN.delay := 1%float;
     PyNN.keras_backend := "tensorflow"; PyNN.path_wd := "/wd";
     PyNN.filename_snn := "snn"; PyNN.log_dir_of_current_run := "/log" |}.

Definition ex_overwriting : PyNN.State :=
  (run_calls [PyNN.add_input_layer [1; 2; 1; 2]; PyNN.add_layer ex_conv;
              PyNN.add_layer ex_dense]
     (PyNN.init ex_env ex_overwrite_config ex_sim ∅ "channels_last" true
        0.125%float ∅)).2.





(** A build with two Flatten layers in a row, up to the population of the
    dense layer that follows them. *)
Definition ex_two_flattens_dense : PyNN.State :=
  (run_calls [PyNN.add_input_layer [1; 2; 1; 2]; PyNN.add_layer ex_conv;
              PyNN.add_layer ex_flatten; PyNN.add_layer ex_flatten2;
              PyNN.add_layer ex_dense]
     (ex_new "channels_last" ∅)).2.

(** A network whose convolution layer is labelled with two dimensions only,
    followed by a Flatten layer and a dense layer. *)
Definition ex_short_shape : PyNN.State :=
  (run_calls [PyNN.add_input_layer [1; 2; 1; 2];
              PyNN.add_layer (ex_layer "Conv2D" "00Conv2D_2x2" [1; 2; 2]
                                (PyNN.Mode "valid") []);
              PyNN.add_layer ex_flatten; PyNN.add_layer ex_dense]
     (ex_new "channels_last" ∅)).2.

(** The input layer and the dense layer of the example network. *)
Definition ex_input_population : PyNN.Population :=
  PyNN.sim_Population 4 ex_spike_source ∅ None "InputLayer".

Definition ex_dense_population : PyNN.Population :=
  PyNN.sim_Population 2 ex_if_curr_exp ∅ None "02Dense_2".

(** ** Facts about strings and decimal numerals *)

#[global] Arguments String.append : simpl nomatch.

Section Strings.

Implicit Types (s t : string) (c : ascii).

Lemma append_nil_r s : s +:+ "" = s.
Proof. induction s as [|c s IH]; simpl; [reflexivity | now rewrite IH]. Qed.

Lemma append_assoc s t u : (s +:+ t) +:+ u = s +:+ (t +:+ u).
Proof. induction s as [|c s IH]; simpl; [reflexivity | now rewrite IH]. Qed.

Lemma all_chars_app P s t :
  all_chars P (s +:+ t) = all_chars P s && all_chars P t.
Proof.
  induction s as [|c s IH]; simpl; [reflexivity |].
  now rewrite IH, andb_assoc.
Qed.

Lemma all_chars_impl (P Q : ascii → bool) s :
  (∀ c, P c = true → Q c = true) → all_chars P s = true → all_chars Q s = true.
Proof.
  intros HPQ. induction s as [|c s IH]; simpl; [reflexivity |].
  intros [Hc Hs]%andb_prop. rewrite (HPQ _ Hc), (IH Hs). reflexivity.
Qed.

Lemma contains_all_chars sep s :
  contains sep s = negb (all_chars (λ c, negb (Ascii.eqb c sep)) s).
Proof.
  induction s as [|c s IH]; simpl; [reflexivity |].
  rewrite IH. now destruct (Ascii.eqb c sep), (all_chars _ s).
Qed.

Lemma uint_digits d : all_chars is_digit (NilEmpty.string_of_uint d) = true.
Proof. induction d; simpl; auto. Qed.

Lemma nilzero_uint_digits d : all_chars is_digit (NilZero.string_of_uint d) = true.
Proof. destruct d; try reflexivity; apply (uint_digits (_ _)). Qed.

Lemma str_chars (z : Z) : all_chars is_digit_or_minus (str z) = true.
Proof.
  assert (Hd : ∀ d, all_chars is_digit_or_minus (NilZero.string_of_uint d) = true).
  { intros d. apply all_chars_impl with (P := is_digit); [|apply nilzero_uint_digits].
    intros c Hc. unfold is_digit_or_minus. now rewrite Hc. }
  unfold str. destruct (Z.to_int z); simpl; [apply Hd |].
  apply (Hd d).
Qed.

Lemma digit_or_minus_cases c :
  is_digit_or_minus c = true →
  is_space c = false ∧ c ≠ "_"%char ∧ c ≠ "x"%char ∧ c ≠ "+"%char.
Proof.
  destruct c as [[|] [|] [|] [|] [|] [|] [|] [|]]; vm_compute; intros H;
    try discriminate H; repeat split; discriminate.
Qed.

Lemma lstrip_id s : all_chars (λ c, negb (is_space c)) s = true → lstrip s = s.
Proof.
  destruct s as [|c s]; simpl; [reflexivity |].
  intros [Hc _]%andb_prop. apply negb_true_iff in Hc. now rewrite Hc.
Qed.

Lemma rstrip_id s : all_chars (λ c, negb (is_space c)) s = true → rstrip s = s.
Proof.
  induction s as [|c s IH]; simpl; [reflexivity |].
  intros [Hc Hs]%andb_prop. apply negb_true_iff in Hc.
  rewrite (IH Hs), Hc. now destruct s.
Qed.

(** [int(str(z))] is [z]. *)
Lemma int_str (z : Z) : int (str z) = Ok z.
Proof.
  pose proof (str_chars z) as Hc.
  assert (Hs : all_chars (λ c, negb (is_space c)) (str z) = true).
  { revert Hc. apply all_chars_impl. intros c Hc.
    destruct (digit_or_minus_cases c Hc) as [-> _]. reflexivity. }
  unfold int. rewrite (lstrip_id _ Hs), (rstrip_id _ Hs).
  assert (Hp : NilZero.int_of_string (str z) = Some (Z.to_int z)).
  { unfold str. apply NilZero.isi.
    - destruct z; simpl; try discriminate.
      intros [= H]. now apply DecimalPos.Unsigned.to_uint_nonnil in H.
    - destruct z; simpl; try discriminate.
      intros [= H]. now apply DecimalPos.Unsigned.to_uint_nonnil in H. }
  destruct (str z) as [|c r] eqn:E.
  - simpl in Hp. discriminate Hp.
  - simpl in Hc. apply andb_prop in Hc as [Hc _].
    destruct (digit_or_minus_cases c Hc) as (_ & _ & _ & Hplus).
    assert (Hgo : (match String c r with
                   | String "+"%char r0 => option_map Decimal.Pos (NilZero.uint_of_string r0)
                   | _ => NilZero.int_of_string (String c r)
                   end) = NilZero.int_of_string (String c r)).
    { destruct c as [[|] [|] [|] [|] [|] [|] [|] [|]]; try reflexivity.
      now contradiction Hplus. }
    rewrite Hgo, Hp. now rewrite DecimalZ.of_to.
Qed.

End Strings.

(** ** Splitting and joining *)

Section Split.

Implicit Types (s t : string) (c sep : ascii).

Lemma split_no_sep sep s : contains sep s = false → split sep s = [s].
Proof.
  induction s as [|c s IH]; simpl; [reflexivity |].
  intros [Hc Hs]%orb_false_elim. rewrite Hc, (IH Hs). reflexivity.
Qed.

Lemma split_app sep s t :
  contains sep s = false → split sep (s +:+ String sep t) = s :: split sep t.
Proof.
  induction s as [|c s IH]; simpl.
  - intros _. now rewrite Ascii.eqb_refl.
  - intros [Hc Hs]%orb_false_elim. rewrite Hc, (IH Hs). reflexivity.
Qed.

Lemma contains_app sep s t :
  contains sep (s +:+ t) = contains sep s || contains sep t.
Proof.
  induction s as [|c s IH]; simpl; [reflexivity |].
  now rewrite IH, orb_assoc.
Qed.

(** A string is cut in one way only at the last occurrence of [sep]. *)
Lemma cut_unique sep s s' t t' :
  contains sep t = false → contains sep t' = false →
  s +:+ String sep t = s' +:+ String sep t' → s = s' ∧ t = t'.
Proof.
  intros Ht Ht'. revert s'.
  assert (Hcut : ∀ u v, contains sep (u +:+ String sep v) = true).
  { intros u v. rewrite contains_app. simpl.
    rewrite Ascii.eqb_refl. simpl. now rewrite orb_true_r. }
  induction s as [|c s IH]; intros [|c' s']; simpl; intros E.
  - injection E as E. split; [reflexivity | assumption].
  - injection E as E1 E2. rewrite E2, Hcut in Ht. discriminate Ht.
  - injection E as E1 E2. rewrite <- E2, Hcut in Ht'. discriminate Ht'.
  - injection E as E1 E2. subst c'. destruct (IH _ E2) as [-> ->].
    split; reflexivity.
Qed.

Lemma str_no_char c (z : Z) :
  is_digit_or_minus c = false → contains c (str z) = false.
Proof.
  intros Hc. rewrite contains_all_chars. apply negb_false_iff.
  generalize (str_chars z). apply all_chars_impl.
  intros a Ha. apply negb_true_iff. destruct (Ascii.eqb_spec a c) as [->|]; [|reflexivity].
  congruence.
Qed.

(** Joined decimal numerals contain no underscore. *)
Lemma join_no_underscore (l : list Z) :
  contains "_" (join "x" (str <$> l)) = false.
Proof.
  induction l as [|a [|b r] IH].
  - reflexivity.
  - simpl. now apply str_no_char.
  - change (contains "_" (str a +:+ "x" +:+ join "x" (str <$> b :: r)) = false).
    rewrite !contains_app, IH, (str_no_char "_" a eq_refl). reflexivity.
Qed.

Lemma mapM_cons {A B} (f : A → outcome B) (a : A) (r : list A) :
  mapM f (a :: r) = obind (f a) (λ b, obind (mapM f r) (λ bs, Ok (b :: bs))).
Proof. reflexivity. Qed.

(** Splitting at ['x'] and reading the numerals undoes the joining. *)
Lemma read_joined (l : list Z) :
  l ≠ [] → mapM int (split "x" (join "x" (str <$> l))) = Ok l.
Proof.
  induction l as [|a [|b r] IH]; intros Hne.
  - now contradiction Hne.
  - simpl. rewrite split_no_sep by now apply str_no_char.
    simpl. now rewrite int_str.
  - change (join "x" (str <$> a :: b :: r))
      with (str a +:+ String "x" (join "x" (str <$> b :: r))).
    rewrite split_app by now apply str_no_char.
    rewrite mapM_cons, IH, int_str by discriminate. reflexivity.
Qed.

Lemma num_str_two_digits (n : nat) :
  (n < 100)%nat → Caffe.num_str n = two_digits n.
Proof.
  intros H. do 100 (destruct n as [|n]; [vm_compute; reflexivity |]). lia.
Qed.

Lemma int_two_digits (n : nat) :
  (n < 100)%nat → int (two_digits n) = Ok (Z.of_nat n).
Proof.
  intros H. do 100 (destruct n as [|n]; [vm_compute; reflexivity |]). lia.
Qed.

Lemma two_digits_inj (n m : nat) :
  (n < 100)%nat → (m < 100)%nat → two_digits n = two_digits m → n = m.
Proof.
  intros Hn Hm E. apply Nat2Z.inj.
  pose proof (int_two_digits n Hn) as H1. rewrite E, (int_two_digits m Hm) in H1.
  congruence.
Qed.

Lemma two_digits_app_inj (n m : nat) s t :
  two_digits n +:+ s = two_digits m +:+ t → two_digits n = two_digits m ∧ s = t.
Proof.
  unfold two_digits.
  generalize (digit_char (n / 10)) (digit_char (n mod 10))
             (digit_char (m / 10)) (digit_char (m mod 10)).
  intros a b c d.
  change (String a (String b s) = String c (String d t) →
          String a (String b "") = String c (String d "") ∧ s = t).
  intros [= -> -> ->]. split; reflexivity.
Qed.

(** The shape suffix of a label, for the two accepted lengths. *)
Lemma shape_string_spec (output_shape : list Z) :
  length output_shape = 2%nat ∨ length output_shape = 4%nat →
  @Caffe.shape_string output_shape
  = Ok ("_" +:+ join "x" (str <$> tail output_shape)).
Proof.
  intros [H|H].
  - destruct output_shape as [|b [|d1 [|? ?]]]; try discriminate H. reflexivity.
  - destruct output_shape as [|b [|d1 [|d2 [|d3 [|? ?]]]]]; try discriminate H.
    reflexivity.
Qed.

Lemma make_label_spec (n : nat) (kind : string) (output_shape : list Z) :
  (n < 100)%nat →
  length output_shape = 2%nat ∨ length output_shape = 4%nat →
  @Caffe.make_label n kind output_shape
  = Ok (two_digits n +:+ kind +:+ "_" +:+ join "x" (str <$> tail output_shape)).
Proof.
  intros Hn Hl. unfold Caffe.make_label.
  rewrite (shape_string_spec _ Hl). simpl.
  now rewrite (num_str_two_digits n Hn).
Qed.

End Split.

(** ** Layer labels *)

Lemma canonical_kinds_no_underscore (kind : string) :
  kind ∈ canonical_kinds → contains "_" kind = false.
Proof.
  unfold canonical_kinds. rewrite !elem_of_cons, elem_of_nil.
  intros [->|[->|[->|[->|[->|[->|[->|[]]]]]]]]; reflexivity.
Qed.

(** C5. For a layer with index below 100 and an output shape of length 2 or
    4, the label built by [extract] is the two-digit zero-padded index, then
    the kind name, then an underscore and the non-batch dimensions joined by
    'x'.  The label determines the index, the kind and the non-batch shape
    (injectivity).  When the kind name holds no underscore, as is the case
    for every canonical kind name, [get_shape_from_label] returns the
    non-batch shape.  Index 2, kind Conv2D and shape 16, 32, 32 give
    "02Conv2D_16x32x32". *)
Theorem label_roundtrip (layer_num : nat) (kind : string) (output_shape : list Z) :
  (layer_num < 100)%nat →
  length output_shape = 2%nat ∨ length output_shape = 4%nat →
  let l := two_digits layer_num +:+ kind +:+ "_"
           +:+ join "x" (str <$> tail output_shape) in
  Caffe.make_label layer_num kind output_shape = Ok l
  ∧ (∀ layer_num' kind' output_shape',
       (layer_num' < 100)%nat →
       length output_shape' = 2%nat ∨ length output_shape' = 4%nat →
       Caffe.make_label layer_num' kind' output_shape' = Ok l →
       layer_num' = layer_num ∧ kind' = kind
       ∧ tail output_shape' = tail output_shape)
  ∧ (contains "_" kind = false →
     PyNN.get_shape_from_label l = Ok (tail output_shape))
  ∧ (∀ batch, Caffe.make_label 2 "Conv2D" [batch; 16; 32; 32]
              = Ok "02Conv2D_16x32x32").
Proof.
  intros Hn Hl l.
  assert (Hne : ∀ s : list Z, length s = 2%nat ∨ length s = 4%nat → tail s ≠ []).
  { intros [|? [|? ?]] [H|H]; simpl in *; try discriminate; lia. }
  split; [now apply make_label_spec |].
  split; [| split].
  - intros n' kind' shape' Hn' Hl' E.
    rewrite (make_label_spec _ _ _ Hn' Hl') in E.
    assert (E' : two_digits n' +:+ kind' +:+ "_" +:+ join "x" (str <$> tail shape')
                 = l) by congruence.
    subst l. apply two_digits_app_inj in E' as [E1 E3].
    assert (n' = layer_num) as -> by now apply two_digits_inj.
    change (kind' +:+ String "_" (join "x" (str <$> tail shape'))
            = kind +:+ String "_" (join "x" (str <$> tail output_shape))) in E3.
    apply cut_unique in E3 as [-> E3]; try apply join_no_underscore.
    repeat split.
    pose proof (read_joined (tail shape') (Hne _ Hl')) as R.
    rewrite E3, (read_joined _ (Hne _ Hl)) in R. congruence.
  - intros Hk. unfold PyNN.get_shape_from_label. subst l.
    rewrite <- append_assoc.
    change ((two_digits layer_num +:+ kind) +:+ "_" +:+ ?t)
      with ((two_digits layer_num +:+ kind) +:+ String "_" t).
    rewrite split_app.
    + rewrite split_no_sep by apply join_no_underscore.
      unfold getitem. simpl lookup. unfold mbind, outcome_bind, obind. now apply read_joined, Hne.
    + rewrite contains_app, Hk.
      unfold two_digits. 
      assert (Hd : ∀ d, (d < 10)%nat → Ascii.eqb (digit_char d) "_" = false).
      { intros d Hd. do 10 (destruct d as [|d]; [reflexivity |]). lia. }
      unfold contains. rewrite !Hd; [reflexivity | |].
      * apply Nat.mod_upper_bound. lia.
      * apply Nat.Div0.div_lt_upper_bound. lia.
  - intros batch. reflexivity.
Qed.

(** ** Running methods *)

Import PyNN.

Section Running.

Lemma run_bind {A B} (m : M A) (k : A → M B) (s : State) :
  (m ≫= k) s = match m s with
               | (Ok a, s') => k a s'
               | (Raise e, s') => (Raise e, s')
               end.
Proof. reflexivity. Qed.

Lemma set_layers_id (s : State) : set_layers (layers s) s = s.
Proof. now destruct s. Qed.

Lemma set_flatten_shapes_id (s : State) : set_flatten_shapes (flatten_shapes s) s = s.
Proof. now destruct s. Qed.

Lemma alter_last_snoc {A} (f : A → A) (l : list A) (a : A) :
  alter_last f (l ++ [a]) = l ++ [f a].
Proof.
  unfold alter_last. rewrite length_app. simpl.
  replace (pred (length l + 1)) with (length l + 0)%nat by lia.
  now rewrite alter_app_r.
Qed.

Lemma length_alter_last {A} (f : A → A) (l : list A) :
  length (alter_last f l) = length l.
Proof. unfold alter_last. apply length_alter. Qed.

Lemma np_any_false (biases : list float) :
  np_any biases = false ↔ Forall (λ b, PrimFloat.eqb b 0 = true) biases.
Proof.
  unfold np_any, truthy. induction biases as [|b r IH]; simpl.
  - split; [constructor | reflexivity].
  - rewrite orb_false_iff, IH, negb_false_iff, Forall_cons. reflexivity.
Qed.

Lemma np_any_true (biases : list float) :
  np_any biases = true ↔ Exists (λ b, PrimFloat.eqb b 0 = false) biases.
Proof.
  unfold np_any, truthy. induction biases as [|b r IH]; simpl.
  - split; [discriminate | intros H; inversion H].
  - rewrite orb_true_iff, IH, negb_true_iff, Exists_cons. reflexivity.
Qed.

(** What [set_biases] does, by cases. *)
Lemma set_biases_run (biases : list float) (st : State) :
  set_biases biases st =
  if np_any biases then
    match last (layers st) with
    | Some _ =>
        (Ok (), set_layers
                  (alter_last
                     (pop_set "i_offset"
                        (Vector ((λ b, (b * dt st / 100)%float) <$> biases)))
                     (layers st)) st)
    | None => (Raise IndexError, st)
    end
  else (Ok (), st).
Proof.
  unfold set_biases. destruct (np_any biases); [|reflexivity].
  change (negb true) with false. cbv iota.
  rewrite run_bind. unfold gets at 1.
  rewrite run_bind. unfold lift, last_item, id.
  destruct (last (layers st)); reflexivity.
Qed.

(** [set_biases] touches the layers only, and keeps their number. *)
Lemma set_biases_frame (biases : list float) (st : State) :
  ∃ ls, (set_biases biases st).2 = set_layers ls st ∧ length ls = length (layers st).
Proof.
  rewrite set_biases_run. destruct (np_any biases).
  - destruct (last (layers st)).
    + eexists. split; [reflexivity | apply length_alter_last].
    + exists (layers st). now rewrite set_layers_id.
  - exists (layers st). now rewrite set_layers_id.
Qed.

End Running.

(** ** Biases *)

(** C9. [set_biases] applied to a bias vector whose entries are all zero
    returns without changing anything; applied to a vector with a nonzero
    entry it sets the injected current [i_offset] of the last population,
    entry by entry, to [biases * dt / 100], and changes nothing else. *)
Theorem set_biases_spec (biases : list float) (st : State) :
  (Forall (λ b, PrimFloat.eqb b 0 = true) biases →
   set_biases biases st = (Ok (), st))
  ∧ (∀ ls p, layers st = ls ++ [p] →
       Exists (λ b, PrimFloat.eqb b 0 = false) biases →
       let scaled := Vector ((λ b, (b * dt st / 100)%float) <$> biases) in
       set_biases biases st
       = (Ok (), set_layers (ls ++ [pop_set "i_offset" scaled p]) st)
       ∧ i_offset (pop_set "i_offset" scaled p) = Some scaled).
Proof.
  split.
  - intros H%np_any_false. now rewrite set_biases_run, H.
  - intros ls p Hl H%np_any_true scaled.
    rewrite set_biases_run, H, Hl, last_snoc, alter_last_snoc.
    split; [reflexivity |].
    unfold i_offset, pop_set. simpl. apply lookup_insert_eq.
Qed.

(** ** Dense connection lists *)

Section Dense.

Lemma mapM_Ok {A B} (f : A → outcome B) (l : list A) (bs : list B) :
  mapM f l = Ok bs ↔ Forall2 (λ a b, f a = Ok b) l bs.
Proof.
  revert bs. induction l as [|a l IH]; intros bs; simpl.
  - split.
    + intros [= <-]. constructor.
    + intros H. inversion H. reflexivity.
  - split.
    + destruct (f a) as [b|e] eqn:Ea; simpl; [|discriminate].
      destruct (mapM f l) as [bs'|e] eqn:El; simpl; [|discriminate].
      intros [= <-]. constructor; [assumption | now apply IH].
    + intros H. inversion H as [|? b ? bs' Ha Hl]; subst.
      rewrite Ha. simpl. apply IH in Hl. rewrite Hl. reflexivity.
Qed.

Lemma mapM_total {A B} (f : A → outcome B) (g : A → B) (l : list A) :
  (∀ a, a ∈ l → f a = Ok (g a)) → mapM f l = Ok (g <$> l).
Proof.
  intros H. apply mapM_Ok. apply Forall2_fmap_r, Forall_Forall2_diag.
  now apply Forall_forall.
Qed.

Lemma length_row_connections w d src i :
  length (row_connections w d src i) = shape1 w.
Proof. unfold row_connections. now rewrite length_fmap, length_seq. Qed.

Lemma lookup_row_connections w d src i j :
  (j < shape1 w)%nat →
  row_connections w d src i !! j = Some (src, Z.of_nat j, at2 w i j, d).
Proof.
  intros Hj. unfold row_connections.
  rewrite list_lookup_fmap, lookup_seq_lt by assumption. reflexivity.
Qed.

Lemma delay_row_connections w d src i (c : conn) :
  c ∈ row_connections w d src i → c.2 = d.
Proof.
  unfold row_connections. intros (j & -> & _)%list_elem_of_fmap. reflexivity.
Qed.

(** A connection list assembled from one row per input neuron, where the row
    of neuron [i] has source index [src i]. *)
Lemma rows_joined w d (src : nat → Z) :
  let conns := mjoin ((λ i, row_connections w d (src i) i) <$> seq 0 (shape0 w)) in
  length conns = (shape0 w * shape1 w)%nat
  ∧ (∀ i j, (i < shape0 w)%nat → (j < shape1 w)%nat →
       entry_at conns w i j = Some (src i, Z.of_nat j, at2 w i j, d))
  ∧ (∀ c : conn, c ∈ conns → c.2 = d).
Proof.
  intros conns.
  assert (Hlen : Forall (λ l : list conn, length l = shape1 w)
                   ((λ i, row_connections w d (src i) i) <$> seq 0 (shape0 w))).
  { apply Forall_fmap, Forall_forall. intros i _. apply length_row_connections. }
  split; [| split].
  - unfold conns. rewrite length_join, <- list_fmap_compose.
    rewrite (sum_list_fmap_same (shape1 w)), length_seq; [reflexivity |].
    apply Forall_forall. intros i _. apply length_row_connections.
  - intros i j Hi Hj. unfold entry_at, conns.
    apply (join_lookup_Some_same_length' (shape1 w)); [assumption .. |].
    eexists. split.
    + rewrite list_lookup_fmap, lookup_seq_lt by assumption. reflexivity.
    + now apply lookup_row_connections.
  - intros c (l & Hc & Hl)%list_elem_of_join.
    apply list_elem_of_fmap in Hl as (i & -> & _).
    eapply delay_row_connections, Hc.
Qed.

Lemma set_biases_ok (biases : list float) (st : State) :
  layers st ≠ [] →
  ∃ ls, set_biases biases st = (Ok (), set_layers ls st)
        ∧ length ls = length (layers st).
Proof.
  intros Hne. rewrite set_biases_run. destruct (np_any biases).
  - destruct (last (layers st)) eqn:El.
    + eexists. split; [reflexivity | apply length_alter_last].
    + apply last_None in El. contradiction.
  - exists (layers st). now rewrite set_layers_id.
Qed.

Lemma dense_connections_plain (layer : Layer) (st : State) :
  flatten_shapes st = [] →
  dense_connections layer st
  = (Ok (plain_connections (weights layer) (delay (config st))), st).
Proof.
  intros Hf. unfold dense_connections. rewrite run_bind. unfold gets at 1, id.
  rewrite Hf. reflexivity.
Qed.

Lemma attach_projection_ok (conns : list conn) (st : State) :
  simulate (config st) = true → (2 ≤ length (layers st))%nat →
  ∃ pre post, attach_projection conns st
    = (Ok (), set_connections (connections st ++ [sim_Projection pre post conns]) st).
Proof.
  intros Hs Hl. unfold attach_projection. rewrite run_bind. unfold gets at 1, id.
  rewrite Hs. rewrite run_bind. unfold lift at 1, item_before_last.
  destruct (Nat.leb_spec 2 (length (layers st))) as [_|]; [|lia].
  unfold getitem.
  destruct (lookup_lt_is_Some_2 (layers st) (length (layers st) - 2)) as [pre Hpre];
    [lia |].
  rewrite Hpre. rewrite run_bind. unfold lift at 1, last_item.
  destruct (last (layers st)) as [post|] eqn:El.
  - exists pre, post. reflexivity.
  - apply last_None in El. rewrite El in Hl. simpl in Hl. lia.
Qed.

End Dense.

(** C4. A dense layer built while no FlattenShapeRecord is pending gets a
    connection list with exactly rows x cols entries, one per entry of the
    weight matrix; the entry for source [i] and target [j] carries
    [weights[i, j]], and every entry carries the configured delay.  When the
    network is to be simulated, this list is the one of the projection that
    [build_dense] appends. *)
Theorem dense_plain (layer : Layer) (st : State) :
  flatten_shapes st = [] →
  let w := weights layer in
  let conns := plain_connections w (delay (config st)) in
  dense_connections layer st = (Ok conns, st)
  ∧ length conns = (shape0 w * shape1 w)%nat
  ∧ (∀ i j, (i < shape0 w)%nat → (j < shape1 w)%nat →
       entry_at conns w i j
       = Some (Z.of_nat i, Z.of_nat j, at2 w i j, delay (config st)))
  ∧ (∀ c : conn, c ∈ conns → c.2 = delay (config st))
  ∧ (simulate (config st) = true → (2 ≤ length (layers st))%nat →
     ∃ st', build_dense layer st = (Ok (), st')
            ∧ rows <$> last (connections st') = Some conns).
Proof.
  intros Hf w conns.
  destruct (rows_joined w (delay (config st)) Z.of_nat) as (Hlen & Hentry & Hdelay).
  split; [now apply dense_connections_plain |].
  split; [exact Hlen |]. split; [exact Hentry |]. split; [exact Hdelay |].
  intros Hs Hl. unfold build_dense.
  destruct (set_biases_ok (biases layer) st) as (ls & Hb & Hls).
  { intros E. rewrite E in Hl. simpl in Hl. lia. }
  rewrite run_bind, Hb, run_bind.
  rewrite (dense_connections_plain layer (set_layers ls st)) by exact Hf.
  rewrite run_bind.
  destruct (attach_projection_ok conns (set_layers ls st)) as (pre & post & Ha);
    [exact Hs | simpl; lia |].
  change (delay (config (set_layers ls st))) with (delay (config st)).
  fold w. fold conns. rewrite Ha.
  eexists. split; [reflexivity |].
  simpl. rewrite last_snoc. reflexivity.
Qed.

(** ** Dense layers after a Flatten layer *)

Section Flatten.

Lemma new_i_ok (C H W i : Z) :
  C ≠ 0 → W ≠ 0 →
  new_i C H W i = Ok ((i `mod` C) * W * H + W * (i / (C * W)) + (i / C) `mod` W).
Proof.
  intros HC HW. unfold new_i, mod_, floordiv.
  assert (C * W ≠ 0) by lia.
  repeat case_decide; try contradiction. reflexivity.
Qed.

(** The channels-last decomposition of an index is the one the code
    computes. *)
Lemma channels_last_digits (C H W i f y x : Z) :
  decomposed true C H W i f y x →
  i `mod` C = f ∧ i / (C * W) = y ∧ (i / C) `mod` W = x.
Proof.
  intros (Hf & Hy & Hx & ->).
  assert (E1 : ((y * W + x) * C + f) / C = y * W + x).
  { symmetry. apply (Z.div_unique_pos _ _ _ f); lia. }
  split; [| split].
  - symmetry. apply (Z.mod_unique_pos _ _ (y * W + x)); lia.
  - rewrite <- Z.div_div by lia. rewrite E1.
    symmetry. apply (Z.div_unique_pos _ _ _ x); lia.
  - rewrite E1. symmetry. apply (Z.mod_unique_pos _ _ y); lia.
Qed.

(** Every index of the feature map decomposes. *)
Lemma channels_last_decomposes (C H W i : Z) :
  0 < C → 0 < W → 0 ≤ i < C * H * W →
  decomposed true C H W i (i `mod` C) (i / (C * W)) ((i / C) `mod` W).
Proof.
  intros HC HW Hi. unfold decomposed.
  pose proof (Z.mod_pos_bound i C HC).
  pose proof (Z.mod_pos_bound (i / C) W HW).
  assert (0 ≤ i / (C * W) < H).
  { split; [apply Z.div_pos; lia |].
    apply Z.div_lt_upper_bound; lia. }
  repeat split; try lia.
  rewrite <- Z.div_div by lia.
  pose proof (Z.div_mod i C ltac:(lia)).
  pose proof (Z.div_mod (i / C) W ltac:(lia)).
  lia.
Qed.

Lemma dense_connections_swapped (layer : Layer) (st : State) flatten_name (H W C : Z) :
  data_format st = "channels_last" →
  flatten_shapes st = [(flatten_name, [H; W; C])] →
  C ≠ 0 → W ≠ 0 →
  dense_connections layer st
  = (Ok (mjoin ((λ i, row_connections (weights layer) (delay (config st))
                        ((Z.of_nat i `mod` C) * W * H + W * (Z.of_nat i / (C * W))
                         + (Z.of_nat i / C) `mod` W) i)
                <$> seq 0 (shape0 (weights layer)))),
     set_flatten_shapes [] st).
Proof.
  intros Hd Hf HC HW. unfold dense_connections.
  rewrite run_bind. unfold gets at 1, id. rewrite Hf, Hd.
  change (length [(flatten_name, [H; W; C])] =? 1)%nat with true. cbv iota.
  change (last [(flatten_name, [H; W; C])]) with (Some (flatten_name, [H; W; C])).
  cbv iota beta. rewrite run_bind. unfold modify at 1.
  change (removelast [(flatten_name, [H; W; C])])
    with (@nil (string * list Z)).
  rewrite run_bind. unfold lift at 1, unpack_shape.
  change ("channels_last" =? "channels_last")%string with true. cbv iota beta.
  unfold lift, swapped_connections.
  rewrite (mapM_total _
    (λ i, row_connections (weights layer) (delay (config st))
            ((Z.of_nat i `mod` C) * W * H + W * (Z.of_nat i / (C * W))
             + (Z.of_nat i / C) `mod` W) i)).
  - reflexivity.
  - intros i _. now rewrite new_i_ok.
Qed.

End Flatten.

(** C3, as amended.  When [build_dense] runs under the channels-last layout
    with exactly one pending FlattenShapeRecord, whose shape is (height,
    width, channels) with positive width and channel count, the record is
    consumed, and for every input index [i] and output index [j] of the
    weight matrix the entry for [(i, j)] carries [weights[i, j]] and the
    configured delay; its source index is [f*width*height + y*width + x]
    for the channel [f], row [y] and column [x] into which [i] decomposes
    under the channels-last layout, as every index below
    channels*height*width does. *)
Theorem flatten_channels_last (layer : Layer) (st : State) flatten_name (H W C : Z) :
  data_format st = "channels_last" →
  flatten_shapes st = [(flatten_name, [H; W; C])] →
  0 < C → 0 < W →
  flatten_remapped layer st
  ∧ flatten_shapes (dense_connections layer st).2 = []
  ∧ (∀ i, 0 ≤ i < C * H * W → ∃ f y x, decomposed true C H W i f y x).
Proof.
  intros Hd Hf HC HW.
  pose proof (dense_connections_swapped layer st flatten_name H W C Hd Hf
                ltac:(lia) ltac:(lia)) as Hrun.
  split; [| split; [now rewrite Hrun |]];
    [| intros i Hi; eexists _, _, _; now apply channels_last_decomposes].
  unfold flatten_remapped. rewrite Hd.
  change ("channels_last" =? "channels_last")%string with true.
  eexists flatten_name, [H; W; C], C, H, W, _.
  split; [exact Hf |]. split; [reflexivity |].
  split; [rewrite Hrun; reflexivity |].
  intros i j Hi Hj.
  destruct (rows_joined (weights layer) (delay (config st))
              (λ i, (Z.of_nat i `mod` C) * W * H + W * (Z.of_nat i / (C * W))
                    + (Z.of_nat i / C) `mod` W)) as (_ & Hentry & _).
  eexists. split; [apply Hentry; assumption |].
  intros f y x (-> & -> & ->)%channels_last_digits.
  unfold canonical_index. lia.
Qed.

(** ** Pending FlattenShapeRecords *)

Section Pending.

Lemma dense_connections_too_many (layer : Layer) (st : State) :
  (1 < length (flatten_shapes st))%nat →
  dense_connections layer st = (Raise RuntimeWarning, st).
Proof.
  intros Hl. unfold dense_connections. rewrite run_bind. unfold gets at 1, id.
  destruct (Nat.eqb_spec (length (flatten_shapes st)) 1) as [E|_]; [lia |].
  destruct (Nat.ltb_spec 1 (length (flatten_shapes st))) as [_|]; [|lia].
  reflexivity.
Qed.

(** The pending records after [dense_connections] returned. *)
Lemma dense_connections_consumes (layer : Layer) (st st' : State) conns :
  dense_connections layer st = (Ok conns, st') → flatten_shapes st' = [].
Proof.
  unfold dense_connections. rewrite run_bind. unfold gets at 1, id.
  destruct (Nat.eqb_spec (length (flatten_shapes st)) 1) as [E|E].
  - destruct (flatten_shapes st) as [|[n shape] [|? ?]] eqn:Ef; try discriminate E.
    change (last [(n, shape)]) with (Some (n, shape)). cbv iota beta.
    rewrite run_bind. unfold modify at 1. rewrite run_bind. unfold lift at 1.
    destruct (unpack_shape _ _) as [[[f_in y_in] x_in]|]; [|discriminate].
    unfold lift. intros [= _ <-]. reflexivity.
  - destruct (Nat.ltb_spec 1 (length (flatten_shapes st))) as [|Hle].
    + discriminate.
    + intros [= _ <-]. destruct (flatten_shapes st) as [|? [|? ?]]; simpl in *; [reflexivity | lia ..].
Qed.

Lemma attach_projection_pending (conns : list conn) (st st' : State) r :
  attach_projection conns st = (r, st') → flatten_shapes st' = flatten_shapes st.
Proof.
  unfold attach_projection. rewrite run_bind. unfold gets at 1, id.
  destruct (simulate (config st)).
  - rewrite run_bind. unfold lift at 1.
    destruct (item_before_last (layers st)); [|now intros [= _ <-]].
    rewrite run_bind. unfold lift at 1.
    destruct (last_item (layers st)); now intros [= _ <-].
  - now intros [= _ <-].
Qed.

End Pending.

(** C8, as amended.  A Flatten layer adds its FlattenShapeRecord whatever is
    pending already.  When [build_dense] is invoked while more than one
    record is pending, with a bias vector that fits the last population, it
    fails with a fatal error (the [RuntimeWarning], whenever the network has
    a layer) before any connection entry is made: connections, pending
    records and files are as before.  A [build_dense] that returns leaves no
    record pending. *)
Theorem pending_flatten_records (layer : Layer) (st : State) :
  (∀ prev shape,
     str_in "ZeroPadding" (class_name layer) = false →
     str_in "Flatten" (class_name layer) = true →
     last (layers st) = Some prev →
     get_shape_from_label (label prev) = Ok shape →
     add_layer layer st
     = (Ok (), set_flatten_shapes (flatten_shapes st ++ [(name layer, shape)]) st))
  ∧ ((1 < length (flatten_shapes st))%nat → biases_fit layer st →
     ∃ e st', build_dense layer st = (Raise e, st')
       ∧ (layers st ≠ [] → e = RuntimeWarning)
       ∧ connections st' = connections st
       ∧ flatten_shapes st' = flatten_shapes st
       ∧ fs st' = fs st)
  ∧ (∀ st', build_dense layer st = (Ok (), st') → flatten_shapes st' = []).
Proof.
  split; [| split].
  - intros prev shape Hz Hfl Hlast Hshape. unfold add_layer. rewrite Hz, Hfl.
    rewrite run_bind. unfold gets at 1. rewrite run_bind.
    unfold lift at 1, last_item. rewrite Hlast. rewrite run_bind.
    unfold lift at 1. rewrite Hshape. reflexivity.
  - intros Hl _. unfold build_dense. rewrite run_bind.
    destruct (set_biases_frame (biases layer) st) as (ls & Hst & Hls).
    destruct (set_biases (biases layer) st) as [[[]|e] st1] eqn:Hb;
      simpl in Hst; subst st1.
    + rewrite run_bind, dense_connections_too_many by exact Hl.
      eexists _, _. split; [reflexivity |]. repeat split.
    + exists e, (set_layers ls st). split; [reflexivity |]. repeat split.
      intros Hne. destruct (set_biases_ok (biases layer) st Hne) as (? & Hok & _).
      rewrite Hok in Hb. discriminate Hb.
  - intros st'. unfold build_dense. rewrite run_bind.
    destruct (set_biases_frame (biases layer) st) as (ls & Hst & Hls).
    destruct (set_biases (biases layer) st) as [[[]|e] st1] eqn:Hb;
      [|discriminate]. simpl in Hst. subst st1.
    rewrite run_bind.
    destruct (dense_connections layer (set_layers ls st)) as [[conns|e] st2] eqn:Hd;
      [|discriminate].
    apply dense_connections_consumes in Hd.
    rewrite run_bind.
    destruct (attach_projection conns st2) as [[[]|e] st3] eqn:Ha; [|discriminate].
    apply attach_projection_pending in Ha.
    rewrite run_bind. unfold gets at 1. unfold append_file, modify.
    intros [= <-]. simpl. congruence.
Qed.

(** ** ZeroPadding layers *)

Section Padding.


Lemma attach_projection_frame (conns : list conn) (st : State) :
  ∃ cs, (attach_projection conns st).2 = set_connections cs st.
Proof.
  assert (Hid : st = set_connections (connections st) st) by now destruct st.
  unfold attach_projection. rewrite run_bind. unfold gets at 1, id.
  destruct (simulate (config st)).
  - rewrite run_bind. unfold lift at 1.
    destruct (item_before_last (layers st)); [|now exists (connections st)].
    rewrite run_bind. unfold lift at 1.
    destruct (last_item (layers st)); [|now exists (connections st)].
    eexists. reflexivity.
  - now exists (connections st).
Qed.



End Padding.


(** ** The overwrite policy *)

Section Overwrite.

Lemma may_write_run (q : string) (st : State) :
  may_write q st
  = (Ok (overwrite (config st)
         || (if bool_decide (is_Some (fs st !! q)) then answer (env st) q else true)),
     st).
Proof.
  unfold may_write. rewrite run_bind. unfold gets at 1.
  destruct (overwrite (config st)); reflexivity.
Qed.

Lemma may_write_protected p content q (st : State) :
  protected p content st → (may_write q st).1 = Ok true → q ≠ p.
Proof.
  intros (Hp & Ho & Ha). rewrite may_write_run, Ho. simpl.
  intros [= E] ->. rewrite Hp in E.
  rewrite bool_decide_eq_true_2 in E by eauto. congruence.
Qed.

Lemma write_file_protected p content q chunks (st : State) :
  q ≠ p → protected p content st → protected p content (write_file q chunks st).2.
Proof.
  intros Hq (Hp & Ho & Ha). unfold write_file, modify, protected, overwrite_forbidden.
  simpl. rewrite lookup_insert_ne by exact Hq. auto.
Qed.

(** A write behind the policy check keeps protected files. *)
Lemma guarded_write_protected p content q chunks (st : State) :
  protected p content st →
  protected p content
    ((ok ← may_write q; if (ok : bool) then write_file q chunks else ret ()) st).2.
Proof.
  intros Hp. rewrite run_bind.
  pose proof (may_write_protected p content q st Hp) as Hq.
  rewrite may_write_run in *. simpl in Hq.
  destruct (overwrite (config st) || _).
  - apply write_file_protected; [now apply Hq | exact Hp].
  - exact Hp.
Qed.

Lemma for_invariant {A} (I : State → Prop) (l : list A) (body : A → M unit) :
  (∀ a st, I st → I (body a st).2) →
  ∀ st, I st → I (for_ l body st).2.
Proof.
  intros Hbody. induction l as [|a l IH]; intros st Hst; simpl.
  - exact Hst.
  - unfold bind. specialize (Hbody a st Hst).
    destruct (body a st) as [[[]|e] st']; simpl in *; [now apply IH | exact Hbody].
Qed.

Lemma save_assembly_protected p content path filename (st : State) :
  protected p content st → protected p content (save_assembly path filename st).2.
Proof.
  intros Hp. unfold save_assembly. rewrite run_bind.
  pose proof (may_write_protected p content (path_join path filename) st Hp) as Hq.
  rewrite may_write_run in *. simpl in Hq.
  destruct (overwrite (config st) || _); simpl; [|exact Hp].
  rewrite run_bind. unfold gets at 1. rewrite run_bind. unfold lift at 1.
  destruct (assembly_loop (layers st) ∅ []) as [sl|e]; [|exact Hp].
  apply write_file_protected; [now apply Hq | exact Hp].
Qed.

Lemma save_connections_protected p content path (st : State) :
  protected p content st → protected p content (save_connections path st).2.
Proof.
  intros Hp. unfold save_connections. rewrite run_bind. unfold gets at 1.
  apply for_invariant; [|exact Hp].
  intros projection st' Hst'. now apply guarded_write_protected.
Qed.

Lemma save_biases_protected p content path (st : State) :
  protected p content st → protected p content (save_biases path st).2.
Proof.
  intros Hp. unfold save_biases. rewrite run_bind. unfold gets at 1.
  apply for_invariant; [|exact Hp].
  intros layer st' Hst'. rewrite run_bind.
  pose proof (may_write_protected p content
                (path_join path (label layer +:+ "_biases")) st' Hst') as Hq.
  rewrite may_write_run in *. simpl in Hq.
  destruct (overwrite (config st') || _); [|exact Hst'].
  destruct (str_in "Input" (label layer)); [exact Hst' |].
  destruct (pop_get "i_offset" layer) as [[x|biases]|[]]; try exact Hst'.
  apply write_file_protected; [now apply Hq | exact Hst'].
Qed.

End Overwrite.

(** C6, as amended.  For every file written by [save] (the assembly
    descriptor, the connection files and the bias files): if a file exists
    at the target path and the overwrite policy does not permit overwriting
    it, the write is not performed and the file's contents stay as they
    are. *)
Theorem save_respects_overwrite (path filename : string) (st : State) :
  respects_overwrite (save_assembly path filename) st
  ∧ respects_overwrite (save_connections path) st
  ∧ respects_overwrite (save_biases path) st
  ∧ respects_overwrite (save path filename) st.
Proof.
  unfold respects_overwrite. repeat split; intros p content Hp Hf.
  - now apply (save_assembly_protected p content).
  - now apply (save_connections_protected p content).
  - now apply (save_biases_protected p content).
  - assert (H0 : protected p content st) by (split; assumption).
    unfold save. rewrite run_bind.
    pose proof (save_assembly_protected p content path filename st H0) as H1.
    destruct (save_assembly path filename st) as [[[]|e] st1]; simpl in H1;
      [|apply H1].
    rewrite run_bind.
    pose proof (save_connections_protected p content path st1 H1) as H2.
    destruct (save_connections path st1) as [[[]|e] st2]; simpl in H2;
      [|apply H2].
    now apply (save_biases_protected p content).
Qed.

(** ** Saving and loading the assembly *)

Section Assembly.

Lemma mapM_Forall2 {A B} (f : A → outcome B) (R : A → B → Prop) (l : list A) :
  (∀ a, a ∈ l → ∃ b, f a = Ok b ∧ R a b) →
  ∃ bs, mapM f l = Ok bs ∧ Forall2 R l bs.
Proof.
  induction l as [|a l IH]; intros H.
  - exists []. split; [reflexivity | constructor].
  - destruct (H a) as (b & Hb & HR); [left |].
    destruct IH as (bs & Hbs & HF); [intros a' Ha'; apply H; now right |].
    exists (b :: bs). split; [| now constructor].
    simpl. rewrite Hb. simpl. rewrite Hbs. reflexivity.
Qed.

Lemma mapM_fmap {A B C} (f : B → outcome C) (g : A → B) (l : list A) :
  mapM f (g <$> l) = mapM (λ a, f (g a)) l.
Proof.
  induction l as [|a l IH]; [reflexivity |].
  rewrite fmap_cons, !mapM_cons, IH. reflexivity.
Qed.

Lemma ok_bind {A B} (a : A) (k : A → outcome B) : (Ok a ≫= k) = k a.
Proof. reflexivity. Qed.

Lemma getkey_Some {A} (d : gmap string A) (k : string) (a : A) :
  d !! k = Some a → getkey d k = Ok a.
Proof. intros H. unfold getkey. now rewrite H. Qed.

(** The descriptor after the loop over the populations. *)
Lemma assembly_loop_run (ls : list Population) (s : gmap string entry)
    (labels : list string) :
  (∀ p, p ∈ ls → ∃ d, population_data p = Ok d) →
  ∃ s', assembly_loop ls s labels = Ok (s', labels ++ (label <$> ls))
    ∧ (∀ k, k ∉ label <$> ls → s' !! k = s !! k)
    ∧ (NoDup (label <$> ls) →
       ∀ p, p ∈ ls → ∃ d, population_data p = Ok d ∧ s' !! label p = Some (EDict d)).
Proof.
  revert s labels. induction ls as [|p ls IH]; intros s labels Hd.
  - exists s. simpl. rewrite app_nil_r. repeat split. intros _ p Hp.
    now apply elem_of_nil in Hp.
  - destruct (Hd p) as (d & Hp); [left |].
    destruct (IH (<[label p := EDict d]> s) (labels ++ [label p])) as (s' & Hrun & Hout & Hin).
    { intros q Hq. apply Hd. now right. }
    exists s'. split; [| split].
    + simpl. rewrite Hp. simpl. rewrite Hrun, <- app_assoc. reflexivity.
    + intros k Hk. rewrite fmap_cons, not_elem_of_cons in Hk. destruct Hk as [Hk1 Hk2].
      rewrite (Hout k Hk2). now rewrite lookup_insert_ne.
    + intros Hnd q Hq. rewrite fmap_cons in Hnd. apply NoDup_cons in Hnd as [Hnotin Hnd].
      apply elem_of_cons in Hq as [->|Hq].
      * exists d. split; [exact Hp |].
        rewrite (Hout _ Hnotin). apply lookup_insert_eq.
      * now apply Hin.
Qed.

Lemma restore_saved_variables (d : gmap string field) (q : Population) :
  d !! "structure" = Some (match structure q with Some x => FStr x | None => FNone end) →
  restore_variables d q ["size"; "structure"; "label"] = Ok q.
Proof.
  intros Hs. unfold restore_variables, restore_variable.
  change ("size" =? "size")%string with true.
  change ("structure" =? "size")%string with false.
  change ("structure" =? "label")%string with false.
  change ("structure" =? "structure")%string with true.
  change ("label" =? "size")%string with false.
  change ("label" =? "label")%string with true.
  cbv iota. simpl.
  destruct (structure q) eqn:Eq; simpl; [reflexivity |].
  unfold getkey. rewrite Hs. simpl. unfold with_structure.
  destruct q; simpl in *. now subst.
Qed.

(** Loading one population from the descriptor of [p]. *)
Lemma load_population_saved (sim : Sim) (s : gmap string entry) (p : Population)
    (d : gmap string field) (ct : CellType) :
  population_data p = Ok d →
  s !! label p = Some (EDict d) →
  s !! "variables" = Some (EList ["size"; "structure"; "label"]) →
  cell_types sim !! ct_name (celltype p) = Some ct →
  ∃ q, load_population sim s (label p) = Ok q
       ∧ label q = label p ∧ size q = size p
       ∧ (label p ≠ "InputLayer" → i_offset q = i_offset p).
Proof.
  intros Hd Hs Hv Hct.
  set (base := <["celltype" := FStr (ct_name (celltype p))]>
                 (<["label" := FStr (label p)]>
                    (<["structure" := match structure p with
                                      | Some x => FStr x
                                      | None => FNone
                                      end]>
                       (<["size" := FInt (size p)]> (∅ : gmap string field))))).
  assert (Hbase : ∀ k, k ≠ "i_offset" → d !! k = base !! k).
  { intros k Hk. unfold population_data in Hd. fold base in Hd.
    destruct (bool_decide (label p ≠ "InputLayer")).
    - destruct (pop_get "i_offset" p) as [v|e]; simpl in Hd; [|discriminate].
      injection Hd as <-. now rewrite lookup_insert_ne.
    - now injection Hd as <-. }
  assert (Hc : d !! "celltype" = Some (FStr (ct_name (celltype p)))).
  { rewrite Hbase by discriminate. reflexivity. }
  assert (Hsz : d !! "size" = Some (FInt (size p))).
  { rewrite Hbase by discriminate. reflexivity. }
  assert (Hst : d !! "structure"
                = Some (match structure p with Some x => FStr x | None => FNone end)).
  { rewrite Hbase by discriminate. reflexivity. }
  assert (Has : as_structure (match structure p with Some x => FStr x | None => FNone end)
                = Ok (structure p)) by now destruct (structure p).
  unfold load_population.
  rewrite (getkey_Some _ _ _ Hs), ok_bind. simpl as_dict. rewrite ok_bind.
  rewrite (getkey_Some _ _ _ Hc), ok_bind. simpl as_str. rewrite ok_bind.
  unfold sim_getattr. rewrite Hct, ok_bind.
  rewrite (getkey_Some _ _ _ Hsz), ok_bind. simpl as_int. rewrite ok_bind.
  rewrite (getkey_Some _ _ _ Hst), ok_bind, Has, ok_bind.
  rewrite (getkey_Some _ _ _ Hv), ok_bind. simpl as_list. rewrite ok_bind.
  rewrite restore_saved_variables by exact Hst. rewrite ok_bind.
  unfold population_data in Hd. fold base in Hd.
  destruct (bool_decide_reflect (label p ≠ "InputLayer")) as [Hne|Heq].
  - unfold pop_get, getkey in Hd.
    destruct (parameters p !! "i_offset") as [v|] eqn:Ev; [|discriminate].
    rewrite ok_bind in Hd. injection Hd as <-.
    rewrite (getkey_Some _ "i_offset" (FParam v)) by apply lookup_insert_eq.
    rewrite ok_bind. simpl as_param. rewrite ok_bind.
    eexists. split; [reflexivity |]. repeat split.
    intros _. unfold i_offset. simpl. rewrite lookup_insert_eq. now rewrite Ev.
  - eexists. split; [reflexivity |]. repeat split. intros Hne. contradiction.
Qed.

Lemma Forall2_saved (ls loaded : list Population) :
  Forall2 (λ p q, label q = label p ∧ size q = size p
                  ∧ (label p ≠ "InputLayer" → i_offset q = i_offset p)) ls loaded →
  label <$> loaded = label <$> ls
  ∧ size <$> loaded = size <$> ls
  ∧ ∀ k p q, ls !! k = Some p → loaded !! k = Some q →
             label p ≠ "InputLayer" → i_offset q = i_offset p.
Proof.
  induction 1 as [|p q ls loaded (Hl & Hs & Hi) _ (IH1 & IH2 & IH3)].
  - repeat split. intros k p q Hk. now rewrite lookup_nil in Hk.
  - rewrite !fmap_cons, Hl, Hs, IH1, IH2. repeat split.
    intros [|k] p' q'; simpl.
    + intros [= <-] [= <-]. exact Hi.
    + apply IH3.
Qed.

End Assembly.

(** C2, as amended.  When the write of the descriptor is permitted, the
    population labels are pairwise distinct and none is a key of the
    descriptor itself ('labels', 'variables', 'size'), every population but
    the input layer has a bias, and every cell type description names a cell
    type of the simulator, then [save_assembly] followed by [load_assembly]
    gives populations with the same labels in the same order, the same
    sizes and, for every population other than the input layer, the very
    bias that was saved. *)
Theorem assembly_saved_and_loaded (path filename : string) (st : State) :
  write_permitted st (path_join path filename) →
  NoDup (label <$> layers st) →
  (∀ p, p ∈ layers st → label p ∉ reserved_keys) →
  (∀ p, p ∈ layers st → label p ≠ "InputLayer" → is_Some (i_offset p)) →
  (∀ p, p ∈ layers st → is_Some (cell_types (sim st) !! ct_name (celltype p))) →
  assembly_roundtrip path filename st.
Proof.
  intros Hw Hnd Hres Hoff Hct.
  set (filepath := path_join path filename).
  assert (Hmay : may_write filepath st = (Ok true, st)).
  { rewrite may_write_run. f_equal. f_equal. fold filepath in Hw.
    destruct Hw as [Ho|[Hn|Ha]].
    - now rewrite Ho.
    - rewrite Hn, bool_decide_eq_false_2; [apply orb_true_r | now intros [? ?]].
    - rewrite Ha. destruct (bool_decide _); apply orb_true_r. }
  destruct (assembly_loop_run (layers st) ∅ []) as (s0 & Hloop & Hout & Hin).
  { intros p Hp. unfold population_data.
    destruct (bool_decide_reflect (label p ≠ "InputLayer")) as [Hne|_]; [|eauto].
    destruct (Hoff p Hp Hne) as [v Hv]. unfold i_offset in Hv.
    unfold pop_get, getkey. rewrite Hv. simpl. eauto. }
  specialize (Hin Hnd). simpl in Hloop.
  set (s := <["size" := EInt (Z.of_nat (length (layers st)))]>
              (<["variables" := EList ["size"; "structure"; "label"]]>
                 (<["labels" := EList (label <$> layers st)]> s0))).
  set (st1 := set_fs (<[filepath := [Pickled s]]> (fs st)) st).
  assert (Hsave : save_assembly path filename st = (Ok (), st1)).
  { unfold save_assembly. fold filepath. rewrite run_bind, Hmay. cbv beta iota.
    change (negb true) with false. cbv beta iota.
    rewrite run_bind. unfold gets at 1. rewrite run_bind. unfold lift at 1.
    rewrite Hloop. reflexivity. }
  assert (Hlabels : s !! "labels" = Some (EList (label <$> layers st))).
  { unfold s. rewrite !lookup_insert_ne by discriminate. apply lookup_insert_eq. }
  assert (Hvars : s !! "variables" = Some (EList ["size"; "structure"; "label"])).
  { unfold s. rewrite lookup_insert_ne by discriminate. apply lookup_insert_eq. }
  assert (Hpop : ∀ p, p ∈ layers st →
            ∃ q, load_population (sim st) s (label p) = Ok q
                 ∧ label q = label p ∧ size q = size p
                 ∧ (label p ≠ "InputLayer" → i_offset q = i_offset p)).
  { intros p Hp. destruct (Hin p Hp) as (d & Hd & Hs0).
    destruct (Hct p Hp) as [ct Hc].
    apply (load_population_saved (sim st) s p d ct Hd); [| exact Hvars | exact Hc].
    specialize (Hres p Hp). unfold reserved_keys in Hres.
    rewrite !not_elem_of_cons in Hres. destruct Hres as (H1 & H2 & H3 & _).
    unfold s. rewrite !lookup_insert_ne by congruence. exact Hs0. }
  destruct (mapM_Forall2 (λ p, load_population (sim st) s (label p)) _ (layers st) Hpop)
    as (loaded & Hmap & HF).
  exists st1. exists loaded. eexists. split; [exact Hsave |]. split.
  - unfold load_assembly. fold filepath.
    rewrite run_bind. unfold log at 1, modify at 1.
    rewrite run_bind. unfold path_exists, gets at 1.
    rewrite bool_decide_eq_true_2
      by (unfold st1; simpl; rewrite lookup_insert_eq; eauto).
    cbv beta iota. change (negb true) with false. cbv beta iota.
    rewrite run_bind. unfold log at 1, modify at 1.
    rewrite run_bind. unfold gets at 1, id.
    rewrite run_bind. unfold lift at 1.
    assert (Hfile : fs (set_trace
                          (trace (set_trace (trace st1 ++ [AssertIsFile filepath]) st1)
                           ++ [ReadFile filepath])
                          (set_trace (trace st1 ++ [AssertIsFile filepath]) st1))
                    !! filepath = Some [Pickled s]).
    { unfold st1. simpl. apply lookup_insert_eq. }
    rewrite Hfile. simpl unpickle. cbv iota.
    rewrite run_bind. unfold lift at 1. unfold getkey at 1. rewrite Hlabels.
    rewrite run_bind. unfold lift at 1. simpl as_list.
    unfold lift. rewrite mapM_fmap.
    change (sim (set_trace _ _)) with (sim st). rewrite Hmap. reflexivity.
  - now apply Forall2_saved.
Qed.

(** ** Batch normalization in the extractor *)

Section BatchNorm.

Context {ndarray : Type}.
Variable absorb_bn :
  ndarray → ndarray → ndarray → ndarray → ndarray → ndarray → float → ndarray * ndarray.
Variable bn_layers : list string.

(** The list [weights] holds two arrays, so that [weights[2]] is out of
    range. *)
Lemma extract_weights_batchnorm (model : Caffe.net) (layer_key layer_type : string)
    (next_layer : Caffe.net_layer) :
  Caffe.net_type next_layer = "BatchNormalization" →
  Caffe.string_in layer_type ["Dense"; "Convolution2D"] = true →
  ∃ e, Caffe.extract_weights absorb_bn model layer_key layer_type (Some next_layer)
       = Raise e.
Proof.
  intros Hn Ht. unfold Caffe.extract_weights. rewrite Ht, Hn.
  change ("BatchNormalization" =? "BatchNormalization")%string with true.
  destruct (getkey (Caffe.net_params model) layer_key) as [ps|e]; [|eauto].
  rewrite ok_bind.
  destruct (getitem ps 0) as [w|e]; [|eauto]. rewrite ok_bind.
  destruct (getitem ps 1) as [b|e]; [|eauto]. rewrite ok_bind.
  destruct (getitem (Caffe.blobs next_layer) 0) as [b0|e]; [|eauto]. rewrite ok_bind.
  destruct (getitem (Caffe.blobs next_layer) 1) as [b1|e]; [|eauto]. rewrite ok_bind.
  exists IndexError. reflexivity.
Qed.

(** A layer of any other type gets no weights at all. *)
Lemma extract_weights_other (model : Caffe.net) (layer_key layer_type : string)
    (next_layer : option Caffe.net_layer) :
  Caffe.string_in layer_type ["Dense"; "Convolution2D"] = false →
  Caffe.extract_weights absorb_bn model layer_key layer_type next_layer
  = Ok (None, None).
Proof. intros Ht. unfold Caffe.extract_weights. now rewrite Ht. Qed.

(** Whatever [absorb_bn] computes, no layer followed by a
    batch-normalization layer is returned with weights. *)
Lemma batchnorm_never_absorbed (model : Caffe.net) (layer_key layer_type : string)
    (next_layer : Caffe.net_layer) r :
  Caffe.net_type next_layer = "BatchNormalization" →
  Caffe.extract_weights absorb_bn model layer_key layer_type (Some next_layer) = Ok r →
  r = (None, None).
Proof.
  intros Hn Hr.
  destruct (Caffe.string_in layer_type ["Dense"; "Convolution2D"]) eqn:Ht.
  - destruct (extract_weights_batchnorm model layer_key layer_type next_layer Hn Ht)
      as [e He]. congruence.
  - rewrite extract_weights_other in Hr by exact Ht. congruence.
Qed.

End BatchNorm.

(** C1 (the code fails the claim).  [extract] applied to a fully connected
    layer of type 'Dense' with parameters [W] and [b], followed by a
    batch-normalization layer with scale, shift, mean and variance, returns
    no folded parameters: it raises [IndexError] when 'Dense' is one of
    [bn_layers] (and [NotImplementedError] otherwise), whatever [absorb_bn]
    computes. *)
Theorem batchnorm_extraction_fails {ndarray : Type}
    (absorb_bn : ndarray → ndarray → ndarray → ndarray → ndarray → ndarray
                 → float → ndarray * ndarray)
    (bn_layers : list string) (W b gamma beta mean var : ndarray) (eps : float) :
  Caffe.extract absorb_bn bn_layers
    (ex_net W b gamma beta mean var eps "Dense") (ex_protobuf "Dense")
  = Raise (if Caffe.string_in "Dense" bn_layers
           then IndexError else NotImplementedError).
Proof.
  unfold Caffe.extract.
  change (imap _ (ex_protobuf "Dense"))
    with [(0%nat, {| Caffe.type := "Dense"; Caffe.name := "fc1";
                     Caffe.pool_method_0 := "MAX" |});
          (1%nat, {| Caffe.type := "BatchNormalization"; Caffe.name := "bn1";
                     Caffe.pool_method_0 := "MAX" |})].
  unfold Caffe.extract_loop.
  assert (Hl : Caffe.extract_layer absorb_bn bn_layers
                 (ex_net W b gamma beta mean var eps "Dense") [] 0
                 {| Caffe.type := "Dense"; Caffe.name := "fc1";
                    Caffe.pool_method_0 := "MAX" |}
               = Raise (if Caffe.string_in "Dense" bn_layers
                        then IndexError else NotImplementedError)).
  { unfold Caffe.extract_layer.
    change (Caffe.standard_name _) with (Some "Dense").
    cbv beta iota.
    change (Caffe.net_blobs _ !! _) with (Some [1; 10]).
    cbv beta iota. rewrite ok_bind.
    change (Caffe.make_label 0 "Dense" [1; 10]) with (Ok "00Dense_10").
    rewrite ok_bind.
    change (bool_decide _) with true.
    destruct (Caffe.string_in "Dense" bn_layers); [|reflexivity].
    reflexivity. }
  rewrite Hl. reflexivity.
Qed.

(** ** The claims at concrete networks *)

(** C5 at index 2, kind Conv2D and output shape (1, 16, 32, 32). *)
Lemma label_roundtrip_witness :
  (2 < 100)%nat
  ∧ length [1; 16; 32; 32] = 4%nat
  ∧ Caffe.make_label 2 "Conv2D" [1; 16; 32; 32] = Ok "02Conv2D_16x32x32"
  ∧ get_shape_from_label "02Conv2D_16x32x32" = Ok [16; 32; 32].
Proof.
  assert (H1 : (2 < 100)%nat) by lia.
  assert (H2 : length [1; 16; 32; 32] = 4%nat) by reflexivity.
  destruct (label_roundtrip 2 "Conv2D" [1; 16; 32; 32] H1 (or_intror H2))
    as (Hl & _ & Hs & _).
  split; [exact H1 |]. split; [exact H2 |]. split; [exact Hl |].
  exact (Hs eq_refl).
Defined.

(** C9 at the example network: a zero bias vector changes nothing, the bias
    vector (0.5, 0) sets the injected current of the last layer. *)
Lemma set_biases_spec_witness :
  set_biases [0%float; (-0)%float] ex_unflattened = (Ok (), ex_unflattened)
  ∧ i_offset <$> last (layers (set_biases [0.5%float; 0%float] ex_unflattened).2)
    = Some (Some (Vector [(0.5 * 0.125 / 100)%float; (0 * 0.125 / 100)%float])).
Proof.
  destruct (set_biases_spec [0%float; (-0)%float] ex_unflattened) as [Hzero _].
  destruct (set_biases_spec [0.5%float; 0%float] ex_unflattened) as [_ Hset].
  split.
  - apply Hzero. repeat constructor.
  - destruct (Hset (removelast (layers ex_unflattened))
                (default (sim_Population 0 ex_if_curr_exp ∅ None "")
                   (last (layers ex_unflattened)))) as [Hrun Hoff].
    + vm_compute. reflexivity.
    + apply Exists_cons_hd. reflexivity.
    + rewrite Hrun.
      change (layers (_, set_layers ?l _).2) with l.
      rewrite last_snoc.
      change (i_offset <$> Some ?x) with (Some (i_offset x)).
      rewrite Hoff. reflexivity.
Defined.

(** C4 at the example network, whose weight matrix is 4 x 2. *)
Lemma dense_plain_witness :
  flatten_shapes ex_unflattened = []
  ∧ length (plain_connections ex_weights 1%float) = 8%nat
  ∧ entry_at (plain_connections ex_weights 1%float) ex_weights 3 1
    = Some (3, 1, 31%float, 1%float)
  ∧ ∃ st', build_dense ex_dense ex_unflattened = (Ok (), st')
           ∧ rows <$> last (connections st')
             = Some (plain_connections ex_weights 1%float).
Proof.
  assert (H0 : flatten_shapes ex_unflattened = []) by (vm_compute; reflexivity).
  destruct (dense_plain ex_dense ex_unflattened H0) as (_ & Hlen & Hentry & _ & Hbuild).
  split; [exact H0 |]. split; [exact Hlen |]. split.
  - apply (Hentry 3%nat 1%nat); simpl; lia.
  - apply Hbuild; [reflexivity | vm_compute; lia].
Defined.

(** C3, as amended, at the example network under the channels-last layout:
    the pending shape is height 2, width 1, channels 2. *)
Lemma flatten_channels_last_witness :
  data_format (ex_flattened "channels_last") = "channels_last"
  ∧ flatten_shapes (ex_flattened "channels_last") = [("01Flatten_4", [2; 1; 2])]
  ∧ flatten_remapped ex_dense (ex_flattened "channels_last")
  ∧ flatten_shapes (dense_connections ex_dense (ex_flattened "channels_last")).2 = [].
Proof.
  assert (H1 : data_format (ex_flattened "channels_last") = "channels_last")
    by (vm_compute; reflexivity).
  assert (H2 : flatten_shapes (ex_flattened "channels_last")
               = [("01Flatten_4", [2; 1; 2])]) by (vm_compute; reflexivity).
  destruct (flatten_channels_last ex_dense (ex_flattened "channels_last")
              "01Flatten_4" 2 1 2 H1 H2 ltac:(lia) ltac:(lia)) as (Hr & Hc & _).
  repeat split; assumption.
Defined.

(** C3 as stated fails under the channels-first layout: with the pending
    shape (channels 2, height 1, width 2), input index 1 is channel 0, row 0,
    column 1, whose canonical index is 1, but its entries are emitted with
    source index 2. *)
Lemma flatten_channels_first_counterexample :
  ¬ flatten_remapped ex_dense (ex_flattened "channels_first").
Proof.
  intros (flatten_name & shape & C & H & W & conns & Hf & Hs & Hc & Hall).
  assert (Hf' : flatten_shapes (ex_flattened "channels_first")
                = [("01Flatten_4", [2; 1; 2])]) by (vm_compute; reflexivity).
  rewrite Hf' in Hf. injection Hf as <- <-.
  assert (Hd : (data_format (ex_flattened "channels_first") =? "channels_last")%string
               = false) by (vm_compute; reflexivity).
  rewrite Hd in Hs, Hall. injection Hs as <- <- <-.
  assert (Hc' : (dense_connections ex_dense (ex_flattened "channels_first")).1
                = Ok [(0, 0, 0%float, 1%float); (0, 1, 1%float, 1%float);
                      (2, 0, 10%float, 1%float); (2, 1, 11%float, 1%float);
                      (1, 0, 20%float, 1%float); (1, 1, 21%float, 1%float);
                      (3, 0, 30%float, 1%float); (3, 1, 31%float, 1%float)])
    by (vm_compute; reflexivity).
  rewrite Hc' in Hc. injection Hc as <-.
  destruct (Hall 1%nat 0%nat) as (src & He & Hsrc); [simpl; lia .. |].
  injection He as <-.
  specialize (Hsrc 0 0 1). unfold decomposed, canonical_index in Hsrc.
  assert (2 = 0 * 2 * 1 + 0 * 2 + 1) by (apply Hsrc; lia).
  lia.
Qed.

(** C8 as stated fails: after two Flatten layers in a row, two
    FlattenShapeRecords are pending, and no call has failed. *)
Lemma two_pending_counterexample :
  ex_two_flattens.1 = Ok () ∧ ¬ at_most_one_pending ex_two_flattens.2.
Proof.
  split; [vm_compute; reflexivity |].
  unfold at_most_one_pending.
  assert (H : length (flatten_shapes ex_two_flattens.2) = 2%nat)
    by (vm_compute; reflexivity).
  lia.
Qed.

(** C8, as amended, at the network with two pending records and the
    population of the dense layer, which has two cells for the two biases. *)
Lemma pending_flatten_records_witness :
  (1 < length (flatten_shapes ex_two_flattens_dense))%nat
  ∧ biases_fit ex_dense ex_two_flattens_dense
  ∧ ∃ st', build_dense ex_dense ex_two_flattens_dense = (Raise RuntimeWarning, st')
           ∧ connections st' = connections ex_two_flattens_dense
           ∧ flatten_shapes st' = flatten_shapes ex_two_flattens_dense
           ∧ fs st' = fs ex_two_flattens_dense.
Proof.
  assert (H : (1 < length (flatten_shapes ex_two_flattens_dense))%nat)
    by (vm_compute; lia).
  assert (Hfit : biases_fit ex_dense ex_two_flattens_dense).
  { intros p Hp _.
    assert (Hs : size <$> last (layers ex_two_flattens_dense) = Some 2)
      by (vm_compute; reflexivity).
    rewrite Hp in Hs. injection Hs as ->. reflexivity. }
  destruct (pending_flatten_records ex_dense ex_two_flattens_dense) as (_ & Hfail & _).
  destruct (Hfail H Hfit) as (e & st' & Hrun & He & Hc & Hf & Hfs).
  split; [exact H |]. split; [exact Hfit |]. exists st'.
  rewrite Hrun, He; [repeat split; assumption |].
  vm_compute. discriminate.
Defined.


(** C6 as stated fails for the replay script: [add_input_layer] replaces an
    existing script although overwriting is neither configured nor
    confirmed. *)
Lemma script_overwritten_counterexample :
  ¬ respects_overwrite (add_input_layer [1; 2; 1; 2])
      (ex_new "channels_last" ex_old_script).
Proof.
  intros H.
  specialize (H "/wd/snn.py" [Script ScriptCompile]).
  assert (Hnew : fs (add_input_layer [1; 2; 1; 2]
                       (ex_new "channels_last" ex_old_script)).2 !! "/wd/snn.py"
                 = Some [Script (ScriptHeader "/wd" "/log/.config" [2; 1; 2])])
    by (vm_compute; reflexivity).
  rewrite Hnew in H.
  assert (Some [Script (ScriptHeader "/wd" "/log/.config" [2; 1; 2])]
          = Some [Script ScriptCompile]) as E.
  { apply H; [vm_compute; reflexivity | split; reflexivity]. }
  discriminate E.
Qed.

(** C6, as amended, at a network whose descriptor exists already and may
    not be overwritten. *)
Lemma save_respects_overwrite_witness :
  overwrite_forbidden ex_declined "/wd/assembly"
  ∧ fs (save "/wd" "assembly" ex_declined).2 !! "/wd/assembly"
    = fs ex_declined !! "/wd/assembly"
  ∧ is_Some (fs ex_declined !! "/wd/assembly").
Proof.
  assert (H0 : overwrite_forbidden ex_declined "/wd/assembly")
    by (split; reflexivity).
  destruct (save_respects_overwrite "/wd" "assembly" ex_declined) as (_ & _ & _ & Hs).
  destruct (fs ex_declined !! "/wd/assembly") as [content|] eqn:E.
  - split; [exact H0 |]. split; [| eauto].
    apply (Hs "/wd/assembly" content E H0).
  - vm_compute in E. discriminate E.
Defined.

(** C2 as stated fails when the write is declined: the descriptor of an
    older network stays in place, and loading it gives an input layer of
    nine cells for a network whose input layer has four. *)
Lemma assembly_declined_counterexample :
  ¬ assembly_roundtrip "/wd" "assembly" ex_declined.
Proof.
  intros (st1 & loaded & st2 & Hsave & Hload & _ & Hsizes & _).
  assert (Hs : save_assembly "/wd" "assembly" ex_declined = (Ok (), ex_declined))
    by (vm_compute; reflexivity).
  rewrite Hs in Hsave. injection Hsave as <-.
  assert (Hl : match (load_assembly "/wd" "assembly" ex_declined).1 with
               | Ok l => size <$> l
               | Raise _ => []
               end = [9]) by (vm_compute; reflexivity).
  rewrite Hload in Hl. simpl in Hl. rewrite Hsizes in Hl.
  vm_compute in Hl. discriminate Hl.
Qed.

(** C2, as amended, at the example network, saved to a path that holds no
    file. *)
Lemma assembly_saved_and_loaded_witness :
  write_permitted (ex_flattened "channels_last") (path_join "/wd" "assembly")
  ∧ NoDup (label <$> layers (ex_flattened "channels_last"))
  ∧ assembly_roundtrip "/wd" "assembly" (ex_flattened "channels_last").
Proof.
  assert (H1 : write_permitted (ex_flattened "channels_last")
                 (path_join "/wd" "assembly")).
  { right. left. vm_compute. reflexivity. }
  assert (H2 : NoDup (label <$> layers (ex_flattened "channels_last"))).
  { apply (bool_decide_unpack _). vm_compute. exact I. }
  split; [exact H1 |]. split; [exact H2 |].
  apply (assembly_saved_and_loaded "/wd" "assembly" _ H1 H2).
  - apply (proj1 (Forall_forall (λ p, label p ∉ reserved_keys) _)).
    apply (bool_decide_unpack _). vm_compute. exact I.
  - apply (proj1 (Forall_forall
                    (λ p, label p ≠ "InputLayer" → is_Some (i_offset p)) _)).
    apply (bool_decide_unpack _). vm_compute. exact I.
  - apply (proj1 (Forall_forall
                    (λ p, is_Some (cell_types (sim (ex_flattened "channels_last"))
                                   !! ct_name (celltype p))) _)).
    apply (bool_decide_unpack _). vm_compute. exact I.
Defined.

(** Two populations with one label share one entry of the descriptor: the
    sizes 4, 2, 3 are loaded as 4, 3, 3. *)
Example duplicate_labels_example :
  ¬ assembly_roundtrip "/wd" "assembly" ex_duplicate_labels.
Proof.
  intros (st1 & loaded & st2 & Hsave & Hload & _ & Hsizes & _).
  apply (f_equal snd) in Hsave. simpl in Hsave. subst st1.
  assert (Hl : match (load_assembly "/wd" "assembly"
                        (save_assembly "/wd" "assembly" ex_duplicate_labels).2).1 with
               | Ok l => size <$> l
               | Raise _ => []
               end = [4; 3; 3]) by (vm_compute; reflexivity).
  rewrite Hload in Hl. simpl in Hl. rewrite Hsizes in Hl.
  vm_compute in Hl. discriminate Hl.
Qed.

(** A population labelled 'size' loses its entry to the population count,
    and loading fails. *)
Example reserved_label_example :
  (load_assembly "/wd" "assembly"
     (save_assembly "/wd" "assembly" ex_reserved_label).2).1 = Raise TypeError
  ∧ ¬ assembly_roundtrip "/wd" "assembly" ex_reserved_label.
Proof.
  assert (Hl : (load_assembly "/wd" "assembly"
                  (save_assembly "/wd" "assembly" ex_reserved_label).2).1
               = Raise TypeError) by (vm_compute; reflexivity).
  split; [exact Hl |].
  intros (st1 & loaded & st2 & Hsave & Hload & _).
  apply (f_equal snd) in Hsave. simpl in Hsave. subst st1.
  rewrite Hload in Hl. discriminate Hl.
Qed.

(** [get_shape_from_label] reads what lies between the first and the second
    underscore: a kind name with an underscore of its own, which no canonical
    name has, hides the shape. *)
Example underscore_kind_example :
  Caffe.make_label 0 "Batch_Norm" [1; 10] = Ok "00Batch_Norm_10"
  ∧ get_shape_from_label "00Batch_Norm_10" = Raise ValueError.
Proof. split; reflexivity. Qed.

(** ** Further properties of the extractor *)

Section ExtractFacts.

Context {ndarray : Type}.
Variable absorb_bn :
  ndarray → ndarray → ndarray → ndarray → ndarray → ndarray → float → ndarray * ndarray.
Variable bn_layers : list string.

Lemma standard_name_cases (layer : Caffe.proto_layer) :
  Caffe.standard_name layer
  = if Caffe.string_in (Caffe.type layer) ["ReLU"; "Softmax"] then Some "Activation"
    else if String.eqb (Caffe.type layer) "Data" then None
    else Some (Caffe.type layer).
Proof. reflexivity. Qed.

(** X1. The second [if] chain of [extract] overrides the first: a layer is
    returned with the kind 'Activation' (for ReLU and Softmax) or with its
    Caffe type unchanged, and it carries weights only when its Caffe type is
    literally 'Dense' or 'Convolution2D'; an 'InnerProduct' or 'Convolution'
    layer is returned without weights. *)
Theorem extract_layer_kinds (model : Caffe.net) (layers : list Caffe.attributes)
    (layer_num : nat) (layer : Caffe.proto_layer) (a : Caffe.attributes) :
  Caffe.extract_layer absorb_bn bn_layers model layers layer_num layer = Ok (Some a) →
  Caffe.layer_num a = layer_num
  ∧ (Caffe.layer_type a = "Activation" ∨ Caffe.layer_type a = Caffe.type layer)
  ∧ (Caffe.weights a ≠ None →
     Caffe.type layer = "Dense" ∨ Caffe.type layer = "Convolution2D")
  ∧ (Caffe.type layer = "InnerProduct" ∨ Caffe.type layer = "Convolution" →
     Caffe.layer_type a = Caffe.type layer ∧ Caffe.weights a = None).
Proof.
  unfold Caffe.extract_layer. rewrite standard_name_cases.
  set (t := Caffe.type layer).
  assert (Hw : ∀ k nl r,
            Caffe.extract_weights absorb_bn model (Caffe.name layer) k nl = Ok r →
            r.2 ≠ None → k = "Dense" ∨ k = "Convolution2D").
  { intros k nl r Hr Hne. unfold Caffe.extract_weights in Hr.
    destruct (Caffe.string_in k ["Dense"; "Convolution2D"]) eqn:Hk.
    - unfold Caffe.string_in in Hk. apply bool_decide_eq_true in Hk.
      rewrite !elem_of_cons, elem_of_nil in Hk. tauto.
    - injection Hr as <-. now contradiction Hne. }
  assert (Hgo : ∀ k,
    (out ← match Caffe.net_blobs model !! Caffe.name layer with
           | Some shape => Ok shape
           | None => match last layers with
                     | Some prev => Ok (Caffe.output_shape prev)
                     | None => Raise IndexError
                     end
           end;
     label ← Caffe.make_label layer_num k out;
     if bool_decide
          (Caffe.net_type <$>
             (if (layer_num + 1 <? length (Caffe.net_layers model))%nat
              then Caffe.net_layers model !! (layer_num + 1)%nat else None)
           = Some "BatchNormalization")
        && negb (Caffe.string_in k bn_layers)
     then Raise NotImplementedError
     else
       aw ← Caffe.extract_weights absorb_bn model (Caffe.name layer) k
              (if (layer_num + 1 <? length (Caffe.net_layers model))%nat
               then Caffe.net_layers model !! (layer_num + 1)%nat else None);
       Ok (Some {| Caffe.layer_num := layer_num; Caffe.layer_type := k;
                   Caffe.output_shape := out; Caffe.label := label;
                   Caffe.activation := aw.1; Caffe.weights := aw.2 |}))
    = Ok (Some a) →
    Caffe.layer_num a = layer_num ∧ Caffe.layer_type a = k
    ∧ (Caffe.weights a ≠ None → k = "Dense" ∨ k = "Convolution2D")).
  { intros k.
    destruct (match Caffe.net_blobs model !! Caffe.name layer with
              | Some shape => Ok shape
              | None => _
              end) as [out|e]; [|discriminate].
    rewrite ok_bind.
    destruct (Caffe.make_label layer_num k out) as [label|e]; [|discriminate].
    rewrite ok_bind.
    destruct (_ && _); [discriminate |].
    destruct (Caffe.extract_weights _ _ _ _ _) as [aw|e] eqn:Hr; [|discriminate].
    rewrite ok_bind. intros [= <-]. simpl. repeat split.
    intros Hne. exact (Hw _ _ _ Hr Hne). }
  destruct (Caffe.string_in t ["ReLU"; "Softmax"]) eqn:Hact.
  - intros H. apply Hgo in H as (H1 & H2 & H3).
    split; [exact H1 |]. split; [now left |]. split.
    + intros Hne. destruct (H3 Hne); discriminate.
    + unfold Caffe.string_in in Hact. apply bool_decide_eq_true in Hact.
      rewrite !elem_of_cons, elem_of_nil in Hact.
      intros [E|E]; rewrite E in Hact; destruct Hact as [?|[?|[]]]; discriminate.
  - destruct (String.eqb t "Data"); [discriminate |].
    intros H. apply Hgo in H as (H1 & H2 & H3).
    split; [exact H1 |]. split; [now right |]. split; [exact H3 |].
    intros HE. split; [exact H2 |].
    destruct (Caffe.weights a) eqn:Ew; [|reflexivity].
    destruct H3 as [E|E]; [discriminate | |]; rewrite E in HE;
      destruct HE; discriminate.
Qed.

(** A returned layer carries the index of the iteration. *)
Lemma extract_layer_num (model : Caffe.net) (layers : list Caffe.attributes)
    (layer_num : nat) (layer : Caffe.proto_layer) (a : Caffe.attributes) :
  Caffe.extract_layer absorb_bn bn_layers model layers layer_num layer = Ok (Some a) →
  Caffe.layer_num a = layer_num.
Proof.
  unfold Caffe.extract_layer.
  destruct (Caffe.standard_name layer) as [k|]; [|discriminate].
  cbv zeta.
  destruct (match Caffe.net_blobs model !! Caffe.name layer with
            | Some shape => Ok shape
            | None => _
            end) as [out|e]; [|discriminate].
  rewrite ok_bind.
  destruct (Caffe.make_label layer_num k out) as [label|e]; [|discriminate].
  rewrite ok_bind.
  destruct (_ && _); [discriminate |].
  destruct (Caffe.extract_weights _ _ _ _ _) as [aw|e]; [|discriminate].
  rewrite ok_bind. now intros [= <-].
Qed.

(** The lists that [extract] returns, while the loop runs. *)
Lemma extract_loop_lists (model : Caffe.net) (todo : list (nat * Caffe.proto_layer))
    (layers : list Caffe.attributes) (labels : list string) (idx : list nat)
    layers' labels' idx' :
  Caffe.extract_loop absorb_bn bn_layers model todo layers labels idx
  = Ok (layers', labels', idx') →
  labels = Caffe.label <$> layers →
  idx = Caffe.layer_num <$> layers →
  labels' = Caffe.label <$> layers'
  ∧ idx' = Caffe.layer_num <$> layers'
  ∧ ∃ new, layers' = layers ++ new
      ∧ Forall (λ a, ∃ l, (Caffe.layer_num a, l) ∈ todo
                          ∧ Caffe.type l ≠ "Data") new
      ∧ (length new ≤ length todo)%nat.
Proof.
  revert layers labels idx.
  induction todo as [|[n l] todo IH]; intros layers labels idx; simpl.
  - intros [= <- <- <-] Hl Hi. repeat split; try assumption.
    exists []. rewrite app_nil_r. repeat split; [constructor | simpl; lia].
  - destruct (Caffe.extract_layer _ _ _ _ _ _) as [[a|]|e] eqn:He; simpl;
      [| |discriminate].
    + intros Hrun Hl Hi.
      apply IH in Hrun as (H1 & H2 & new & H3 & H4 & H5).
      * split; [exact H1 |]. split; [exact H2 |].
        exists (a :: new). split; [now rewrite H3, <- app_assoc |].
        split; [| simpl; lia].
        constructor.
        -- exists l. pose proof (extract_layer_num _ _ _ _ _ He) as Hn.
           rewrite Hn. split; [left |].
           intros Hd. unfold Caffe.extract_layer in He.
           rewrite standard_name_cases, Hd in He. discriminate He.
        -- eapply Forall_impl; [exact H4 |].
           intros b (l' & Hin & Hd). exists l'. split; [now right | exact Hd].
      * now rewrite fmap_app, Hl.
      * pose proof (extract_layer_num _ _ _ _ _ He) as Hn.
        rewrite fmap_app, Hi. simpl. now rewrite Hn.
    + intros Hrun Hl Hi.
      apply IH in Hrun as (H1 & H2 & new & H3 & H4 & H5); try assumption.
      split; [exact H1 |]. split; [exact H2 |].
      exists new. split; [exact H3 |]. split; [| lia].
      eapply Forall_impl; [exact H4 |].
      intros b (l' & Hin & Hd). exists l'. split; [now right | exact Hd].
Qed.

(** X2. When [extract] returns, [labels] holds the labels of the returned
    layers and [layer_idx_map] their indices in the original network, in the
    same order; every returned layer comes from a layer of the network that
    is no 'Data' layer, and there are at most as many as the network has. *)
Theorem extract_lists (model : Caffe.net) (model_protobuf : list Caffe.proto_layer)
    layers labels layer_idx_map :
  Caffe.extract absorb_bn bn_layers model model_protobuf
  = Ok (layers, labels, layer_idx_map) →
  labels = Caffe.label <$> layers
  ∧ layer_idx_map = Caffe.layer_num <$> layers
  ∧ (length layers ≤ length model_protobuf)%nat
  ∧ Forall (λ a, ∃ l, model_protobuf !! Caffe.layer_num a = Some l
                      ∧ Caffe.type l ≠ "Data") layers.
Proof.
  unfold Caffe.extract. intros Hrun.
  apply extract_loop_lists in Hrun as (H1 & H2 & new & H3 & H4 & H5);
    [| reflexivity ..].
  simpl in H3. subst new.
  split; [exact H1 |]. split; [exact H2 |].
  split; [now rewrite length_imap in H5 |].
  eapply Forall_impl; [exact H4 |].
  intros a (l & Hin & Hd). exists l. split; [| exact Hd].
  apply list_elem_of_lookup in Hin as [i Hi].
  rewrite list_lookup_imap in Hi.
  destruct (model_protobuf !! i) as [l'|] eqn:E; simpl in Hi; [|discriminate].
  injection Hi as <- <-. exact E.
Qed.

End ExtractFacts.

Lemma shape_string_cases (output_shape : list Z) :
  (¬ (length output_shape = 2%nat ∨ (4 ≤ length output_shape)%nat)
   ∧ Caffe.shape_string output_shape = Raise IndexError)
  ∨ ((length output_shape = 2%nat ∨ (4 ≤ length output_shape)%nat)
     ∧ ∃ s, Caffe.shape_string output_shape = Ok s
            ∧ Caffe.shape_string (take 4 output_shape) = Ok s).
Proof.
  destruct output_shape as [|b [|d1 [|d2 [|d3 rest]]]].
  - left. split; [simpl; lia | reflexivity].
  - left. split; [simpl; lia | reflexivity].
  - right. split; [now left |]. eexists. split; reflexivity.
  - left. split; [simpl; lia | reflexivity].
  - right. split; [right; simpl; lia |]. eexists. split; reflexivity.
Qed.

(** X3. A label can be made exactly for output shapes of length 2 or of
    length 4 and more; every other length raises [IndexError].  Of a longer
    shape only the three dimensions after the batch dimension enter the
    label. *)
Theorem make_label_domain (layer_num : nat) (kind : string) (output_shape : list Z) :
  (Caffe.make_label layer_num kind output_shape = Raise IndexError
   ↔ ¬ (length output_shape = 2%nat ∨ (4 ≤ length output_shape)%nat))
  ∧ (∀ e, Caffe.make_label layer_num kind output_shape = Raise e → e = IndexError)
  ∧ Caffe.make_label layer_num kind output_shape
    = Caffe.make_label layer_num kind (take 4 output_shape).
Proof.
  unfold Caffe.make_label.
  destruct (shape_string_cases output_shape) as [[Hn E]|[Hy (s & E & E4)]].
  - rewrite E. split; [| split].
    + split; [intros _; exact Hn | reflexivity].
    + intros e [= <-]. reflexivity.
    + assert (Ht : take 4 output_shape = output_shape).
      { apply take_ge. lia. }
      now rewrite Ht, E.
  - rewrite E, E4. split; [| split].
    + split; [discriminate | intros H; contradiction].
    + discriminate.
    + reflexivity.
Qed.

(** ** Resetting and recording *)

(** X4. [reset] with a nonzero setting resets the simulator exactly at the
    sample indices that the setting divides; with the setting 0 it resets at
    sample 0 and at no later sample.  It raises [ZeroDivisionError] exactly
    for the setting 0 at sample index -1. *)
Theorem reset_schedule (n i : Z) :
  (n ≠ 0 → ∃ b, SNN.reset n i = Ok b ∧ (b = true ↔ (n | i)))
  ∧ (0 ≤ i → SNN.reset 0 i = Ok (bool_decide (i = 0)))
  ∧ (SNN.reset n i = Raise ZeroDivisionError ↔ n = 0 ∧ i = -1).
Proof.
  unfold SNN.reset, mod_. split; [| split].
  - intros Hn. rewrite bool_decide_eq_true_2 by exact Hn.
    destruct (decide (n = 0)) as [|_]; [contradiction |].
    eexists. split; [reflexivity |].
    rewrite bool_decide_eq_true. split.
    + intros H. now apply Z.mod_divide.
    + intros H. now apply Z.mod_divide.
  - intros Hi. rewrite bool_decide_eq_false_2 by lia.
    destruct (decide (i + 1 = 0)) as [|_]; [lia |].
    rewrite ok_bind. f_equal. rewrite Z.mod_small by lia. reflexivity.
  - destruct (bool_decide_reflect (n ≠ 0)) as [Hn|Hn].
    + destruct (decide (n = 0)) as [|_]; [contradiction |].
      split; [discriminate | intros [? _]; contradiction].
    + assert (n = 0) as -> by lia.
      destruct (decide (i + 1 = 0)) as [E|E].
      * split; [intros _; lia | reflexivity].
      * split; [discriminate | intros [_ ?]; lia].
Qed.

Lemma get_vars_to_record_cases (plot_keys log_keys : gset string) :
  SNN.get_vars_to_record plot_keys log_keys ∈
    [ []; ["v"]; ["spikes"]; ["spikes"; "v"] ].
Proof.
  unfold SNN.get_vars_to_record.
  destruct (_ || _); destruct (_ || _); simpl;
    rewrite !elem_of_cons; tauto.
Qed.

(** Membership in a short explicit list. *)
Ltac in_list :=
  repeat (rewrite elem_of_cons || rewrite elem_of_nil); try tauto.

(** X5. On a network with at least one layer, [init_cells] asks the last
    layer to record spikes, whatever is to be plotted or logged; every call
    names only 'spikes' and 'v' and addresses a layer of the network; and on
    a network with at least two layers the input layer is asked for
    ['spikes'] at most, never for 'v'.  On an empty network it raises
    [IndexError]. *)
Theorem init_cells_calls (plot_keys log_keys : gset string) (n : nat) :
  (n = 0%nat → SNN.init_cells plot_keys log_keys n = Raise IndexError)
  ∧ ((0 < n)%nat →
     ∃ calls, SNN.init_cells plot_keys log_keys n = Ok calls
       ∧ (∃ vars, (n - 1, vars)%nat ∈ calls ∧ "spikes" ∈ vars)
       ∧ (∀ i vars, (i, vars) ∈ calls →
            (i < n)%nat ∧ ∀ v, v ∈ vars → v = "spikes" ∨ v = "v")
       ∧ ((2 ≤ n)%nat → ∀ vars, (0%nat, vars) ∈ calls → vars = ["spikes"])).
Proof.
  unfold SNN.init_cells.
  pose proof (get_vars_to_record_cases plot_keys log_keys) as Hc.
  set (vars := SNN.get_vars_to_record plot_keys log_keys) in *.
  assert (Hmid : ∀ i vs, (i, vs) ∈ ((λ i, (i, vars)) <$> seq 1 (n - 1))
                         ↔ vs = vars ∧ (1 ≤ i < n)%nat).
  { intros i vs. rewrite list_elem_of_fmap. split.
    - intros (j & [= -> ->] & Hj). apply elem_of_seq in Hj. split; [reflexivity | lia].
    - intros [-> Hi]. exists i. split; [reflexivity |]. apply elem_of_seq. lia. }
  assert (Hv : ∀ v, v ∈ vars → v = "spikes" ∨ v = "v").
  { intros v. rewrite !elem_of_cons, elem_of_nil in Hc.
    destruct Hc as [E|[E|[E|[E|[]]]]]; rewrite E; in_list. }
  assert (Hv' : ∀ v, v ∈ vars ++ ["spikes"] → v = "spikes" ∨ v = "v").
  { intros v [H|H]%elem_of_app; [now apply Hv |]. revert H. in_list. }
  destruct (bool_decide_reflect ("spikes" ∈ vars)) as [Hs|Hs].
  - rewrite bool_decide_eq_false_2 by tauto.
    split.
    + intros ->. reflexivity.
    + intros Hn. destruct (Nat.eqb_spec n 0) as [|_]; [lia |].
      rewrite !ok_bind. eexists. split; [reflexivity |].
      rewrite app_nil_r. split; [| split].
      * exists (if decide (n = 1%nat) then ["spikes"] else vars).
        destruct (decide (n = 1%nat)) as [->|Hn1].
        -- split; [| in_list]. apply elem_of_app. left. in_list.
        -- split; [| exact Hs]. apply elem_of_app. right.
           apply Hmid. split; [reflexivity | lia].
      * intros i vs [H|H]%elem_of_app.
        -- apply list_elem_of_singleton in H. injection H as -> ->.
           split; [lia |]. intros v. in_list.
        -- apply Hmid in H as [-> Hi]. split; [lia | exact Hv].
      * intros Hn2 vs [H|H]%elem_of_app.
        -- apply list_elem_of_singleton in H. congruence.
        -- apply Hmid in H as [_ Hi]. lia.
  - rewrite bool_decide_eq_true_2 by exact Hs.
    split.
    + intros ->. reflexivity.
    + intros Hn. destruct (Nat.eqb_spec n 0) as [|_]; [lia |].
      rewrite !ok_bind. eexists. split; [reflexivity |].
      rewrite app_nil_l. split; [| split].
      * exists (vars ++ ["spikes"]). split.
        -- apply elem_of_app. right. in_list.
        -- apply elem_of_app. right. in_list.
      * intros i vs [H|H]%elem_of_app.
        -- apply Hmid in H as [-> Hi]. split; [lia | exact Hv].
        -- apply list_elem_of_singleton in H. injection H as -> ->.
           split; [lia | exact Hv'].
      * intros Hn2 vs [H|H]%elem_of_app.
        -- apply Hmid in H as [_ Hi]. lia.
        -- apply list_elem_of_singleton in H. injection H as H _. lia.
Qed.

(** ** Setting the parameters of a Caffe layer *)

Section SetParams.

Context {ndarray : Type}.
Implicit Types (model_params : gmap string (list ndarray)) (params l : list ndarray).

Lemma setitem_ok model_params (i : string) (k : nat) (v : ndarray) l :
  model_params !! i = Some l → (k < length l)%nat →
  CaffeParams.setitem model_params i k v = Ok (<[i := <[k := v]> l]> model_params).
Proof.
  intros Hi Hk. unfold CaffeParams.setitem. rewrite (getkey_Some _ _ _ Hi), ok_bind.
  destruct (Nat.ltb_spec k (length l)); [reflexivity | lia].
Qed.

(** X6. [set_layer_params] succeeds when layer [i] has at least two
    parameter arrays and [params] has at least two entries: the first two
    arrays of the layer become the first two entries of [params], the other
    arrays of the layer and all other layers stay as they are.  It is not
    atomic: given a single entry, it overwrites the first array and then
    raises [IndexError].  For a layer without parameters it raises
    [KeyError] and changes nothing. *)
Theorem set_layer_params_spec model_params params (i : string) :
  (∀ l p0 p1 rest, model_params !! i = Some l → (2 ≤ length l)%nat →
     params = p0 :: p1 :: rest →
     ∃ l', CaffeParams.set_layer_params model_params params i
           = (Ok (), <[i := l']> model_params)
       ∧ l' !! 0%nat = Some p0 ∧ l' !! 1%nat = Some p1
       ∧ length l' = length l
       ∧ ∀ k, (2 ≤ k)%nat → l' !! k = l !! k)
  ∧ (∀ l p0, model_params !! i = Some l → (1 ≤ length l)%nat → params = [p0] →
     CaffeParams.set_layer_params model_params params i
     = (Raise IndexError, <[i := <[0%nat := p0]> l]> model_params))
  ∧ (model_params !! i = None → params ≠ [] →
     CaffeParams.set_layer_params model_params params i
     = (Raise KeyError, model_params))
  ∧ (∀ j, j ≠ i →
     (CaffeParams.set_layer_params model_params params i).2 !! j
     = model_params !! j).
Proof.
  split; [| split; [| split]].
  - intros l p0 p1 rest Hi Hl ->.
    exists (<[1%nat := p1]> (<[0%nat := p0]> l)).
    unfold CaffeParams.set_layer_params.
    change (getitem (p0 :: p1 :: rest) 0) with (Ok p0).
    change (getitem (p0 :: p1 :: rest) 1) with (Ok p1). cbv iota.
    rewrite (setitem_ok _ _ _ _ l) by (assumption || lia).
    rewrite (setitem_ok _ _ _ _ (<[0%nat := p0]> l))
      by (rewrite ?lookup_insert_eq, ?length_insert; (reflexivity || lia)).
    rewrite insert_insert_eq. split; [reflexivity |].
    split; [| split; [| split]].
    + rewrite list_lookup_insert_ne by lia.
      apply list_lookup_insert_eq. lia.
    + apply list_lookup_insert_eq. rewrite length_insert. lia.
    + now rewrite !length_insert.
    + intros k Hk. rewrite !list_lookup_insert_ne by lia. reflexivity.
  - intros l p0 Hi Hl ->.
    unfold CaffeParams.set_layer_params.
    change (getitem [p0] 0) with (Ok p0). cbv iota.
    rewrite (setitem_ok _ _ _ _ l) by (assumption || lia). reflexivity.
  - intros Hi Hne. destruct params as [|p0 rest]; [contradiction |].
    unfold CaffeParams.set_layer_params, CaffeParams.setitem, getkey.
    change (getitem (p0 :: rest) 0) with (Ok p0). cbv iota.
    rewrite Hi. reflexivity.
  - intros j Hj. unfold CaffeParams.set_layer_params.
    assert (Hset : ∀ (m : gmap string (list ndarray)) k v m',
              CaffeParams.setitem m i k v = Ok m' → m' !! j = m !! j).
    { intros m k v m'. unfold CaffeParams.setitem, getkey.
      destruct (m !! i) as [l|]; [|discriminate]. rewrite ok_bind.
      destruct (k <? length l)%nat; [|discriminate].
      intros [= <-]. now rewrite lookup_insert_ne. }
    destruct (getitem params 0) as [p0|e]; [|reflexivity].
    destruct (CaffeParams.setitem model_params i 0 p0) as [m1|e] eqn:E1;
      [|reflexivity].
    apply Hset in E1.
    destruct (getitem params 1) as [p1|e]; [|exact E1].
    destruct (CaffeParams.setitem m1 i 1 p1) as [m2|e] eqn:E2; [|exact E1].
    apply Hset in E2. simpl. congruence.
Qed.

End SetParams.

(** ** Adding layers *)

Section AddLayer.

Lemma get_shape_no_underscore (l : string) :
  contains "_" l = false → get_shape_from_label l = Raise IndexError.
Proof.
  intros H. unfold get_shape_from_label. now rewrite split_no_sep.
Qed.

Lemma add_input_layer_last (input_shape : list Z) (st st' : State) :
  add_input_layer input_shape st = (Ok (), st') →
  ∃ p, last (layers st') = Some p ∧ label p = "InputLayer"
       ∧ size p = np_prod (tail input_shape).
Proof.
  unfold add_input_layer. rewrite run_bind. unfold gets at 1, id.
  rewrite run_bind. unfold lift at 1.
  destruct (if poisson_input st then _ else _) as [ct|e]; [|discriminate].
  rewrite run_bind. unfold modify at 1. unfold write_file, modify.
  intros [= <-]. eexists. split; [simpl; apply last_snoc |]. split; reflexivity.
Qed.

Lemma add_layer_flatten_run (layer : Layer) (st : State) :
  str_in "ZeroPadding" (class_name layer) = false →
  str_in "Flatten" (class_name layer) = true →
  add_layer layer st
  = match last (layers st) with
    | None => (Raise IndexError, st)
    | Some prev =>
        match get_shape_from_label (label prev) with
        | Ok shape =>
            (Ok (), set_flatten_shapes (flatten_shapes st ++ [(name layer, shape)]) st)
        | Raise e => (Raise e, st)
        end
    end.
Proof.
  intros Hz Hf. unfold add_layer. rewrite Hz, Hf.
  rewrite run_bind. unfold gets at 1. rewrite run_bind.
  unfold lift at 1, last_item.
  destruct (last (layers st)) as [prev|]; [|reflexivity].
  rewrite run_bind. unfold lift at 1.
  destruct (get_shape_from_label (label prev)); reflexivity.
Qed.

End AddLayer.

(** X7. A Flatten layer takes the shape from the label of the population
    before it: on an empty network, and after a population whose label has
    no underscore, [add_layer] raises [IndexError] and changes nothing.  The
    input layer is labelled 'InputLayer', so a Flatten layer that directly
    follows the input layer always fails. *)
Theorem flatten_needs_shape_label (layer : Layer) (st : State) :
  str_in "ZeroPadding" (class_name layer) = false →
  str_in "Flatten" (class_name layer) = true →
  (layers st = [] → add_layer layer st = (Raise IndexError, st))
  ∧ (∀ prev, last (layers st) = Some prev → contains "_" (label prev) = false →
       add_layer layer st = (Raise IndexError, st))
  ∧ (∀ input_shape st', add_input_layer input_shape st = (Ok (), st') →
       add_layer layer st' = (Raise IndexError, st')).
Proof.
  intros Hz Hf. split; [| split].
  - intros He. rewrite add_layer_flatten_run, He by assumption. reflexivity.
  - intros prev Hl Hc. rewrite add_layer_flatten_run, Hl by assumption.
    now rewrite get_shape_no_underscore.
  - intros input_shape st' Hin.
    apply add_input_layer_last in Hin as (p & Hl & Hlab & _).
    rewrite add_layer_flatten_run, Hl, Hlab by assumption. reflexivity.
Qed.

(** X8. For a layer that is neither ZeroPadding nor Flatten, [add_layer]
    needs the cell type 'IF_curr_exp' ([AttributeError] otherwise, with
    nothing changed).  It appends one population with the layer's name as
    label and the product of the non-batch dimensions as size, sets its
    membrane potential to its 'v_rest', and appends one block to the script;
    when no 'v_rest' is known it raises [KeyError] with the population
    already in place.  Since 'i_offset' is removed from the global cell
    parameters of a new object, the population's bias is the default of the
    cell type. *)
Theorem add_layer_population (layer : Layer) (st : State) :
  str_in "ZeroPadding" (class_name layer) = false →
  str_in "Flatten" (class_name layer) = false →
  (cell_types (sim st) !! "IF_curr_exp" = None →
   add_layer layer st = (Raise AttributeError, st))
  ∧ (∀ ct, cell_types (sim st) !! "IF_curr_exp" = Some ct →
       let p := sim_Population (np_prod (tail (output_shape layer))) ct
                  (cellparams st) None (name layer) in
       label p = name layer
       ∧ size p = np_prod (tail (output_shape layer))
       ∧ (∀ v, parameters p !! "v_rest" = Some v →
            add_layer layer st
            = (Ok (),
               set_fs (<[output_script_path st :=
                           default [] (fs st !! output_script_path st)
                           ++ [Script (ScriptAddLayer (name layer)
                                         (tail (output_shape layer)))]]> (fs st))
                 (set_layers (layers st ++ [pop_initialize v p]) st)))
       ∧ (parameters p !! "v_rest" = None →
            add_layer layer st = (Raise KeyError, set_layers (layers st ++ [p]) st))
       ∧ (cellparams st !! "i_offset" = None →
            i_offset p = Scalar <$> default_parameters ct !! "i_offset"))
  ∧ (∀ e c s cell df pi dt f,
       cellparams (init e c s cell df pi dt f) !! "i_offset" = None).
Proof.
  intros Hz Hf.
  assert (Hrun : add_layer layer st
    = match sim_getattr (sim st) "IF_curr_exp" with
      | Raise e => (Raise e, st)
      | Ok ct =>
          let p := sim_Population (np_prod (tail (output_shape layer))) ct
                     (cellparams st) None (name layer) in
          match pop_get "v_rest" p with
          | Raise e => (Raise e, set_layers (layers st ++ [p]) st)
          | Ok v =>
              (Ok (),
               set_fs (<[output_script_path st :=
                           default [] (fs st !! output_script_path st)
                           ++ [Script (ScriptAddLayer (name layer)
                                         (tail (output_shape layer)))]]> (fs st))
                 (set_layers (layers st ++ [pop_initialize v p]) st))
          end
      end).
  { unfold add_layer. rewrite Hz, Hf.
    rewrite run_bind. unfold gets at 1, id.
    rewrite run_bind. unfold lift at 1.
    destruct (sim_getattr (sim st) "IF_curr_exp") as [ct|e]; [|reflexivity].
    rewrite run_bind. unfold modify at 1.
    rewrite run_bind. unfold gets at 1.
    rewrite run_bind. unfold lift at 1, last_item.
    change (layers (set_layers ?l _)) with l. rewrite last_snoc.
    rewrite run_bind. unfold lift at 1.
    destruct (pop_get "v_rest" _) as [v|e]; [|reflexivity].
    rewrite run_bind. unfold modify at 1.
    rewrite alter_last_snoc. reflexivity. }
  split; [| split].
  - intros Hn. rewrite Hrun. unfold sim_getattr. now rewrite Hn.
  - intros ct Hct p. split; [reflexivity |]. split; [reflexivity |].
    assert (Hget : sim_getattr (sim st) "IF_curr_exp" = Ok ct)
      by (unfold sim_getattr; now rewrite Hct).
    split; [| split].
    + intros v Hv. rewrite Hrun, Hget. cbv zeta. fold p.
      unfold pop_get. now rewrite (getkey_Some _ _ _ Hv).
    + intros Hv. rewrite Hrun, Hget. cbv zeta. fold p.
      unfold pop_get, getkey. now rewrite Hv.
    + intros Hi. unfold i_offset, p, sim_Population. simpl.
      rewrite lookup_union, !lookup_fmap, Hi. simpl.
      now destruct (default_parameters ct !! "i_offset").
  - intros. unfold init. simpl. apply lookup_delete_eq.
Qed.

(** ** What the build methods leave alone *)

Section BuildFrame.

Lemma bind_invariant {A B} (I : State → Prop) (m : M A) (k : A → M B) (st : State) :
  I (m st).2 → (∀ a st', I st' → I (k a st').2) → I ((m ≫= k) st).2.
Proof.
  intros Hm Hk. rewrite run_bind.
  destruct (m st) as [[a|e] st']; simpl in *; [now apply Hk | exact Hm].
Qed.

Lemma fmap_alter_same {A B} (g : A → B) (f : A → A) (i : nat) (l : list A) :
  (∀ x, g (f x) = g x) → g <$> alter f i l = g <$> l.
Proof.
  intros Hf. revert i. induction l as [|a l IH]; intros [|i]; try reflexivity.
  - change (g (f a) :: (g <$> l) = g a :: (g <$> l)). now rewrite Hf.
  - change (g a :: (g <$> alter f i l) = g a :: (g <$> l)). now rewrite IH.
Qed.

Lemma label_alter_last (f : Population → Population) (ls : list Population) :
  (∀ p, label (f p) = label p) → label <$> alter_last f ls = label <$> ls.
Proof. apply fmap_alter_same. Qed.

Lemma size_alter_last (f : Population → Population) (ls : list Population) :
  (∀ p, size (f p) = size p) → size <$> alter_last f ls = size <$> ls.
Proof. apply fmap_alter_same. Qed.

Lemma populations_kept_spec (st st' : State) :
  populations_kept st st' →
  label <$> layers st' = label <$> layers st
  ∧ size <$> layers st' = size <$> layers st
  ∧ ∀ i, (S i < length (layers st))%nat → layers st' !! i = layers st !! i.
Proof.
  intros [->|[v ->]]; [repeat split |].
  split; [now apply label_alter_last |]. split; [now apply size_alter_last |].
  intros i Hi. unfold alter_last. apply list_lookup_alter_ne. lia.
Qed.

Lemma set_biases_kept (biases : list float) (st : State) :
  populations_kept st (set_biases biases st).2.
Proof.
  rewrite set_biases_run. destruct (np_any biases); [| now left].
  destruct (last (layers st)); [| now left].
  right. eexists. reflexivity.
Qed.

Lemma dense_connections_frame (layer : Layer) (st : State) :
  ∃ fl, (dense_connections layer st).2 = set_flatten_shapes fl st.
Proof.
  assert (Hid : st = set_flatten_shapes (flatten_shapes st) st) by now destruct st.
  unfold dense_connections. rewrite run_bind. unfold gets at 1, id.
  destruct (length (flatten_shapes st) =? 1)%nat.
  - destruct (last (flatten_shapes st)) as [[n shape]|];
      [| now exists (flatten_shapes st)].
    rewrite run_bind. unfold modify at 1. rewrite run_bind. unfold lift at 1.
    destruct (unpack_shape _ _) as [[[f y] x]|e]; eexists; reflexivity.
  - destruct (1 <? length (flatten_shapes st))%nat; now exists (flatten_shapes st).
Qed.

Lemma attach_projection_run (conns : list conn) (st : State) :
  attach_projection conns st
  = if simulate (config st) then
      match item_before_last (layers st) with
      | Ok pre =>
          match last_item (layers st) with
          | Ok post =>
              (Ok (), set_connections
                        (connections st ++ [sim_Projection pre post conns]) st)
          | Raise e => (Raise e, st)
          end
      | Raise e => (Raise e, st)
      end
    else (Ok (), st).
Proof.
  unfold attach_projection. rewrite run_bind. unfold gets at 1, id.
  destruct (simulate (config st)); [|reflexivity].
  rewrite run_bind. unfold lift at 1.
  destruct (item_before_last (layers st)); [|reflexivity].
  rewrite run_bind. unfold lift at 1.
  destruct (last_item (layers st)); reflexivity.
Qed.

Lemma connections_grown_same (st st' : State) :
  connections st' = connections st → connections_grown st st'.
Proof.
  intros E. exists []. rewrite app_nil_r. split; [exact E |].
  split; [simpl; lia | reflexivity].
Qed.

(** Attaching a projection and appending to the script, from a state whose
    configuration, populations and projections are those of [st0] up to the
    bias. *)
Lemma attach_and_append (conns : list conn) (block : list chunk) (p : string)
    (st0 st : State) :
  config st = config st0 → connections st = connections st0 →
  populations_kept st0 st →
  let st' := ((attach_projection conns;; append_file p block) st).2 in
  populations_kept st0 st' ∧ connections_grown st0 st'.
Proof.
  intros Hc Hconn Hk st'. subst st'. rewrite run_bind, attach_projection_run.
  assert (Hsame : populations_kept st0 st ∧ connections_grown st0 st).
  { split; [exact Hk |]. exists []. rewrite app_nil_r. repeat split; [exact Hconn |].
    simpl. lia. }
  destruct (simulate (config st)) eqn:Hs.
  - destruct (item_before_last (layers st)) as [pre|e]; [|exact Hsame].
    destruct (last_item (layers st)) as [post|e]; [|exact Hsame].
    split; [exact Hk |].
    exists [sim_Projection pre post conns].
    split; [simpl; now rewrite Hconn |].
    split; [simpl; lia | rewrite <- Hc, Hs; discriminate].
  - exact Hsame.
Qed.

Lemma build_dense_frame (layer : Layer) (st : State) :
  populations_kept st (build_dense layer st).2
  ∧ connections_grown st (build_dense layer st).2.
Proof.
  unfold build_dense. rewrite run_bind.
  pose proof (set_biases_kept (biases layer) st) as Hk.
  destruct (set_biases_frame (biases layer) st) as (ls & Hst & _).
  destruct (set_biases (biases layer) st) as [[[]|e] st1]; simpl in Hk, Hst.
  2:{ split; [exact Hk |]. subst st1. apply connections_grown_same; reflexivity. }
  rewrite run_bind.
  destruct (dense_connections_frame layer st1) as (fl & Hfl).
  destruct (dense_connections layer st1) as [[c|e] st2]; simpl in Hfl; subst st2.
  2:{ split; [exact Hk |]. subst st1. apply connections_grown_same; reflexivity. }
  assert (E : (attach_projection c;; p ← gets output_script_path;
               append_file p [Script ScriptDense]) (set_flatten_shapes fl st1)
              = (attach_projection c;;
                 append_file (output_script_path st) [Script ScriptDense])
                  (set_flatten_shapes fl st1)).
  { rewrite !run_bind. destruct (attach_projection_frame c (set_flatten_shapes fl st1))
      as (cs & Hcs).
    destruct (attach_projection c _) as [[[]|e] st3]; [|reflexivity].
    simpl in Hcs. subst st3 st1. reflexivity. }
  rewrite E. apply attach_and_append; [now subst st1 | now subst st1 | exact Hk].
Qed.

Lemma build_convolution_frame (layer : Layer) (st : State) :
  populations_kept st (build_convolution layer st).2
  ∧ connections_grown st (build_convolution layer st).2.
Proof.
  pose (P := λ s, populations_kept st s ∧ connections_grown st s).
  change (P (build_convolution layer st).2).
  assert (Hflag : ∀ b, P (set_change_padding b st))
    by (intros b; split; [now left | apply connections_grown_same; reflexivity]).
  unfold build_convolution. rewrite run_bind.
  assert (Hc : ∃ b, (consume_padding layer st).2 = set_change_padding b st).
  { assert (Hid : st = set_change_padding (change_padding st) st) by now destruct st.
    unfold consume_padding. rewrite run_bind. unfold gets at 1, id.
    destruct (change_padding st) eqn:Hcp; [| now exists false].
    destruct (padding layer) as [|mode]; [now exists true |].
    destruct (String.eqb mode "valid"); [| now exists true].
    exists false. reflexivity. }
  destruct Hc as (b & Hb).
  destruct (consume_padding layer st) as [[layer'|e] st1]; simpl in Hb; subst st1;
    [| apply Hflag].
  rewrite run_bind. unfold gets at 1, id. rewrite run_bind. unfold lift at 1.
  destruct (utils_build_convolution _ _ _ _) as [cb|e]; [| apply Hflag].
  rewrite run_bind.
  pose proof (set_biases_kept cb.2 (set_change_padding b st)) as Hk.
  destruct (set_biases_frame cb.2 (set_change_padding b st)) as (ls & Hst & _).
  destruct (set_biases cb.2 _) as [[[]|e] st1]; simpl in Hk, Hst.
  2:{ split; [exact Hk |]. subst st1. apply connections_grown_same; reflexivity. }
  pose proof (attach_and_append cb.1 [Script ScriptConvolution]
                (output_script_path st) st st1) as Ha.
  cbv zeta in Ha. rewrite run_bind in Ha. rewrite run_bind.
  destruct (attach_projection cb.1 st1) as [[[]|e] st2].
  - rewrite run_bind. unfold append_file at 1, modify at 1. unfold ret.
    apply Ha; now subst st1.
  - apply Ha; now subst st1.
Qed.

Lemma build_pooling_frame (layer : Layer) (st : State) :
  layers (build_pooling layer st).2 = layers st
  ∧ connections_grown st (build_pooling layer st).2.
Proof.
  pose (P := λ s, layers s = layers st ∧ connections_grown st s).
  change (P (build_pooling layer st).2).
  assert (Hsame : P st)
    by (split; [reflexivity | apply connections_grown_same; reflexivity]).
  unfold build_pooling. rewrite run_bind. unfold gets at 1, id.
  rewrite run_bind. unfold lift at 1.
  destruct (utils_build_pooling _ _ _) as [c|e]; [| exact Hsame].
  rewrite run_bind, attach_projection_run.
  destruct (simulate (config st)) eqn:Hs; [| exact Hsame].
  destruct (item_before_last (layers st)) as [pre|e]; [| exact Hsame].
  destruct (last_item (layers st)) as [post|e]; [| exact Hsame].
  split; [reflexivity |].
  exists [sim_Projection pre post c].
  split; [reflexivity |]. split; [simpl; lia | rewrite Hs; discriminate].
Qed.

End BuildFrame.

(** X9. The build methods never add, remove or rename a population:
    after [build_dense] and [build_convolution] the populations are those
    before the call, except that the bias of the last one may have been set;
    [build_pooling] and [compile] leave all populations as they are.  In
    particular the labels and the sizes stay, and every population but the
    last one is untouched. *)
Theorem build_keeps_populations (layer : Layer) (st : State) :
  populations_kept st (build_dense layer st).2
  ∧ populations_kept st (build_convolution layer st).2
  ∧ layers (build_pooling layer st).2 = layers st
  ∧ layers (compile st).2 = layers st
  ∧ ∀ st', populations_kept st st' →
      label <$> layers st' = label <$> layers st
      ∧ size <$> layers st' = size <$> layers st
      ∧ ∀ i, (S i < length (layers st))%nat → layers st' !! i = layers st !! i.
Proof.
  split; [apply build_dense_frame |]. split; [apply build_convolution_frame |].
  split; [apply build_pooling_frame |]. split; [reflexivity |].
  apply populations_kept_spec.
Qed.

(** X10. Each of [build_dense], [build_convolution] and [build_pooling]
    keeps the projections made so far, in their order, and adds at most
    one; when the network is not to be simulated it adds none, so that
    [save_connections] on a network without projections writes nothing. *)
Theorem build_adds_one_projection (layer : Layer) (st : State) :
  connections_grown st (build_dense layer st).2
  ∧ connections_grown st (build_convolution layer st).2
  ∧ connections_grown st (build_pooling layer st).2
  ∧ (connections st = [] → ∀ path, save_connections path st = (Ok (), st)).
Proof.
  split; [apply build_dense_frame |]. split; [apply build_convolution_frame |].
  split; [apply build_pooling_frame |].
  intros He path. unfold save_connections. rewrite run_bind. unfold gets at 1.
  rewrite He. reflexivity.
Qed.

(** X11. [build_pooling] first asks the helper for the connections, and
    hands on its error with nothing changed.  When the network is simulated
    it then joins the last two populations, the one before the last as
    source, by one new projection that holds the helper's connections, and
    raises [IndexError] with nothing changed when there are fewer than two
    populations; when the network is not simulated no population is looked
    at.  The pooling block is appended to the script last. *)
Theorem build_pooling_projection (layer : Layer) (st : State) :
  let script st' :=
    set_fs (<[output_script_path st :=
                default [] (fs st !! output_script_path st) ++ [Script ScriptPooling]]>
              (fs st)) st' in
  (∀ e, utils_build_pooling (env st) layer (delay (config st)) = Raise e →
        build_pooling layer st = (Raise e, st))
  ∧ (∀ rows, utils_build_pooling (env st) layer (delay (config st)) = Ok rows →
       (simulate (config st) = false → build_pooling layer st = (Ok (), script st))
       ∧ (simulate (config st) = true → (length (layers st) < 2)%nat →
          build_pooling layer st = (Raise IndexError, st))
       ∧ (simulate (config st) = true → ∀ ls pre post, layers st = ls ++ [pre; post] →
          build_pooling layer st
          = (Ok (), script (set_connections
                              (connections st ++ [sim_Projection pre post rows]) st))
          ∧ proj_label (sim_Projection pre post rows)
            = label pre +:+ "→" +:+ label post)).
Proof.
  intros script.
  assert (Hrun : build_pooling layer st
    = match utils_build_pooling (env st) layer (delay (config st)) with
      | Ok rows =>
          match attach_projection rows st with
          | (Ok _, st') => (Ok (), script st')
          | (Raise e, st') => (Raise e, st')
          end
      | Raise e => (Raise e, st)
      end).
  { unfold build_pooling. rewrite run_bind. unfold gets at 1, id.
    rewrite run_bind. unfold lift at 1.
    destruct (utils_build_pooling _ _ _) as [rows|e]; [|reflexivity].
    rewrite run_bind.
    destruct (attach_projection_frame rows st) as (cs & Hcs).
    destruct (attach_projection rows st) as [[[]|e] st']; [|reflexivity].
    simpl in Hcs. subst st'. reflexivity. }
  split.
  - intros e He. now rewrite Hrun, He.
  - intros rows Hrows. rewrite Hrun, Hrows, attach_projection_run.
    split; [| split].
    + intros ->. reflexivity.
    + intros -> Hl. unfold item_before_last.
      destruct (Nat.leb_spec 2 (length (layers st))); [lia | reflexivity].
    + intros -> ls pre post Hls. split; [|reflexivity].
      unfold item_before_last, last_item, getitem. rewrite Hls.
      rewrite length_app. simpl length.
      destruct (Nat.leb_spec 2 (length ls + 2)); [|lia].
      replace (length ls + 2 - 2)%nat with (length ls + 0)%nat by lia.
      rewrite lookup_app_r, Nat.add_0_r, Nat.sub_diag by lia. simpl lookup.
      change (ls ++ [pre; post]) with (ls ++ [pre] ++ [post]).
      rewrite app_assoc, last_snoc. reflexivity.
Qed.

(** ** Saving *)

Section SaveFrame.

Lemma set_fs_id (s : State) : set_fs (fs s) s = s.
Proof. now destruct s. Qed.

Lemma files_written_refl (st : State) : files_written st st.
Proof. exists (fs st). now rewrite set_fs_id. Qed.

Lemma files_written_trans (st1 st2 st3 : State) :
  files_written st1 st2 → files_written st2 st3 → files_written st1 st3.
Proof.
  intros (f & -> & Hf) (g & -> & Hg). exists g. split; [reflexivity |].
  etrans; [exact Hf | exact Hg].
Qed.

Lemma write_file_written (q : string) (c : list chunk) (st : State) :
  files_written st (write_file q c st).2.
Proof.
  eexists. split; [reflexivity |]. apply dom_insert_subseteq.
Qed.

Lemma for_written {A} (l : list A) (body : A → M unit) :
  (∀ a st, a ∈ l → (body a st).1 = Ok () ∧ files_written st (body a st).2) →
  ∀ st, (for_ l body st).1 = Ok () ∧ files_written st (for_ l body st).2.
Proof.
  induction l as [|a l IH]; intros Hbody st.
  - split; [reflexivity | apply files_written_refl].
  - change (for_ (a :: l) body st) with ((body a ≫= λ _, for_ l body) st).
    rewrite run_bind. destruct (Hbody a st) as [Hok Hw]; [left |].
    destruct (body a st) as [[[]|e] st1]; [|discriminate Hok].
    destruct (IH (λ a' s Ha', Hbody a' s (list_elem_of_further _ _ _ Ha')) st1) as [Hok' Hw'].
    split; [exact Hok' |]. eapply files_written_trans; [exact Hw | exact Hw'].
Qed.

Lemma for_app {A} (l1 l2 : list A) (body : A → M unit) (st : State) :
  for_ (l1 ++ l2) body st
  = match for_ l1 body st with
    | (Ok _, st') => for_ l2 body st'
    | (Raise e, st') => (Raise e, st')
    end.
Proof.
  revert st. induction l1 as [|a l1 IH]; intros st; [reflexivity |].
  change (for_ ((a :: l1) ++ l2) body st)
    with ((body a ≫= λ _, for_ (l1 ++ l2) body) st).
  change (for_ (a :: l1) body st) with ((body a ≫= λ _, for_ l1 body) st).
  rewrite !run_bind. destruct (body a st) as [[[]|e] st1]; [apply IH | reflexivity].
Qed.

(** The body of the loop of [save_connections]. *)
Lemma guarded_write_written (q : string) (chunks : list chunk) (st : State) :
  let m : M unit :=
    ok ← may_write q; if (ok : bool) then write_file q chunks else ret () in
  (m st).1 = Ok () ∧ files_written st (m st).2.
Proof.
  cbv zeta. rewrite run_bind, may_write_run.
  destruct (overwrite (config st) || _).
  - split; [reflexivity | apply write_file_written].
  - split; [reflexivity | apply files_written_refl].
Qed.

Lemma save_connections_written (path : string) (st : State) :
  (save_connections path st).1 = Ok ()
  ∧ files_written st (save_connections path st).2.
Proof.
  unfold save_connections. rewrite run_bind. unfold gets at 1.
  apply for_written. intros projection st' _. apply guarded_write_written.
Qed.

(** The body of the loop of [save_biases]. *)
Lemma save_bias_body (path : string) (layer : Population) (st : State) :
  let filepath := bias_path path layer in
  let m : M unit :=
    ok ← may_write filepath;
    if (ok : bool) then
      if str_in "Input" (label layer) then ret tt
      else match pop_get "i_offset" layer with
           | Raise KeyError => ret tt
           | Raise e => raise e
           | Ok (Scalar _) => ret tt
           | Ok (Vector biases) => write_file filepath [FloatRows biases]
           end
    else ret tt in
  m st
  = if overwrite (config st)
       || (if bool_decide (is_Some (fs st !! filepath))
           then answer (env st) filepath else true)
    then if str_in "Input" (label layer) then (Ok (), st)
         else match i_offset layer with
              | Some (Vector biases) => write_file filepath [FloatRows biases] st
              | _ => (Ok (), st)
              end
    else (Ok (), st).
Proof.
  cbv zeta. rewrite run_bind, may_write_run.
  destruct (overwrite (config st) || _); [|reflexivity].
  destruct (str_in "Input" (label layer)); [reflexivity |].
  unfold pop_get, getkey, i_offset.
  destruct (parameters layer !! "i_offset") as [[x|biases]|]; reflexivity.
Qed.

Lemma save_biases_written (path : string) (st : State) :
  (save_biases path st).1 = Ok () ∧ files_written st (save_biases path st).2.
Proof.
  unfold save_biases. rewrite run_bind. unfold gets at 1.
  apply for_written. intros layer st' _.
  pose proof (save_bias_body path layer st') as E. cbv zeta in E.
  unfold bias_path in E. rewrite E. clear E.
  destruct (overwrite (config st') || _);
    [| split; [reflexivity | apply files_written_refl]].
  destruct (str_in "Input" (label layer));
    [split; [reflexivity | apply files_written_refl] |].
  destruct (i_offset layer) as [[x|biases]|];
    try (split; [reflexivity | apply files_written_refl]).
  split; [reflexivity | apply write_file_written].
Qed.

Lemma population_data_outcome (p : Population) :
  match population_data p with
  | Ok _ => label p ≠ "InputLayer" → is_Some (i_offset p)
  | Raise e => e = KeyError ∧ label p ≠ "InputLayer" ∧ i_offset p = None
  end.
Proof.
  unfold population_data, pop_get, getkey, i_offset.
  destruct (bool_decide_reflect (label p ≠ "InputLayer")) as [Hl|Hl].
  - destruct (parameters p !! "i_offset") as [v|]; simpl; [eauto | auto].
  - intros Hne. now destruct Hl.
Qed.

Lemma assembly_loop_outcome (ls : list Population) (s : gmap string entry)
    (labels : list string) :
  match assembly_loop ls s labels with
  | Ok _ => biases_present ls
  | Raise e => e = KeyError ∧ ¬ biases_present ls
  end.
Proof.
  revert s labels. induction ls as [|p ls IH]; intros s labels.
  - intros p Hp. now apply elem_of_nil in Hp.
  - simpl. pose proof (population_data_outcome p) as Hp.
    destruct (population_data p) as [d|e]; simpl.
    + specialize (IH (<[label p := EDict d]> s) (labels ++ [label p])).
      destruct (assembly_loop ls _ _) as [r|e].
      * intros q Hq. apply elem_of_cons in Hq as [->|Hq]; [exact Hp | now apply IH].
      * destruct IH as [-> Hn]. split; [reflexivity |].
        intros Hall. apply Hn. intros q Hq. apply Hall. now right.
    + destruct Hp as (-> & Hl & Hn). split; [reflexivity |].
      intros Hall. destruct (Hall p) as [v Hv]; [left | exact Hl |]. congruence.
Qed.

Lemma save_assembly_written (path filename : string) (st : State) :
  files_written st (save_assembly path filename st).2
  ∧ ((save_assembly path filename st).1 = Ok ()
     ∨ save_assembly path filename st = (Raise KeyError, st)
       ∧ ¬ biases_present (layers st)).
Proof.
  pose (P := λ r : outcome () * State,
          files_written st r.2
          ∧ (r.1 = Ok () ∨ r = (Raise KeyError, st) ∧ ¬ biases_present (layers st))).
  change (P (save_assembly path filename st)).
  unfold save_assembly. rewrite run_bind, may_write_run.
  destruct (overwrite (config st) || _).
  2:{ split; [apply files_written_refl | now left]. }
  change (negb true) with false. cbv iota.
  rewrite run_bind. unfold gets at 1. rewrite run_bind. unfold lift at 1.
  pose proof (assembly_loop_outcome (layers st) ∅ []) as Hl.
  destruct (assembly_loop (layers st) ∅ []) as [sl|e].
  - split; [apply write_file_written | now left].
  - destruct Hl as [-> Hn]. split; [apply files_written_refl | now right].
Qed.

End SaveFrame.

(** X12. [save] changes nothing but the file system, and never deletes a
    file: the populations, the projections, the configuration and all other
    attributes are as before, and every path that held a file still holds
    one.  The same is true of [save_assembly], [save_connections] and
    [save_biases] on their own. *)
Theorem save_only_writes_files (path filename : string) (st : State) :
  files_written st (save path filename st).2
  ∧ files_written st (save_assembly path filename st).2
  ∧ files_written st (save_connections path st).2
  ∧ files_written st (save_biases path st).2
  ∧ ∀ st', files_written st st' →
      layers st' = layers st ∧ connections st' = connections st
      ∧ config st' = config st ∧ flatten_shapes st' = flatten_shapes st
      ∧ trace st' = trace st
      ∧ ∀ p, is_Some (fs st !! p) → is_Some (fs st' !! p).
Proof.
  split; [| split; [apply save_assembly_written |
            split; [apply save_connections_written |
            split; [apply save_biases_written |]]]].
  - unfold save. apply (bind_invariant (files_written st));
      [apply save_assembly_written |].
    intros _ st1 H1. apply (bind_invariant (files_written st)).
    + eapply files_written_trans; [exact H1 | apply save_connections_written].
    + intros _ st2 H2. eapply files_written_trans; [exact H2 | apply save_biases_written].
  - intros st' (f & -> & Hf). repeat split.
    intros p Hp. apply elem_of_dom. apply Hf. now apply elem_of_dom.
Qed.

(** X13. The only error of [save] is the [KeyError] of a population other
    than the input layer that has no bias, met while the assembly descriptor
    is put together: then nothing at all has been written.  [save] succeeds
    whenever every such population has a bias, and also when the descriptor
    may not be written; [save_connections] and [save_biases] never fail. *)
Theorem save_fails_before_writing (path filename : string) (st : State) :
  ((save path filename st).1 = Ok ()
   ∨ save path filename st = (Raise KeyError, st) ∧ ¬ biases_present (layers st))
  ∧ (biases_present (layers st) → (save path filename st).1 = Ok ())
  ∧ ((may_write (path_join path filename) st).1 = Ok false →
     (save path filename st).1 = Ok ())
  ∧ (save_connections path st).1 = Ok ()
  ∧ (save_biases path st).1 = Ok ().
Proof.
  assert (Hrest : ∀ st1, ((save_connections path;; save_biases path) st1).1 = Ok ()).
  { intros st1. rewrite run_bind.
    destruct (save_connections_written path st1) as [Hc _].
    destruct (save_connections path st1) as [[[]|e] st2]; [|discriminate Hc].
    apply save_biases_written. }
  assert (Hmain : (save path filename st).1 = Ok ()
     ∨ save path filename st = (Raise KeyError, st) ∧ ¬ biases_present (layers st)).
  { unfold save. rewrite run_bind.
    destruct (save_assembly_written path filename st) as [_ [Hok|[Hraise Hn]]].
    - destruct (save_assembly path filename st) as [[[]|e] st1]; [|discriminate Hok].
      left. apply Hrest.
    - rewrite Hraise. now right. }
  split; [exact Hmain |]. split; [| split; [| split]].
  - intros Hb. destruct Hmain as [Hok|[_ Hn]]; [exact Hok | now destruct Hn].
  - intros Hm. unfold save. rewrite run_bind. unfold save_assembly at 1.
    rewrite run_bind. destruct (may_write _ st) as [[ok|e] st1]; simpl in Hm;
      [|discriminate Hm].
    injection Hm as ->. apply Hrest.
  - apply save_connections_written.
  - apply save_biases_written.
Qed.

(** ** The files of the projections and of the biases *)

Section SavedFiles.

Lemma prefix_cons (x y : ascii) (s1 s2 : string) :
  String.prefix (String x s1) (String y s2)
  = if Ascii.eqb x y then String.prefix s1 s2 else false.
Proof.
  simpl. destruct (ascii_dec x y) as [->|Hne].
  - now rewrite Ascii.eqb_refl.
  - apply Ascii.eqb_neq in Hne. now rewrite Hne.
Qed.

Lemma prefix_nil (s : string) : String.prefix "" s = true.
Proof. now destruct s. Qed.

Lemma substring_all (s : string) : String.substring 0 (String.length s) s = s.
Proof. induction s as [|c s IH]; simpl; [reflexivity | now rewrite IH]. Qed.

Lemma partition_last_cons (sep : string) (c : ascii) (r : string) :
  partition_last sep (String c r)
  = if String.prefix sep (String c r)
    then String.substring (String.length sep)
           (String.length (String c r) - String.length sep) (String c r)
    else partition_last sep r.
Proof. reflexivity. Qed.

(** The first byte of the arrow differs from its second and third byte, so
    an arrow cannot begin inside [a] and end in the arrow that follows. *)
Lemma prefix_arrow_app (c : ascii) (a b : string) :
  String.prefix "→" (String c a) = false →
  String.prefix "→" (String c a +:+ "→" +:+ b) = false.
Proof.
  intros H. destruct a as [|c2 [|c3 a]].
  - change (String.prefix "→" (String c (String "226" (String "134" (String "146" b))))
            = false).
    rewrite !prefix_cons. destruct (Ascii.eqb "226" c); reflexivity.
  - change (String.prefix "→"
              (String c (String c2 (String "226" (String "134" (String "146" b)))))
            = false).
    rewrite !prefix_cons. destruct (Ascii.eqb "226" c); [|reflexivity].
    destruct (Ascii.eqb "134" c2); reflexivity.
  - change (String.prefix "→"
              (String c (String c2 (String c3 (a +:+ "→" +:+ b)))) = false).
    rewrite !prefix_cons, prefix_nil in *. exact H.
Qed.

Lemma partition_last_arrow (a b : string) :
  str_in "→" a = false → partition_last "→" (a +:+ "→" +:+ b) = b.
Proof.
  induction a as [|c a IH]; intros H.
  - change (partition_last "→" (String "226" (String "134" (String "146" b))) = b).
    rewrite partition_last_cons, !prefix_cons, prefix_nil.
    change (String.substring 0 (String.length b - 0) b = b).
    rewrite Nat.sub_0_r. apply substring_all.
  - change (str_in "→" (String c a))
      with (String.prefix "→" (String c a) || str_in "→" a) in H.
    apply orb_false_elim in H as [Hp Hs].
    change (String c a +:+ "→" +:+ b) with (String c (a +:+ "→" +:+ b)).
    rewrite partition_last_cons.
    change (String c (a +:+ "→" +:+ b)) with (String c a +:+ "→" +:+ b) at 1.
    rewrite (prefix_arrow_app c a b Hp). now apply IH.
Qed.

Lemma for_invariant_in {A} (I : State → Prop) (l : list A) (body : A → M unit) :
  (∀ a st, a ∈ l → I st → I (body a st).2) →
  ∀ st, I st → I (for_ l body st).2.
Proof.
  induction l as [|a l IH]; intros Hbody st Hst.
  - exact Hst.
  - change (for_ (a :: l) body st) with ((body a ≫= λ _, for_ l body) st).
    apply bind_invariant; [apply Hbody; [left | exact Hst] |].
    intros _ st' Hst'. apply IH; [|exact Hst'].
    intros a' s Ha'. apply Hbody. now right.
Qed.

End SavedFiles.

(** X14. The file of a projection is named after its target: when the
    label of the source population holds no arrow, [save_connections] writes
    a projection to the path made of the directory and the label of the
    target population, which is the path [load] reads the incoming
    connections of that population from.  With overwriting configured, the
    file of the last projection holds exactly its connections after
    [save_connections]. *)
Theorem connection_file_of_target (path : string) (pre post : Population)
    (rows : list conn) :
  str_in "→" (label pre) = false →
  connection_path path (sim_Projection pre post rows) = path_join path (label post)
  ∧ ∀ st cs, overwrite (config st) = true →
      connections st = cs ++ [sim_Projection pre post rows] →
      ∃ f, save_connections path st = (Ok (), set_fs f st)
           ∧ f !! path_join path (label post) = Some [ConnectionRows rows].
Proof.
  intros Hpre.
  assert (E : connection_path path (sim_Projection pre post rows)
              = path_join path (label post)).
  { unfold connection_path, sim_Projection, proj_label.
    now rewrite partition_last_arrow. }
  split; [exact E |]. intros st cs Ho Hc.
  unfold save_connections. rewrite run_bind. unfold gets at 1. rewrite Hc, for_app.
  match goal with |- context [for_ cs ?body st] =>
    destruct (for_written cs body) with (st := st) as [Hok (f0 & Hst & _)];
      [intros pr s _; apply guarded_write_written |];
    destruct (for_ cs body st) as [[[]|e] st1]; [|discriminate Hok]
  end.
  simpl in Hst. subst st1.
  change (for_ [?x] ?body ?s) with ((body x ≫= λ _, ret ()) s).
  cbv beta. rewrite !run_bind, may_write_run.
  change (config (set_fs f0 st)) with (config st). rewrite Ho. cbv iota beta.
  change (true || _) with true. cbv iota.
  unfold connection_path in E. rewrite E.
  eexists. split; [reflexivity |]. apply lookup_insert_eq.
Qed.

(** X15. With overwriting configured, the bias file that [save_biases]
    writes for the last population after [set_biases] holds the biases
    scaled by [dt / 100], when the label of that population does not hold
    'Input', some bias is not zero, the vector has one entry for each cell of
    the population, and the scaled entries are not all equal.  (For a vector
    of equal entries [population.get] gives a single number, and
    [save_biases] then writes no file.) *)
Theorem saved_biases_are_scaled (path : string) (biases : list float)
    (st : State) (ls : list Population) (p : Population) :
  layers st = ls ++ [p] →
  str_in "Input" (label p) = false →
  overwrite (config st) = true →
  Exists (λ b, PrimFloat.eqb b 0 = false) biases →
  Z.of_nat (length biases) = size p →
  differing ((λ b, (b * dt st / 100)%float) <$> biases) →
  ∃ st1 st2, set_biases biases st = (Ok (), st1)
    ∧ save_biases path st1 = (Ok (), st2)
    ∧ fs st2 !! bias_path path p
      = Some [FloatRows ((λ b, (b * dt st / 100)%float) <$> biases)].
Proof.
  intros Hl Hin Ho Hex _ _.
  rewrite set_biases_run, (proj2 (np_any_true biases) Hex), Hl, last_snoc,
    alter_last_snoc.
  match goal with |- ∃ st1 st2, (?r, ?s) = _ ∧ _ =>
    exists s;
    cut (∃ st2, save_biases path s = (Ok (), st2)
                ∧ fs st2 !! bias_path path p
                  = Some [FloatRows ((λ b, (b * dt st / 100)%float) <$> biases)]);
      [intros (st2 & H1 & H2); exists st2; auto |]
  end.
  unfold save_biases. rewrite run_bind. unfold gets at 1.
  change (layers (set_layers ?l _)) with l. rewrite for_app.
  match goal with |- context [for_ ls ?body ?s] =>
    destruct (for_written ls body) with (st := s) as [Hok (f0 & Hst & _)];
      [| destruct (for_ ls body s) as [[[]|e] st1]; [|discriminate Hok]]
  end.
  { intros layer s _.
    pose proof (save_bias_body path layer s) as E. cbv zeta in E.
    unfold bias_path in E. rewrite E. clear E.
    destruct (overwrite (config s) || _);
      [| split; [reflexivity | apply files_written_refl]].
    destruct (str_in "Input" (label layer));
      [split; [reflexivity | apply files_written_refl] |].
    destruct (i_offset layer) as [[x|bs]|];
      try (split; [reflexivity | apply files_written_refl]).
    split; [reflexivity | apply write_file_written]. }
  simpl in Hst. subst st1.
  change (for_ [?x] ?body ?s) with ((body x ≫= λ _, ret ()) s).
  cbv beta. rewrite run_bind.
  match goal with |- context [pop_set "i_offset" ?v p] =>
    pose proof (save_bias_body path (pop_set "i_offset" v p)
                  (set_fs f0 (set_layers (ls ++ [pop_set "i_offset" v p]) st))) as E
  end.
  cbv zeta in E. unfold bias_path in E.
  change (label (pop_set _ _ p)) with (label p) in *.
  rewrite E. clear E.
  change (config (set_fs _ (set_layers _ st))) with (config st). rewrite Ho, Hin.
  change (true || _) with true. cbv iota.
  unfold i_offset, pop_set. simpl parameters. rewrite lookup_insert_eq.
  eexists. split; [reflexivity |]. unfold bias_path. simpl. apply lookup_insert_eq.
Qed.

(** X16. [save_biases] writes bias files only: a path that is not the
    bias file of a population whose label is without 'Input' and whose bias
    is a vector (as [set_biases] leaves it) has the same contents after
    [save_biases] as before.  In particular no bias file is written for the
    input layer or for a population that still has the scalar default of its
    cell type. *)
Theorem bias_files_only (path q : string) (st : State) :
  (∀ l xs, l ∈ layers st → str_in "Input" (label l) = false →
           i_offset l = Some (Vector xs) → bias_path path l ≠ q) →
  fs (save_biases path st).2 !! q = fs st !! q.
Proof.
  intros Hq. unfold save_biases. rewrite run_bind. unfold gets at 1.
  apply (for_invariant_in (λ s, fs s !! q = fs st !! q)); [|reflexivity].
  intros layer s Hl Hs.
  pose proof (save_bias_body path layer s) as E. cbv zeta in E.
  unfold bias_path in E. rewrite E. clear E.
  destruct (overwrite (config s) || _); [|exact Hs].
  destruct (str_in "Input" (label layer)) eqn:Hin; [exact Hs |].
  destruct (i_offset layer) as [[x|bs]|] eqn:Hi; try exact Hs.
  unfold write_file, modify. simpl.
  rewrite lookup_insert_ne; [exact Hs |]. exact (Hq layer bs Hl Hin Hi).
Qed.

(** ** Loading without a replay script *)

Section LoadAssembly.

Lemma fmap_insert_same {A B} (g : A → B) (l : list A) (k : nat) (x y : A) :
  l !! k = Some y → g x = g y → g <$> <[k := x]> l = g <$> l.
Proof.
  intros Hk Hg. rewrite list_fmap_insert. apply list_insert_id.
  now rewrite list_lookup_fmap, Hk, Hg.
Qed.

Lemma load_assembly_frame (path filename : string) (st : State) :
  ∃ t, (load_assembly path filename st).2 = set_trace t st.
Proof.
  unfold load_assembly. rewrite run_bind. unfold log at 1, modify at 1.
  rewrite run_bind. unfold path_exists at 1, gets at 1.
  destruct (bool_decide _);
    [change (negb true) with false | change (negb false) with true]; cbv iota;
    [| eexists; reflexivity].
  rewrite run_bind. unfold log at 1, modify at 1.
  rewrite run_bind. unfold gets at 1, id.
  rewrite run_bind. unfold lift at 1.
  destruct (unpickle _) as [s|e]; [| eexists; reflexivity].
  rewrite run_bind. unfold lift at 1.
  destruct (getkey s "labels") as [le|e]; [| eexists; reflexivity].
  rewrite run_bind. unfold lift at 1.
  destruct (as_list le) as [labels|e]; eexists; reflexivity.
Qed.

(** What one iteration of the loop of [load] keeps. *)
Lemma load_connection_keeps (path : string) (i : nat) (ls : list Population)
    (st0 st : State) :
  let J s := label <$> layers s = label <$> ls
             ∧ size <$> layers s = size <$> ls
             ∧ (cellparams st0 !! "i_offset" = None →
                i_offset <$> layers s = i_offset <$> ls)
             ∧ connections s = connections st0 ∧ fs s = fs st0
             ∧ cellparams s = cellparams st0 in
  J st → J (load_connection path i st).2.
Proof.
  intros J HJ. unfold load_connection. rewrite run_bind. unfold gets at 1.
  rewrite run_bind. unfold lift at 1, getitem.
  destruct (layers st !! (i + 1)%nat) as [post|] eqn:Hpost; [| exact HJ].
  rewrite run_bind. unfold log at 1, modify at 1.
  rewrite run_bind. unfold path_exists at 1, gets at 1.
  destruct (bool_decide _);
    [change (negb true) with false | change (negb false) with true]; cbv iota;
    [| exact HJ].
  rewrite run_bind. unfold lift at 1.
  destruct (layers st !! i) as [pre|]; [| exact HJ].
  rewrite run_bind. unfold log at 1, modify at 1.
  rewrite run_bind. unfold gets at 1.
  rewrite run_bind. unfold lift at 1.
  destruct (pop_get "v_rest" _) as [v|e]; [| exact HJ].
  unfold modify. destruct HJ as (Hl & Hs & Hi & Hc & Hf & Hp).
  unfold J. simpl.
  rewrite !(fmap_insert_same _ _ _ _ post Hpost) by reflexivity.
  split; [exact Hl |]. split; [exact Hs |]. split; [| auto].
  intros Hn. rewrite <- (Hi Hn). apply (fmap_insert_same _ _ _ _ post Hpost).
  unfold i_offset. simpl. rewrite lookup_union, lookup_fmap, Hp, Hn. simpl.
  now destruct (parameters post !! "i_offset").
Qed.

Lemma load_run (path filename : string) (st : State) :
  fs st !! output_script_path st = None →
  load path filename st
  = match load_assembly path filename st with
    | (Ok ls, st1) =>
        for_ (seq 0 (length ls - 1)) (load_connection path) (set_layers ls st1)
    | (Raise e, st1) => (Raise e, st1)
    end.
Proof.
  intros Hn. unfold load. rewrite run_bind. unfold gets at 1.
  rewrite run_bind. unfold path_exists, gets at 1. rewrite Hn.
  rewrite bool_decide_eq_false_2 by (intros [? ?]; discriminate).
  rewrite run_bind.
  destruct (load_assembly path filename st) as [[ls|e] st1]; reflexivity.
Qed.

End LoadAssembly.

(** X17. Loading when there is no replay script.  Without a file at the
    assembly path [load] raises [AssertionError] after one logged check,
    with everything else as before.  When the assembly is read, the
    populations that [load] stores have the labels and the sizes of the
    loaded ones, whether or not a connection file is missing later; as
    'i_offset' is not among the global cell parameters, setting these on
    each population keeps the bias loaded from the assembly.  [load] does
    not record any projection and writes no file. *)
Theorem load_without_script (path filename : string) (st : State) :
  fs st !! output_script_path st = None →
  (fs st !! path_join path filename = None →
   load path filename st
   = (Raise AssertionError,
      set_trace (trace st ++ [AssertIsFile (path_join path filename)]) st))
  ∧ (∀ ls st1, load_assembly path filename st = (Ok ls, st1) →
       let st2 := (load path filename st).2 in
       label <$> layers st2 = label <$> ls
       ∧ size <$> layers st2 = size <$> ls
       ∧ (cellparams st !! "i_offset" = None →
          i_offset <$> layers st2 = i_offset <$> ls))
  ∧ connections (load path filename st).2 = connections st
  ∧ fs (load path filename st).2 = fs st.
Proof.
  intros Hn. rewrite (load_run _ _ _ Hn). split; [| split].
  - intros Ha. unfold load_assembly. rewrite run_bind. unfold log at 1, modify at 1.
    rewrite run_bind. unfold path_exists at 1, gets at 1.
    change (fs (set_trace _ st)) with (fs st). rewrite Ha.
    rewrite bool_decide_eq_false_2 by (intros [? ?]; discriminate).
    reflexivity.
  - intros ls st1 Hload. rewrite Hload.
    destruct (load_assembly_frame path filename st) as (t & Ht).
    rewrite Hload in Ht. simpl in Ht. subst st1. cbv zeta.
    pose proof (for_invariant _ (seq 0 (length ls - 1)) (load_connection path)
                  (λ i s, load_connection_keeps path i ls st s)
                  (set_layers ls (set_trace t st))) as H.
    cbv beta in H. destruct H as (Hl & Hs & Hi & _); [repeat split |].
    auto.
  - destruct (load_assembly_frame path filename st) as (t & Ht).
    destruct (load_assembly path filename st) as [[ls|e] st1]; simpl in Ht; subst st1;
      [| split; reflexivity].
    pose proof (for_invariant _ (seq 0 (length ls - 1)) (load_connection path)
                  (λ i s, load_connection_keeps path i ls st s)
                  (set_layers ls (set_trace t st))) as H.
    cbv beta in H. destruct H as (_ & _ & _ & Hc & Hf & _); [repeat split |].
    auto.
Qed.

(** ** Importing a script whose name holds a dot *)

Section ImportScript.

Lemma replace_length (a b : ascii) (s : string) :
  String.length (replace a b s) = String.length s.
Proof. induction s as [|c s IH]; simpl; [reflexivity | now rewrite IH]. Qed.

Lemma replace_changes (a b : ascii) (s : string) :
  a ≠ b → contains a s = true → replace a b s ≠ s.
Proof.
  intros Hab. induction s as [|c s IH]; simpl; [discriminate |].
  destruct (Ascii.eqb_spec c a) as [->|Hc]; simpl.
  - intros _ [= E _]. now apply Hab.
  - intros Hs [= E]. now apply IH.
Qed.

Lemma append_inv_head (p x y : string) : p +:+ x = p +:+ y → x = y.
Proof.
  induction p as [|c p IH]; simpl; [auto |]. intros [= E]. now apply IH.
Qed.

Lemma append_inv_tail (x y e : string) :
  String.length x = String.length y → x +:+ e = y +:+ e → x = y.
Proof.
  revert y. induction x as [|c x IH]; intros [|d y]; simpl; try discriminate.
  - reflexivity.
  - intros [= Hl] [= -> E]. f_equal. now apply IH.
Qed.

(** [os.path.join] keeps an absolute second part, and otherwise puts the
    same text in front of every second part. *)
Lemma path_join_cons (a : string) :
  ∃ pre, ∀ c r,
    path_join a (String c r)
    = if Ascii.eqb c "/" then String c r else pre +:+ String c r.
Proof.
  exists (match rev (list_ascii_of_string a) with
          | [] => ""
          | "/"%char :: _ => a
          | _ => a +:+ "/"
          end).
  intros c r.
  assert (Hin : match rev (list_ascii_of_string a) with
                | [] => String c r
                | "/"%char :: _ => a +:+ String c r
                | _ => a +:+ "/" +:+ String c r
                end
                = match rev (list_ascii_of_string a) with
                  | [] => ""
                  | "/"%char :: _ => a
                  | _ => a +:+ "/"
                  end +:+ String c r).
  { destruct (rev (list_ascii_of_string a)) as [|[[] [] [] [] [] [] [] []] t];
      try reflexivity; now rewrite append_assoc. }
  rewrite <- Hin. unfold path_join.
  destruct c as [[] [] [] [] [] [] [] []]; reflexivity.
Qed.

Lemma dotted_paths_differ (path filename ext : string) :
  contains "." filename = true →
  path_join path (filename +:+ ext)
  ≠ path_join path (replace "." "`" filename +:+ ext).
Proof.
  intros Hdot.
  assert (Hne : filename +:+ ext ≠ replace "." "`" filename +:+ ext).
  { intros E. apply append_inv_tail in E; [| now rewrite replace_length].
    symmetry in E. revert E. now apply replace_changes. }
  destruct filename as [|c f]; [discriminate Hdot |].
  destruct (path_join_cons path) as (pre & Hpre).
  change (replace "." "`" (String c f))
    with (String (if Ascii.eqb c "." then "`"%char else c) (replace "." "`" f)) in *.
  change (String ?x ?s +:+ ext) with (String x (s +:+ ext)) in *.
  rewrite !Hpre.
  destruct (Ascii.eqb_spec c ".") as [->|Hc].
  - change (Ascii.eqb "." "/") with false. change (Ascii.eqb "`" "/") with false.
    cbv iota. intros E. apply append_inv_head in E. discriminate E.
  - destruct (Ascii.eqb c "/"); [exact Hne |].
    intros E. apply append_inv_head in E. now apply Hne.
Qed.

End ImportScript.

(** X18. A script whose file name holds a dot is imported under a name in
    which every dot is a backquote: the file is renamed, imported, and
    renamed back.  The two paths always differ.  Without the file
    [FileNotFoundError] is raised and nothing changes.  The import sees the
    script under the changed name only, where it has replaced any file that
    was there.  When the import itself fails, nothing is renamed back: the
    file system stays as the import left it.  After a successful import the
    file that is then at the changed name is moved back under the name of
    the script, and every other path is as the import left it; when the
    import has removed that file, [FileNotFoundError] is raised. *)
Theorem import_script_dotted (path filename ext : string) (st : State) :
  contains "." filename = true →
  let filename_new := replace "." "`" filename in
  let src := path_join path (filename +:+ ext) in
  let tmp := path_join path (filename_new +:+ ext) in
  src ≠ tmp
  ∧ (fs st !! src = None →
     import_script path filename ext st = (Raise FileNotFoundError, st))
  ∧ ∀ c, fs st !! src = Some c →
      let renamed := <[tmp := c]> (delete src (fs st)) in
      renamed !! src = None ∧ renamed !! tmp = Some c
      ∧ (∀ e after,
           import_module (env st) (sys_path st) renamed filename_new = (Raise e, after) →
           import_script path filename ext st = (Raise e, set_fs after st))
      ∧ (∀ m after,
           import_module (env st) (sys_path st) renamed filename_new = (Ok m, after) →
           (after !! tmp = None →
            import_script path filename ext st
            = (Raise FileNotFoundError, set_fs after st))
           ∧ (∀ c', after !! tmp = Some c' →
                import_script path filename ext st
                = (Ok m, set_fs (<[src := c']> (delete tmp after)) st))).
Proof.
  intros Hdot filename_new src tmp.
  assert (Hne : src ≠ tmp) by now apply dotted_paths_differ.
  split; [exact Hne |].
  assert (Hrun : import_script path filename ext st
    = match fs st !! src with
      | None => (Raise FileNotFoundError, st)
      | Some c =>
          let r := import_module (env st) (sys_path st)
                     (<[tmp := c]> (delete src (fs st))) filename_new in
          match r.1 with
          | Ok m =>
              match r.2 !! tmp with
              | Some c' => (Ok m, set_fs (<[src := c']> (delete tmp r.2)) st)
              | None => (Raise FileNotFoundError, set_fs r.2 st)
              end
          | Raise e => (Raise e, set_fs r.2 st)
          end
      end).
  { unfold import_script. rewrite Hdot. fold filename_new. fold src. fold tmp.
    rewrite run_bind. unfold rename at 1.
    destruct (fs st !! src) as [c|]; [|reflexivity].
    cbv zeta. rewrite run_bind. unfold do_import at 1. cbv zeta.
    change (env (set_fs _ st)) with (env st).
    change (sys_path (set_fs _ st)) with (sys_path st).
    change (fs (set_fs ?f st)) with f.
    destruct (import_module _ _ _ _) as [[m|e] after]; [|reflexivity].
    cbn [fst snd]. rewrite run_bind. unfold rename at 1.
    change (fs (set_fs ?f _)) with f.
    destruct (after !! tmp) as [c'|]; reflexivity. }
  split.
  - intros Hs. now rewrite Hrun, Hs.
  - intros c Hs renamed. rewrite Hrun, Hs. cbv zeta. fold renamed.
    split; [| split; [| split]].
    + unfold renamed. rewrite lookup_insert_ne by congruence.
      apply lookup_delete_eq.
    + unfold renamed. apply lookup_insert_eq.
    + intros e after He. now rewrite He.
    + intros m after Hm. rewrite Hm. cbn [fst snd]. split.
      * intros Ht. now rewrite Ht.
      * intros c' Ht. now rewrite Ht.
Qed.

(** ** Errors of [build_dense] with a pending shape *)

Section DenseErrors.

Lemma new_i_error (f y x i : Z) (e : exn) :
  new_i f y x i = Raise e → e = ZeroDivisionError.
Proof.
  unfold new_i, mod_, floordiv.
  repeat case_decide; simpl; intros [= <-]; reflexivity.
Qed.

Lemma new_i_zero (f y x i : Z) :
  f = 0 ∨ x = 0 → new_i f y x i = Raise ZeroDivisionError.
Proof.
  intros Hz. unfold new_i, mod_, floordiv.
  destruct (decide (f = 0)) as [|Hf]; [reflexivity |].
  destruct (decide (f * x = 0)) as [|Hfx]; [reflexivity | lia].
Qed.

Lemma mapM_error {A B} (f : A → outcome B) (P : exn → Prop) (l : list A) (e : exn) :
  (∀ a e', f a = Raise e' → P e') → mapM f l = Raise e → P e.
Proof.
  intros Hf. induction l as [|a l IH]; [discriminate |].
  rewrite mapM_cons. destruct (f a) as [b|e'] eqn:Ha; simpl.
  - destruct (mapM f l) as [bs|e']; simpl; [discriminate |].
    intros [= <-]. now apply IH.
  - intros [= <-]. now apply (Hf a).
Qed.

Lemma swapped_connections_error (f y x : Z) (w : ndarray2) (d : float) (e : exn) :
  swapped_connections f y x w d = Raise e → e = ZeroDivisionError.
Proof.
  unfold swapped_connections.
  destruct (mapM _ (seq 0 (shape0 w))) as [rows|e'] eqn:Hm; [discriminate |].
  intros [= <-]. revert Hm.
  apply (mapM_error _ (λ e0, e0 = ZeroDivisionError)). intros i e0.
  destruct (new_i f y x (Z.of_nat i)) as [src|e''] eqn:Hn; [discriminate |].
  intros [= <-]. now apply new_i_error in Hn.
Qed.

Lemma swapped_connections_zero (f y x : Z) (w : ndarray2) (d : float) :
  f = 0 ∨ x = 0 → (0 < shape0 w)%nat →
  swapped_connections f y x w d = Raise ZeroDivisionError.
Proof.
  intros Hz Hw. unfold swapped_connections.
  destruct (shape0 w) as [|n]; [lia |].
  change (seq 0 (S n)) with (0%nat :: seq 1 n).
  rewrite mapM_cons, (new_i_zero f y x _ Hz). reflexivity.
Qed.

(** [build_dense] with exactly one pending record, after the biases. *)
Lemma build_dense_pending_run (layer : Layer) (st st1 : State) flatten_name shape :
  flatten_shapes st = [(flatten_name, shape)] →
  set_biases (biases layer) st = (Ok (), st1) →
  build_dense layer st
  = match unpack_shape (data_format st) shape with
    | Ok (f_in, y_in, x_in) =>
        match swapped_connections f_in y_in x_in (weights layer)
                (delay (config st)) with
        | Ok conns =>
            (attach_projection conns;;
             append_file (output_script_path st) [Script ScriptDense])
              (set_flatten_shapes [] st1)
        | Raise e => (Raise e, set_flatten_shapes [] st1)
        end
    | Raise e => (Raise e, set_flatten_shapes [] st1)
    end.
Proof.
  intros Hf Hb. unfold build_dense. rewrite run_bind, Hb.
  destruct (set_biases_frame (biases layer) st) as (ls & Hst & _).
  rewrite Hb in Hst. simpl in Hst. subst st1.
  rewrite run_bind. unfold dense_connections. rewrite run_bind.
  unfold gets at 1, id.
  change (flatten_shapes (set_layers ls st)) with (flatten_shapes st).
  change (data_format (set_layers ls st)) with (data_format st).
  change (config (set_layers ls st)) with (config st).
  rewrite Hf. change (length [(flatten_name, shape)] =? 1)%nat with true.
  change (last [(flatten_name, shape)]) with (Some (flatten_name, shape)).
  cbv iota beta. rewrite run_bind. unfold modify at 1.
  change (removelast [(flatten_name, shape)]) with (@nil (string * list Z)).
  rewrite run_bind. unfold lift at 1.
  destruct (unpack_shape (data_format st) shape) as [[[f y] x]|e]; [|reflexivity].
  unfold lift at 1.
  destruct (swapped_connections f y x _ _) as [conns|e]; [|reflexivity].
  rewrite !run_bind.
  destruct (attach_projection_frame conns (set_flatten_shapes [] (set_layers ls st)))
    as (cs & Hcs).
  destruct (attach_projection conns _) as [[[]|e] st3]; [|reflexivity].
  simpl in Hcs. subst st3. reflexivity.
Qed.

End DenseErrors.

(** X19. [build_dense] takes the pending FlattenShapeRecord off before it
    looks at it.  With one record pending and the biases set: a shape that
    has not three entries raises [ValueError], a channel count or width of
    zero raises [ZeroDivisionError] as soon as the weight matrix has a row,
    and in both cases the record is gone and nothing but the biases has
    changed.  Whatever the error of the call, it is one of [ValueError],
    [ZeroDivisionError] and [IndexError], and no record is pending after
    it. *)
Theorem build_dense_consumes_on_error (layer : Layer) (st st1 : State)
    (flatten_name : string) (shape : list Z) :
  flatten_shapes st = [(flatten_name, shape)] →
  set_biases (biases layer) st = (Ok (), st1) →
  (length shape ≠ 3%nat →
   build_dense layer st = (Raise ValueError, set_flatten_shapes [] st1))
  ∧ (∀ f y x, unpack_shape (data_format st) shape = Ok (f, y, x) →
       f = 0 ∨ x = 0 → (0 < shape0 (weights layer))%nat →
       build_dense layer st = (Raise ZeroDivisionError, set_flatten_shapes [] st1))
  ∧ (∀ e, (build_dense layer st).1 = Raise e →
       (e = ValueError ∨ e = ZeroDivisionError ∨ e = IndexError)
       ∧ flatten_shapes (build_dense layer st).2 = []).
Proof.
  intros Hf Hb. rewrite (build_dense_pending_run layer st st1 _ _ Hf Hb).
  split; [| split].
  - intros Hl. unfold unpack_shape.
    destruct shape as [|a [|b [|c [|d r]]]]; try reflexivity. now destruct Hl.
  - intros f y x Hu Hz Hw. rewrite Hu.
    now rewrite (swapped_connections_zero f y x _ _ Hz Hw).
  - intros e.
    destruct (unpack_shape (data_format st) shape) as [[[f y] x]|e'] eqn:Hu.
    2:{ intros [= <-]. split; [left | reflexivity].
        unfold unpack_shape in Hu.
        destruct shape as [|a [|b [|c [|d r]]]]; try (now injection Hu as <-).
        destruct (String.eqb _ _); discriminate Hu. }
    destruct (swapped_connections f y x _ _) as [conns|e'] eqn:Hs.
    2:{ intros [= <-]. split; [| reflexivity].
        right. left. now apply swapped_connections_error in Hs. }
    rewrite run_bind, attach_projection_run.
    change (config (set_flatten_shapes [] st1)) with (config st1).
    change (layers (set_flatten_shapes [] st1)) with (layers st1).
    destruct (simulate (config st1)); [| discriminate].
    unfold item_before_last, getitem, last_item.
    destruct (2 <=? length (layers st1))%nat.
    + destruct (layers st1 !! _).
      * destruct (last (layers st1)); [discriminate |].
        intros [= <-]. split; [auto | reflexivity].
      * intros [= <-]. split; [auto | reflexivity].
    + intros [= <-]. split; [auto | reflexivity].
Qed.

(** ** The module search path *)

Section SysPath.

Lemma rename_frame (src dst : string) (st : State) :
  ∃ f, (rename src dst st).2 = set_fs f st.
Proof.
  unfold rename. destruct (fs st !! src).
  - eexists. reflexivity.
  - exists (fs st). now rewrite set_fs_id.
Qed.

Lemma import_script_frame (path filename ext : string) (st : State) :
  ∃ f, (import_script path filename ext st).2 = set_fs f st.
Proof.
  unfold import_script. destruct (contains "." filename).
  2:{ eexists. reflexivity. }
  rewrite run_bind.
  destruct (rename_frame (path_join path (filename +:+ ext))
              (path_join path (replace "." "`" filename +:+ ext)) st) as (f1 & H1).
  destruct (rename _ _ st) as [[[]|e] st1]; simpl in H1; subst st1;
    [| now exists f1].
  rewrite run_bind. unfold do_import at 1. cbv zeta.
  destruct (import_module _ _ _ _) as [[m|e] after]; cbn [fst snd];
    [| eexists; reflexivity].
  rewrite run_bind.
  destruct (rename_frame (path_join path (replace "." "`" filename +:+ ext))
              (path_join path (filename +:+ ext)) (set_fs after (set_fs f1 st)))
    as (f2 & H2).
  destruct (rename _ _ (set_fs after (set_fs f1 st))) as [[[]|e] st2];
    simpl in H2; subst st2; now exists f2.
Qed.

(** [get_snn_from_script] changes the search path, the file system and the
    log of file accesses, and nothing else. *)
Lemma get_snn_from_script_frame (filepath : string) (st : State) :
  ∃ f t r,
    get_snn_from_script filepath st
    = (r, set_trace t
            (set_fs f
               (set_sys_path
                  (sys_path st ++ [abspath (env st) (dirname (env st) filepath)]) st))).
Proof.
  unfold get_snn_from_script. rewrite run_bind. unfold gets at 1.
  rewrite run_bind. unfold modify at 1. rewrite run_bind.
  match goal with |- context [import_script ?a ?b ?c ?s] =>
    destruct (import_script_frame a b c s) as (f & Hf);
    destruct (import_script a b c s) as [[m|err] st1]
  end; simpl in Hf; subst st1.
  - unfold call_get_model. cbv zeta. eexists _, _, _. reflexivity.
  - exists f, (trace st). eexists. reflexivity.
Qed.

End SysPath.

(** X20. Every call of [get_snn_from_script] appends the absolute path of
    the script's directory to the module search path, whether or not the
    import succeeds, and never takes it off again; the populations and the
    projections of the object are not touched by the call itself.  So
    [load] with a replay script present makes the search path one entry
    longer each time. *)
Theorem script_directory_on_path (filepath : string) (st : State) :
  let e := env st in
  let st' := (get_snn_from_script filepath st).2 in
  sys_path st' = sys_path st ++ [abspath e (dirname e filepath)]
  ∧ layers st' = layers st
  ∧ connections st' = connections st
  ∧ ∀ path filename, is_Some (fs st !! output_script_path st) →
      sys_path (load path filename st).2
      = sys_path st
        ++ [abspath e (dirname e (output_script_path st))].
Proof.
  intros e st'.
  destruct (get_snn_from_script_frame filepath st) as (f & t & r & Hget).
  subst st'. rewrite Hget. split; [reflexivity |]. split; [reflexivity |].
  split; [reflexivity |].
  intros path filename Hex.
  unfold load. rewrite run_bind. unfold gets at 1.
  rewrite run_bind. unfold path_exists, gets at 1.
  rewrite bool_decide_eq_true_2 by exact Hex.
  rewrite run_bind.
  destruct (get_snn_from_script_frame (output_script_path st) st)
    as (f' & t' & r' & Hget').
  rewrite Hget'. destruct r' as [[[sim' ls]|]|err]; reflexivity.
Qed.

(** ** The output shape of an extracted layer *)

Section ExtractShape.

Context {ndarray : Type}.
Variable absorb_bn :
  ndarray → ndarray → ndarray → ndarray → ndarray → ndarray → float → ndarray * ndarray.
Variable bn_layers : list string.

Lemma extract_layer_shape_run (model : Caffe.net) (layers : list Caffe.attributes)
    (layer_num : nat) (layer : Caffe.proto_layer) (out : list Z) :
  Caffe.type layer ≠ "Data" →
  match Caffe.net_blobs model !! Caffe.name layer with
  | Some shape => Ok shape
  | None => match last layers with
            | Some prev => Ok (Caffe.output_shape prev)
            | None => Raise IndexError
            end
  end = Ok out →
  ∀ a, Caffe.extract_layer absorb_bn bn_layers model layers layer_num layer
       = Ok (Some a) →
       Caffe.output_shape a = out.
Proof.
  intros Hd Hout a. unfold Caffe.extract_layer. rewrite standard_name_cases.
  apply String.eqb_neq in Hd. rewrite Hd.
  destruct (Caffe.string_in _ _); cbv iota beta zeta; rewrite Hout, ok_bind;
    (destruct (Caffe.make_label _ _ _); [rewrite ok_bind | discriminate]);
    (destruct (_ && _); [discriminate |]);
    (destruct (Caffe.extract_weights _ _ _ _ _); [rewrite ok_bind | discriminate]);
    now intros [= <-].
Qed.

(** X21. The output shape of an extracted layer is the shape of the blob
    that has the layer's name; a layer without such a blob takes over the
    output shape of the layer extracted before it, and [extract] fails with
    [IndexError] when there is none before it. *)
Theorem extract_layer_shape (model : Caffe.net) (layers : list Caffe.attributes)
    (layer_num : nat) (layer : Caffe.proto_layer) :
  Caffe.type layer ≠ "Data" →
  (∀ shape a, Caffe.net_blobs model !! Caffe.name layer = Some shape →
     Caffe.extract_layer absorb_bn bn_layers model layers layer_num layer
     = Ok (Some a) →
     Caffe.output_shape a = shape)
  ∧ (Caffe.net_blobs model !! Caffe.name layer = None →
     (layers = [] →
      Caffe.extract_layer absorb_bn bn_layers model layers layer_num layer
      = Raise IndexError)
     ∧ ∀ a, Caffe.extract_layer absorb_bn bn_layers model layers layer_num layer
            = Ok (Some a) →
            ∃ prev, last layers = Some prev
                    ∧ Caffe.output_shape a = Caffe.output_shape prev).
Proof.
  intros Hd. split; [| split].
  - intros shape a Hb. apply extract_layer_shape_run; [exact Hd | now rewrite Hb].
  - intros ->. unfold Caffe.extract_layer. rewrite standard_name_cases.
    apply String.eqb_neq in Hd. rewrite Hd, H.
    destruct (Caffe.string_in _ _); reflexivity.
  - intros a Ha. destruct (last layers) as [prev|] eqn:Hl.
    + exists prev. split; [reflexivity |].
      revert Ha. apply extract_layer_shape_run; [exact Hd | now rewrite H, Hl].
    + exfalso. revert Ha. unfold Caffe.extract_layer. rewrite standard_name_cases.
      apply String.eqb_neq in Hd. rewrite Hd, H, Hl.
      destruct (Caffe.string_in _ _); discriminate.
Qed.

End ExtractShape.

(** ** The further properties at concrete networks *)

(** X1 at the fully connected layer of the example network. *)
Lemma extract_layer_kinds_witness :
  ∃ a, Caffe.extract_layer ex_absorb_bn ["Dense"] (ex_relu_net () ()) [] 1
         ex_inner_product = Ok (Some a)
       ∧ Caffe.layer_type a = "InnerProduct" ∧ Caffe.weights a = None.
Proof.
  assert (H : Caffe.extract_layer ex_absorb_bn ["Dense"] (ex_relu_net () ()) [] 1
                ex_inner_product
              = Ok (Some {| Caffe.layer_num := 1; Caffe.layer_type := "InnerProduct";
                            Caffe.output_shape := [1; 10];
                            Caffe.label := "01InnerProduct_10";
                            Caffe.activation := None; Caffe.weights := None |}))
    by (vm_compute; reflexivity).
  destruct (extract_layer_kinds _ _ _ _ _ _ _ H) as (_ & _ & _ & H4).
  eexists. split; [exact H |]. apply H4. now left.
Defined.

(** X2 at the example network. *)
Lemma extract_lists_witness :
  Caffe.extract ex_absorb_bn ["Dense"] (ex_relu_net () ()) ex_relu_protobuf
  = Ok (ex_extracted, ["01InnerProduct_10"; "02Activation_10"], [1; 2]%nat)
  ∧ (length ex_extracted ≤ length ex_relu_protobuf)%nat.
Proof.
  assert (H : Caffe.extract ex_absorb_bn ["Dense"] (ex_relu_net () ()) ex_relu_protobuf
              = Ok (ex_extracted, ["01InnerProduct_10"; "02Activation_10"],
                    [1; 2]%nat))
    by (vm_compute; reflexivity).
  destruct (extract_lists _ _ _ _ _ _ _ H) as (_ & _ & Hlen & _).
  split; [exact H | exact Hlen].
Defined.

(** X21 at the ReLU of the example network, which follows the fully
    connected layer. *)
Lemma extract_layer_shape_witness :
  Caffe.type ex_relu ≠ "Data"
  ∧ Caffe.extract_layer (ndarray := ()) ex_absorb_bn ["Dense"] (ex_relu_net () ()) []
      2 ex_relu
    = Raise IndexError.
Proof.
  assert (H : Caffe.type ex_relu ≠ "Data") by discriminate.
  destruct (extract_layer_shape (ndarray := ()) ex_absorb_bn ["Dense"]
              (ex_relu_net () ()) [] 2 ex_relu H) as (_ & Hnone).
  split; [exact H |]. apply Hnone; reflexivity.
Defined.

(** X7 at the example Flatten layer, added right after the input layer. *)
Lemma flatten_needs_shape_label_witness :
  str_in "Flatten" (class_name ex_flatten) = true
  ∧ (add_layer ex_flatten
       (add_input_layer [1; 2; 1; 2] (ex_new "channels_last" ∅)).2).1
    = Raise IndexError.
Proof.
  destruct (flatten_needs_shape_label ex_flatten (ex_new "channels_last" ∅)
              eq_refl eq_refl) as (_ & _ & H).
  split; [reflexivity |].
  rewrite (H [1; 2; 1; 2] (add_input_layer [1; 2; 1; 2] (ex_new "channels_last" ∅)).2);
    [reflexivity | vm_compute; reflexivity].
Defined.

(** X8 at the example dense layer, added to a new network. *)
Lemma add_layer_population_witness :
  str_in "Flatten" (class_name ex_dense) = false
  ∧ (add_layer ex_dense (ex_new "channels_last" ∅)).1 = Ok ()
  ∧ i_offset (sim_Population 2 ex_if_curr_exp
                (cellparams (ex_new "channels_last" ∅)) None "02Dense_2")
    = Some (Scalar 0%float).
Proof.
  destruct (add_layer_population ex_dense (ex_new "channels_last" ∅)
              eq_refl eq_refl) as (_ & H & _).
  destruct (H ex_if_curr_exp) as (_ & _ & Hok & _ & Hoff);
    [vm_compute; reflexivity |].
  split; [reflexivity |]. split.
  - rewrite (Hok (Scalar (-65)%float)); [reflexivity | vm_compute; reflexivity].
  - change (np_prod (tail (output_shape ex_dense))) with 2 in Hoff.
    change (name ex_dense) with "02Dense_2" in Hoff.
    rewrite Hoff; [vm_compute; reflexivity | vm_compute; reflexivity].
Defined.

(** X14 at the projection from the input layer to the dense layer. *)
Lemma connection_file_of_target_witness :
  str_in "→" (label ex_input_population) = false
  ∧ connection_path "/wd" (sim_Projection ex_input_population ex_dense_population [])
    = "/wd/02Dense_2".
Proof.
  assert (H : str_in "→" (label ex_input_population) = false) by reflexivity.
  destruct (connection_file_of_target "/wd" ex_input_population ex_dense_population
              [] H) as [Hp _].
  split; [exact H |]. rewrite Hp. reflexivity.
Defined.

(** X15 at the example network with overwriting configured and the bias
    vector (0.5, 0). *)
Lemma saved_biases_are_scaled_witness :
  overwrite (config ex_overwriting) = true
  ∧ ∃ st1 st2, set_biases [0.5%float; 0%float] ex_overwriting = (Ok (), st1)
      ∧ save_biases "/wd" st1 = (Ok (), st2)
      ∧ fs st2 !! "/wd/02Dense_2_biases"
        = Some [FloatRows [(0.5 * 0.125 / 100)%float; (0 * 0.125 / 100)%float]].
Proof.
  assert (Ho : overwrite (config ex_overwriting) = true) by reflexivity.
  split; [exact Ho |].
  destruct (saved_biases_are_scaled "/wd" [0.5%float; 0%float] ex_overwriting
              (removelast (layers ex_overwriting))
              (default ex_dense_population (last (layers ex_overwriting))))
    as (st1 & st2 & H1 & H2 & H3).
  - vm_compute. reflexivity.
  - vm_compute. reflexivity.
  - exact Ho.
  - apply Exists_cons_hd. reflexivity.
  - vm_compute. reflexivity.
  - apply Exists_cons_hd. vm_compute. reflexivity.
  - exists st1, st2. split; [exact H1 |]. split; [exact H2 |].
    assert (Hp : bias_path "/wd"
                   (default ex_dense_population (last (layers ex_overwriting)))
                 = "/wd/02Dense_2_biases") by (vm_compute; reflexivity).
    rewrite Hp in H3. exact H3.
Defined.

(** X16 at the example network after its biases were set: the replay
    script is no bias file. *)
Lemma bias_files_only_witness :
  fs (save_biases "/wd" (set_biases [0.5%float; 0%float] ex_overwriting).2).2
    !! "/wd/snn.py"
  = fs (set_biases [0.5%float; 0%float] ex_overwriting).2 !! "/wd/snn.py".
Proof.
  apply bias_files_only. intros l xs Hl _ _.
  assert (HF : Forall (λ l, bias_path "/wd" l ≠ "/wd/snn.py")
                 (layers (set_biases [0.5%float; 0%float] ex_overwriting).2)).
  { apply (bool_decide_unpack _). vm_compute. exact I. }
  exact (proj1 (Forall_forall _ _) HF l Hl).
Defined.

(** X17 at a new network in an empty working directory. *)
Lemma load_without_script_witness :
  fs (ex_new "channels_last" ∅) !! output_script_path (ex_new "channels_last" ∅)
  = None
  ∧ (load "/wd" "assembly" (ex_new "channels_last" ∅)).1 = Raise AssertionError.
Proof.
  assert (H : fs (ex_new "channels_last" ∅)
                !! output_script_path (ex_new "channels_last" ∅) = None)
    by (vm_compute; reflexivity).
  destruct (load_without_script "/wd" "assembly" (ex_new "channels_last" ∅) H)
    as (Hmissing & _).
  split; [exact H |]. rewrite Hmissing; [reflexivity | vm_compute; reflexivity].
Defined.

(** X18 at the script 'snn.v2.py', which does not exist. *)
Lemma import_script_dotted_witness :
  contains "." "snn.v2" = true
  ∧ path_join "/wd" "snn.v2.py" ≠ path_join "/wd" "snn`v2.py"
  ∧ import_script "/wd" "snn.v2" ".py" (ex_new "channels_last" ∅)
    = (Raise FileNotFoundError, ex_new "channels_last" ∅).
Proof.
  assert (H : contains "." "snn.v2" = true) by reflexivity.
  destruct (import_script_dotted "/wd" "snn.v2" ".py" (ex_new "channels_last" ∅) H)
    as (Hne & Hmissing & _).
  split; [exact H |]. split; [exact Hne |].
  apply Hmissing. vm_compute. reflexivity.
Defined.

(** X19 at a network whose pending shape has two entries. *)
Lemma build_dense_consumes_on_error_witness :
  flatten_shapes ex_short_shape = [("01Flatten_4", [2; 2])]
  ∧ (build_dense ex_dense ex_short_shape).1 = Raise ValueError
  ∧ flatten_shapes (build_dense ex_dense ex_short_shape).2 = [].
Proof.
  assert (Hf : flatten_shapes ex_short_shape = [("01Flatten_4", [2; 2])])
    by (vm_compute; reflexivity).
  assert (Hb : set_biases (biases ex_dense) ex_short_shape
               = (Ok (), (set_biases (biases ex_dense) ex_short_shape).2))
    by (vm_compute; reflexivity).
  destruct (build_dense_consumes_on_error ex_dense ex_short_shape _ _ _ Hf Hb)
    as (Hlen & _).
  split; [exact Hf |]. rewrite Hlen by (simpl; lia). split; reflexivity.
Defined.

(** ** Loading from the replay script *)

Section ReplayScript.

Variable files : gmap string (list chunk).











End ReplayScript.




